(** * EcoPackAI rule engine: dimension planner, material selector,
      strength evaluator and sustainability analyzer

    Shallow embedding of [backend/models/*.py] and the properties stated
    about them.

    Numbers.  The Python code computes with binary64 floats.  The file has
    two readings of the arithmetic on the numbers a caller supplies
    (lengths, weights, drop heights):

    - the exact one: the numbers are rationals [Q] and no intermediate
      result is rounded.  It carries the properties that rounding does not
      touch: comparisons of an input with a constant, lookups, orders,
      what is raised and what is returned by the selector and the
      strength evaluator;
    - the rounded one, in the modules whose name ends in [64]: the numbers
      are binary64 data of the Standard Library's [SpecFloat] and every
      operation rounds as Python rounds it.  It carries the properties
      that depend on a rounded sum or quotient, on an overflow or on an
      underflow.

    Scores computed from the constants of the lookup tables (the products
    behind the strength scores, the additive score of the material
    selector) are binary64 in both readings, so that [int(...)] and score
    comparisons see the value Python sees.

    Decimal literals of the source are kept in the tables as the exact
    rationals that are written there; [Float64.lit] gives the double Python
    reads a literal as. *)

From Stdlib Require Import ZArith QArith Qround Lqa Lia.
From Stdlib Require Import List String Ascii Bool SpecFloat Sorted.
Import ListNotations.

(** * Python runtime: exceptions and results *)

Inductive PyError : Type :=
| ValueError
| TypeError
| KeyError
| ZeroDivisionError
| OverflowError.

Inductive result (A : Type) : Type :=
| Ok : A -> result A
| Raise : PyError -> result A.

Arguments Ok {A} _.
Arguments Raise {A} _.

Definition bind {A B : Type} (c : result A) (k : A -> result B) : result B :=
  match c with
  | Ok a => k a
  | Raise e => Raise e
  end.

Notation "x <- c ;; k" := (bind c (fun x => k))
  (at level 61, c at next level, right associativity).

Definition returns {A : Type} (c : result A) : Prop :=
  exists a, c = Ok a.

(** * Rational helpers *)

Definition Qltb (x y : Q) : bool := negb (Qle_bool y x).

(** Python's true division [x / y]. *)
Definition py_div (x y : Q) : result Q :=
  if Qeq_bool y 0 then Raise ZeroDivisionError else Ok (x / y).

(** [max(a, b)] and [min(a, b)] of two arguments keep the first one unless
    the second is strictly greater (smaller). *)
Definition py_max (a b : Q) : Q := if Qltb a b then b else a.
Definition py_min (a b : Q) : Q := if Qltb b a then b else a.

Definition Zpy_max (a b : Z) : Z := if (a <? b)%Z then b else a.
Definition Zpy_min (a b : Z) : Z := if (b <? a)%Z then b else a.

(** Truncation toward zero and rounding to the nearest integer (ties to
    even, as Python's [round]). *)
Definition Qtrunc (q : Q) : Z :=
  if Qle_bool 0 q then Qfloor q else Qceiling q.

Definition Qround_half_even (q : Q) : Z :=
  let f := Qfloor q in
  let r := q - inject_Z f in
  if Qltb r (1 # 2) then f
  else if Qltb (1 # 2) r then (f + 1)%Z
  else if Z.even f then f else (f + 1)%Z.

(** * Binary64 *)

Module Float64.

Definition prec : Z := 53.
Definition emax : Z := 1024.

Definition float : Type := spec_float.

Definition of_Z (z : Z) : float := binary_normalize prec emax z 0 false.

Definition add : float -> float -> float := SFadd prec emax.
Definition mul : float -> float -> float := SFmul prec emax.
Definition div : float -> float -> float := SFdiv prec emax.
Definition ltb : float -> float -> bool := SFltb.
Definition leb : float -> float -> bool := SFleb.
Definition eqb : float -> float -> bool := SFeqb.

(** The double denoted by the decimal literal [q]: numerator and
    denominator are exact, the quotient is rounded once. *)
Definition lit (q : Q) : float :=
  div (of_Z (Qnum q)) (of_Z (Zpos (Qden q))).

(** Exact value of a finite double. *)
Definition to_Q (x : float) : option Q :=
  match x with
  | S754_zero _ => Some 0
  | S754_finite s m e =>
      Some (inject_Z (if s then Z.neg m else Z.pos m) * Qpower 2 e)
  | S754_infinity _ => None
  | S754_nan => None
  end.

(** [int(x)]: truncation toward zero; raises on infinities and NaN. *)
Definition int (x : float) : result Z :=
  match x with
  | S754_infinity _ => Raise OverflowError
  | S754_nan => Raise ValueError
  | _ => match to_Q x with
         | Some q => Ok (Qtrunc q)
         | None => Raise ValueError
         end
  end.

End Float64.

(** * Box dimensions shared by the calculators *)

Record Dimensions : Type := mkDimensions {
  length : Q;
  width : Q;
  height : Q
}.

(** * Dimension planner ([dimension_optimizer.py]) *)

Module DimensionOptimizer.

(** The dict under ['padding_applied'], keys ['length'], ['width'],
    ['height']. *)
Record PaddingApplied : Type := mkPadding {
  padding_length : Q;
  padding_width : Q;
  padding_height : Q
}.

(** The dict [optimize] returns; [box_length], [box_width] and
    [box_height] are its keys ['length'], ['width'] and ['height']. *)
Record BoxDimensions : Type := mkBox {
  box_length : Q;
  box_width : Q;
  box_height : Q;
  volume : Q;
  space_utilization : Q;
  padding_applied : PaddingApplied
}.

(** What the other calculators read of that dict. *)
Definition dims (b : BoxDimensions) : Dimensions :=
  mkDimensions (box_length b) (box_width b) (box_height b).

Definition padding_multiplier : list (Z * Q) :=
  [(1%Z, 1.5); (2%Z, 2.0); (3%Z, 2.5); (4%Z, 3.0); (5%Z, 3.5)].

(** [d.get(k, default)] on a dict with integer keys. *)
Fixpoint get (d : list (Z * Q)) (k : Z) (default : Q) : Q :=
  match d with
  | [] => default
  | (k', v) :: rest => if (k =? k')%Z then v else get rest k default
  end.

Definition base_padding (fragility : Z) : Q :=
  get padding_multiplier fragility 2.5.

Definition weight_factor (weight : Q) : Q :=
  if Qltb 10 weight then 2.0
  else if Qltb 5 weight then 1.5
  else if Qltb 2 weight then 1.0
  else 0.5.

(** [np.ceil]. *)
Definition ceil (x : Q) : Q := inject_Z (Qceiling x).

(** [optimize].  The division for the space utilization cannot fail: the
    box volume is at least 125. *)
Definition optimize (product_length product_width product_height
                     weight : Q) (fragility : Z) : result BoxDimensions :=
  let base_padding := base_padding fragility in
  let weight_factor := weight_factor weight in
  let padding_length := base_padding + weight_factor in
  let padding_width := base_padding + weight_factor in
  let padding_height := base_padding + weight_factor in
  let optimal_length := ceil (product_length + padding_length) in
  let optimal_width := ceil (product_width + padding_width) in
  let optimal_height := ceil (product_height + padding_height) in
  let optimal_length := py_max optimal_length 5.0 in
  let optimal_width := py_max optimal_width 5.0 in
  let optimal_height := py_max optimal_height 5.0 in
  let product_volume := product_length * product_width * product_height in
  let box_volume := optimal_length * optimal_width * optimal_height in
  ratio <- py_div product_volume box_volume ;;
  let space_utilization := ratio * 100 in
  Ok (mkBox optimal_length optimal_width optimal_height box_volume
            space_utilization
            (mkPadding padding_length padding_width padding_height)).

End DimensionOptimizer.

(** * Strings *)

(** [str.lower()] on the ASCII range.  Python lower-cases by Unicode rules;
    the category names compared against are ASCII. *)
Definition lower_ascii (c : ascii) : ascii :=
  let n := nat_of_ascii c in
  if (65 <=? n)%nat && (n <=? 90)%nat then ascii_of_nat (n + 32) else c.

Fixpoint lower (s : string) : string :=
  match s with
  | EmptyString => EmptyString
  | String c rest => String (lower_ascii c) (lower rest)
  end.

(** [x in xs] for a list of strings. *)
Definition str_in (x : string) (xs : list string) : bool :=
  existsb (String.eqb x) xs.

(** * Material selector ([material_selector.py]) *)

Module MaterialSelector.

Import Float64.

Record EnvironmentalImpact : Type := mkEnv {
  co2_per_kg : Q;
  water_usage_liters : Q;
  energy_kwh : Q
}.

Record Material : Type := mkMaterial {
  name : string;
  thickness : string;
  recyclable : bool;
  biodegradable : bool;
  cost_factor : Q;
  sustainability_score : Z;
  strength_rating : string;
  best_for : list string;
  weight_limit : Q;
  fragility_max : Z;
  environmental_impact : EnvironmentalImpact
}.

(** An entry of ['alternatives'], keys ['name'], ['score'], ['thickness'],
    ['cost_factor'], ['sustainability_score']. *)
Record Alternative : Type := mkAlternative {
  alt_name : string;
  alt_score : float;
  alt_thickness : string;
  alt_cost_factor : Q;
  alt_sustainability_score : Z
}.

(** A material dict as it lives in memory: the catalog keys, and the three
    keys [select] writes into the copy it returns (absent in the catalog
    entries). *)
Record PyDict : Type := mkDict {
  fields : Material;
  selection_score : option float;
  selection_reasons : option (list string);
  alternatives : option (list Alternative)
}.

(** ** Object store *)

Definition loc : Type := nat.
Definition heap : Type := list PyDict.

(** A reference held by running code always points into the store; the
    error of [deref] is not reachable from [new]. *)
Definition deref (h : heap) (l : loc) : result PyDict :=
  match nth_error h l with
  | Some d => Ok d
  | None => Raise KeyError
  end.

Definition alloc (h : heap) (d : PyDict) : loc * heap :=
  (List.length h, h ++ [d]).

Fixpoint store (h : heap) (l : loc) (d : PyDict) : heap :=
  match h, l with
  | [], _ => []
  | _ :: rest, O => d :: rest
  | x :: rest, S l' => x :: store rest l' d
  end.

(** [d.copy()]: a new dict with the same keys and values. *)
Definition copy (h : heap) (l : loc) : result (loc * heap) :=
  d <- deref h l ;;
  Ok (alloc h d).

(** ** Dict equality ([==]) *)

Definition list_eqb {A : Type} (eqb : A -> A -> bool) :=
  fix go (xs ys : list A) : bool :=
    match xs, ys with
    | [], [] => true
    | x :: xs', y :: ys' => eqb x y && go xs' ys'
    | _, _ => false
    end.

Definition option_eqb {A : Type} (eqb : A -> A -> bool)
           (x y : option A) : bool :=
  match x, y with
  | None, None => true
  | Some a, Some b => eqb a b
  | _, _ => false
  end.

Definition env_eqb (a b : EnvironmentalImpact) : bool :=
  Qeq_bool (co2_per_kg a) (co2_per_kg b)
  && Qeq_bool (water_usage_liters a) (water_usage_liters b)
  && Qeq_bool (energy_kwh a) (energy_kwh b).

Definition material_eqb (a b : Material) : bool :=
  String.eqb (name a) (name b)
  && String.eqb (thickness a) (thickness b)
  && Bool.eqb (recyclable a) (recyclable b)
  && Bool.eqb (biodegradable a) (biodegradable b)
  && Qeq_bool (cost_factor a) (cost_factor b)
  && Z.eqb (sustainability_score a) (sustainability_score b)
  && String.eqb (strength_rating a) (strength_rating b)
  && list_eqb String.eqb (best_for a) (best_for b)
  && Qeq_bool (weight_limit a) (weight_limit b)
  && Z.eqb (fragility_max a) (fragility_max b)
  && env_eqb (environmental_impact a) (environmental_impact b).

Definition alternative_eqb (a b : Alternative) : bool :=
  String.eqb (alt_name a) (alt_name b)
  && eqb (alt_score a) (alt_score b)
  && String.eqb (alt_thickness a) (alt_thickness b)
  && Qeq_bool (alt_cost_factor a) (alt_cost_factor b)
  && Z.eqb (alt_sustainability_score a) (alt_sustainability_score b).

Definition dict_eqb (a b : PyDict) : bool :=
  material_eqb (fields a) (fields b)
  && option_eqb eqb (selection_score a) (selection_score b)
  && option_eqb (list_eqb String.eqb)
                (selection_reasons a) (selection_reasons b)
  && option_eqb (list_eqb alternative_eqb)
                (alternatives a) (alternatives b).

(** ** The catalog and the category table ([__init__]) *)

Local Open Scope string_scope.

Definition recycled_cardboard : Material :=
  mkMaterial "Recycled Cardboard" "3mm" true true 0.9 95 "Medium"
             ["books"; "apparel"; "toys"] 3.0 3 (mkEnv 0.8 20 2.5).

Definition double_wall_corrugated : Material :=
  mkMaterial "Double-Wall Corrugated Cardboard" "7mm" true true 1.5 82
             "High" ["heavy_items"; "machinery"] 15.0 4
             (mkEnv 1.2 35 4.0).

Definition kraft_paper : Material :=
  mkMaterial "100% Recycled Kraft Paper" "2mm" true true 0.8 98
             "Low-Medium" ["lightweight"; "apparel"; "documents"] 1.5 2
             (mkEnv 0.6 15 2.0).

Definition foam_insert_cardboard : Material :=
  mkMaterial "Recycled Cardboard with Biodegradable Foam" "5mm" true true
             1.3 88 "High" ["electronics"; "fragile_items"] 5.0 5
             (mkEnv 1.0 25 3.2).

Definition food_grade_cardboard : Material :=
  mkMaterial "Food-Grade Biodegradable Cardboard" "4mm" true true 1.1 92
             "Medium-High" ["food"; "cosmetics"] 4.0 3
             (mkEnv 0.9 22 2.8).

Definition molded_pulp : Material :=
  mkMaterial "Molded Pulp (Recycled Paper)" "6mm" true true 1.2 96
             "Medium-High" ["electronics"; "eggs"; "produce"] 3.5 4
             (mkEnv 0.7 18 2.3).

Definition honeycomb_cardboard : Material :=
  mkMaterial "Honeycomb Cardboard" "8mm" true true 1.6 85 "Very High"
             ["heavy_items"; "furniture"; "machinery"] 20.0 4
             (mkEnv 1.1 30 3.8).

(** The catalog in declaration order, which is the order a dict iterates
    in. *)
Definition catalog : list (string * Material) :=
  [ ("recycled_cardboard", recycled_cardboard);
    ("double_wall_corrugated", double_wall_corrugated);
    ("kraft_paper", kraft_paper);
    ("foam_insert_cardboard", foam_insert_cardboard);
    ("food_grade_cardboard", food_grade_cardboard);
    ("molded_pulp", molded_pulp);
    ("honeycomb_cardboard", honeycomb_cardboard) ].

Record CategoryPrefs : Type := mkPrefs {
  priority : string;
  preferred_materials : list string;
  min_strength : string
}.

Definition category_table : list (string * CategoryPrefs) :=
  [ ("electronics",
     mkPrefs "protection" ["foam_insert_cardboard"; "molded_pulp"] "High");
    ("food",
     mkPrefs "safety" ["food_grade_cardboard"; "molded_pulp"] "Medium");
    ("cosmetics",
     mkPrefs "presentation" ["food_grade_cardboard"; "kraft_paper"]
             "Medium");
    ("apparel",
     mkPrefs "cost" ["kraft_paper"; "recycled_cardboard"] "Low-Medium");
    ("books",
     mkPrefs "cost" ["recycled_cardboard"; "kraft_paper"] "Medium");
    ("toys",
     mkPrefs "safety" ["recycled_cardboard"; "food_grade_cardboard"]
             "Medium");
    ("other", mkPrefs "balance" ["recycled_cardboard"] "Medium") ].

(** The selector object: [self.materials] maps a key to the dict (a
    reference), [self.category_priorities] is plain data. *)
Record Selector : Type := mkSelector {
  materials : list (string * loc);
  category_priorities : list (string * CategoryPrefs)
}.

Definition fresh_dict (m : Material) : PyDict := mkDict m None None None.

Fixpoint alloc_all (h : heap) (items : list (string * Material))
  : list (string * loc) * heap :=
  match items with
  | [] => ([], h)
  | (k, m) :: rest =>
      let '(l, h1) := alloc h (fresh_dict m) in
      let '(refs, h2) := alloc_all h1 rest in
      ((k, l) :: refs, h2)
  end.

(** [MaterialSelector()]. *)
Definition new (h : heap) : Selector * heap :=
  let '(refs, h') := alloc_all h catalog in
  (mkSelector refs category_table, h').

(** ** Dict access *)

Fixpoint lookup {V : Type} (d : list (string * V)) (k : string)
  : option V :=
  match d with
  | [] => None
  | (k', v) :: rest => if String.eqb k k' then Some v else lookup rest k
  end.

(** [d[k]]. *)
Definition getitem {V : Type} (d : list (string * V)) (k : string)
  : result V :=
  match lookup d k with
  | Some v => Ok v
  | None => Raise KeyError
  end.

(** [d[k] = v]: an existing key keeps its position, a new one goes last. *)
Fixpoint setitem {V : Type} (d : list (string * V)) (k : string) (v : V)
  : list (string * V) :=
  match d with
  | [] => [(k, v)]
  | (k', v') :: rest =>
      if String.eqb k k' then (k', v) :: rest
      else (k', v') :: setitem rest k v
  end.

Fixpoint mapM {A B : Type} (f : A -> result B) (xs : list A)
  : result (list B) :=
  match xs with
  | [] => Ok []
  | x :: rest =>
      y <- f x ;;
      ys <- mapM f rest ;;
      Ok (y :: ys)
  end.

(** ** [select] *)

(** [xs.append(x)]. *)
Definition append {A : Type} (xs : list A) (x : A) : list A :=
  (xs ++ [x])%list.

Record ScoreEntry : Type := mkEntry {
  score : float;
  reasons : list string;
  material : loc
}.

Definition material_scores_t : Type := list (string * ScoreEntry).

(** Criterion 1, lines 216-231.  [None] is the [continue] that skips the
    material. *)
Definition weight_compatibility (weight : Q) (m : Material)
           (score : float) (reasons : list string)
  : result (option (float * list string)) :=
  if Qle_bool weight (weight_limit m) then
    weight_ratio <- py_div weight (weight_limit m) ;;
    if Qltb weight_ratio 0.5 then
      Ok (Some (add score (of_Z 30),
                append reasons "Excellent weight capacity"))
    else if Qltb weight_ratio 0.75 then
      Ok (Some (add score (of_Z 25), append reasons "Good weight capacity"))
    else
      Ok (Some (add score (of_Z 20),
                append reasons "Adequate weight capacity"))
  else
    Ok None.

(** Criterion 2, lines 233-246. *)
Definition fragility_handling (fragility : Z) (m : Material)
           (score : float) (reasons : list string)
  : float * list string :=
  if (fragility <=? fragility_max m)%Z then
    if (4 <=? fragility)%Z
       && str_in (strength_rating m) ["High"; "Very High"] then
      (add score (of_Z 25),
       append reasons "Excellent protection for fragile items")
    else if (4 <=? fragility)%Z then
      (add score (of_Z 15),
       append reasons "Moderate protection for fragile items")
    else
      (add score (of_Z 20), append reasons "Suitable protection level")
  else
    (add score (of_Z 5),
     append reasons "May not provide sufficient protection").

(** Criterion 3, lines 248-254. *)
Definition sustainability (m : Material)
           (score : float) (reasons : list string)
  : float * list string :=
  let sustainability_points :=
    mul (div (of_Z (sustainability_score m)) (of_Z 100)) (of_Z 20) in
  let score := add score sustainability_points in
  if (95 <=? sustainability_score m)%Z then
    (score, append reasons "Exceptional sustainability")
  else if (85 <=? sustainability_score m)%Z then
    (score, append reasons "High sustainability")
  else
    (score, reasons).

(** Criterion 4, lines 256-264: the points and the reasons of the branch
    taken.  The [elif] builds the list of the preferred materials' dicts
    and tests membership with [==]. *)
Definition category_match (h : heap) (self : Selector)
           (cat_prefs : CategoryPrefs) (category : string)
           (material_key : string) (material : PyDict)
  : result (Z * list string) :=
  if str_in material_key (preferred_materials cat_prefs) then
    Ok (15%Z, ["Optimized for " ++ category ++ " category"])
  else
    preferred <- mapM (fun k => l <- getitem (materials self) k ;;
                                deref h l)
                      (preferred_materials cat_prefs) ;;
    if existsb (dict_eqb material) preferred then
      Ok (10%Z, ["Suitable for " ++ category ++ " category"])
    else
      Ok (5%Z, []).

(** Criterion 5, lines 266-271. *)
Definition recyclability (recyclable_priority : bool) (m : Material)
           (score : float) (reasons : list string)
  : float * list string :=
  if recyclable_priority && recyclable m then
    (add score (of_Z 10), append reasons "Fully recyclable")
  else if recyclable m then
    (add score (of_Z 7), reasons)
  else
    (score, reasons).

(** Criterion 6, lines 273-282. *)
Definition cost_efficiency (m : Material)
           (score : float) (reasons : list string)
  : float * list string :=
  if leb (lit (cost_factor m)) (lit 1.0) then
    (add score (of_Z 10), append reasons "Cost-effective")
  else if leb (lit (cost_factor m)) (lit 1.3) then
    (add score (of_Z 7), append reasons "Moderate cost")
  else
    (add score (of_Z 4), append reasons "Premium pricing").

(** The body of the loop for one material: [None] when the material is
    skipped, otherwise its total score and reasons. *)
Definition score_material (h : heap) (self : Selector)
           (cat_prefs : CategoryPrefs) (category : string) (weight : Q)
           (fragility : Z) (recyclable_priority : bool)
           (material_key : string) (material : PyDict)
  : result (option (float * list string)) :=
  let m := fields material in
  let score := of_Z 0 in
  let reasons : list string := [] in
  w <- weight_compatibility weight m score reasons ;;
  match w with
  | None => Ok None
  | Some (score, reasons) =>
      let '(score, reasons) := fragility_handling fragility m score reasons in
      let '(score, reasons) := sustainability m score reasons in
      c <- category_match h self cat_prefs category material_key material ;;
      let '(points, why) := c in
      let score := add score (of_Z points) in
      let reasons := (reasons ++ why)%list in
      let '(score, reasons) :=
        recyclability recyclable_priority m score reasons in
      let '(score, reasons) := cost_efficiency m score reasons in
      Ok (Some (score, reasons))
  end.

(** [for material_key, material in self.materials.items()]. *)
Fixpoint score_loop (h : heap) (self : Selector)
         (cat_prefs : CategoryPrefs) (category : string) (weight : Q)
         (fragility : Z) (recyclable_priority : bool)
         (items : list (string * loc)) (material_scores : material_scores_t)
  : result material_scores_t :=
  match items with
  | [] => Ok material_scores
  | (material_key, l) :: rest =>
      material <- deref h l ;;
      r <- score_material h self cat_prefs category weight fragility
                          recyclable_priority material_key material ;;
      match r with
      | None =>
          score_loop h self cat_prefs category weight fragility
                     recyclable_priority rest material_scores
      | Some (s, why) =>
          score_loop h self cat_prefs category weight fragility
                     recyclable_priority rest
                     (setitem material_scores material_key
                              (mkEntry s why l))
      end
  end.

(** [max(material_scores, key=...)]: the first key whose score no later
    one exceeds; [ValueError] on an empty dict. *)
Fixpoint max_from (best : string * ScoreEntry)
         (rest : material_scores_t) : string * ScoreEntry :=
  match rest with
  | [] => best
  | x :: rest' =>
      if ltb (score (snd best)) (score (snd x)) then max_from x rest'
      else max_from best rest'
  end.

Definition max_key (material_scores : material_scores_t) : result string :=
  match material_scores with
  | [] => Raise ValueError
  | x :: rest => Ok (fst (max_from x rest))
  end.

(** [sorted(..., key=score, reverse=True)]: stable, descending. *)
Fixpoint insert_desc (x : string * ScoreEntry) (sorted : material_scores_t)
  : material_scores_t :=
  match sorted with
  | [] => [x]
  | y :: rest =>
      if ltb (score (snd y)) (score (snd x)) then x :: y :: rest
      else y :: insert_desc x rest
  end.

Definition sorted_desc (items : material_scores_t) : material_scores_t :=
  fold_left (fun acc x => insert_desc x acc) items [].

Fixpoint collect_alternatives (h : heap) (selected_key : string)
         (count : nat) (sorted_materials : material_scores_t)
         (alternatives : list Alternative) : result (list Alternative) :=
  match sorted_materials with
  | [] => Ok alternatives
  | (material_key, data) :: rest =>
      if negb (String.eqb material_key selected_key)
         && (List.length alternatives <? count)%nat then
        d <- deref h (material data) ;;
        collect_alternatives h selected_key count rest
          (append alternatives
             (mkAlternative (name (fields d)) (score data)
                            (thickness (fields d))
                            (cost_factor (fields d))
                            (sustainability_score (fields d))))
      else
        collect_alternatives h selected_key count rest alternatives
  end.

Definition _get_alternatives (h : heap)
           (material_scores : material_scores_t) (selected_key : string)
           (count : nat) : result (list Alternative) :=
  let sorted_materials := sorted_desc material_scores in
  collect_alternatives h selected_key count sorted_materials [].

(** Item assignment on the dict at [l]. *)
Definition set_selection_score (h : heap) (l : loc) (v : float)
  : result heap :=
  d <- deref h l ;;
  Ok (store h l (mkDict (fields d) (Some v) (selection_reasons d)
                        (alternatives d))).

Definition set_selection_reasons (h : heap) (l : loc) (v : list string)
  : result heap :=
  d <- deref h l ;;
  Ok (store h l (mkDict (fields d) (selection_score d) (Some v)
                        (alternatives d))).

Definition set_alternatives (h : heap) (l : loc) (v : list Alternative)
  : result heap :=
  d <- deref h l ;;
  Ok (store h l (mkDict (fields d) (selection_score d)
                        (selection_reasons d) (Some v))).

Definition normalize (category : string) : string :=
  if String.eqb category "" then "other" else lower category.

(** [self.category_priorities.get(category,
    self.category_priorities['other'])]; the default is evaluated
    first. *)
Definition get_cat_prefs (self : Selector) (category : string)
  : result CategoryPrefs :=
  other <- getitem (category_priorities self) "other" ;;
  match lookup (category_priorities self) category with
  | Some p => Ok p
  | None => Ok other
  end.

(** The first half of [select]: the dict [material_scores] after the
    loop. *)
Definition material_scores_of (self : Selector) (h : heap)
           (category : string) (weight : Q) (fragility : Z)
           (recyclable_priority : bool) : result material_scores_t :=
  let category := normalize category in
  cat_prefs <- get_cat_prefs self category ;;
  score_loop h self cat_prefs category weight fragility
             recyclable_priority (materials self) [].

(** [select]: returns a reference to the new dict and the store after the
    call. *)
Definition select (self : Selector) (h : heap) (category : string)
           (weight : Q) (fragility : Z) (recyclable_priority : bool)
  : result (loc * heap) :=
  material_scores <- material_scores_of self h category weight fragility
                                        recyclable_priority ;;
  best_material_key <- max_key material_scores ;;
  best_match <- getitem material_scores best_material_key ;;
  c <- copy h (material best_match) ;;
  let '(selected, h) := c in
  h <- set_selection_score h selected (score best_match) ;;
  h <- set_selection_reasons h selected (reasons best_match) ;;
  alts <- _get_alternatives h material_scores best_material_key 2 ;;
  h <- set_alternatives h selected alts ;;
  Ok (selected, h).

(** The dict a call returns, read back from the store. *)
Definition selected_dict (r : result (loc * heap)) : result PyDict :=
  c <- r ;;
  deref (snd c) (fst c).

(** ** The catalog queries *)

(** A row of [get_all_materials]. *)
Record MaterialInfo : Type := mkInfo {
  info_id : string;
  info_name : string;
  info_thickness : string;
  info_recyclable : bool;
  info_biodegradable : bool;
  info_sustainability_score : Z;
  info_strength_rating : string;
  info_best_for : list string;
  info_cost_factor : Q
}.

Definition get_all_materials (self : Selector) (h : heap)
  : result (list MaterialInfo) :=
  mapM (fun '(key, l) =>
          material <- deref h l ;;
          let m := fields material in
          Ok (mkInfo key (name m) (thickness m) (recyclable m)
                     (biodegradable m) (sustainability_score m)
                     (strength_rating m) (best_for m) (cost_factor m)))
       (materials self).

(** A row of [compare_materials]. *)
Record Comparison : Type := mkComparison {
  cmp_name : string;
  cmp_sustainability : Z;
  cmp_strength : string;
  cmp_cost : Q;
  cmp_co2_impact : Q
}.

Fixpoint compare_loop (self : Selector) (h : heap)
         (material_keys : list string) (comparison : list Comparison)
  : result (list Comparison) :=
  match material_keys with
  | [] => Ok comparison
  | key :: rest =>
      match lookup (materials self) key with
      | Some l =>
          material <- deref h l ;;
          let m := fields material in
          compare_loop self h rest
            (append comparison
               (mkComparison (name m) (sustainability_score m)
                             (strength_rating m) (cost_factor m)
                             (co2_per_kg (environmental_impact m))))
      | None => compare_loop self h rest comparison
      end
  end.

Definition compare_materials (self : Selector) (h : heap)
           (material_keys : list string) : result (list Comparison) :=
  compare_loop self h material_keys [].

(** A row of [get_material_by_budget]. *)
Record Affordable : Type := mkAffordable {
  aff_name : string;
  aff_cost_factor : Q;
  aff_sustainability_score : Z;
  aff_strength_rating : string
}.

Fixpoint budget_loop (h : heap) (max_cost_factor : float)
         (items : list (string * loc)) (affordable : list Affordable)
  : result (list Affordable) :=
  match items with
  | [] => Ok affordable
  | (key, l) :: rest =>
      material <- deref h l ;;
      let m := fields material in
      if leb (lit (cost_factor m)) max_cost_factor then
        budget_loop h max_cost_factor rest
          (append affordable
             (mkAffordable (name m) (cost_factor m) (sustainability_score m)
                           (strength_rating m)))
      else budget_loop h max_cost_factor rest affordable
  end.

(** [affordable.sort(key=sustainability_score, reverse=True)]: stable,
    descending. *)
Fixpoint insert_by_sustainability (x : Affordable) (sorted : list Affordable)
  : list Affordable :=
  match sorted with
  | [] => [x]
  | y :: rest =>
      if (aff_sustainability_score y <? aff_sustainability_score x)%Z
      then x :: y :: rest
      else y :: insert_by_sustainability x rest
  end.

Definition sort_by_sustainability (xs : list Affordable) : list Affordable :=
  fold_left (fun acc x => insert_by_sustainability x acc) xs [].

Definition get_material_by_budget (self : Selector) (h : heap)
           (max_cost_factor : float) : result (list Affordable) :=
  affordable <- budget_loop h max_cost_factor (materials self) [] ;;
  Ok (sort_by_sustainability affordable).

(** The dict [calculate_environmental_impact] returns; the last two fields
    are its keys ['recyclability'] and ['biodegradability']. *)
Record Impact : Type := mkImpact {
  total_co2_kg : Q;
  total_water_liters : Q;
  total_energy_kwh : Q;
  impact_recyclability : string;
  impact_biodegradability : string
}.

(** The search loop: the first dict whose name is [material_name]. *)
Fixpoint find_by_name (h : heap) (material_name : string)
         (values : list (string * loc)) : result (option PyDict) :=
  match values with
  | [] => Ok None
  | (_, l) :: rest =>
      mat <- deref h l ;;
      if String.eqb (name (fields mat)) material_name then Ok (Some mat)
      else find_by_name h material_name rest
  end.

Definition calculate_environmental_impact (self : Selector) (h : heap)
           (material_name : string) (quantity_kg : Q)
  : result (option Impact) :=
  found <- find_by_name h material_name (materials self) ;;
  match found with
  | None => Ok None
  | Some material =>
      let env := environmental_impact (fields material) in
      Ok (Some (mkImpact
                  (co2_per_kg env * quantity_kg)
                  (water_usage_liters env * quantity_kg)
                  (energy_kwh env * quantity_kg)
                  (if recyclable (fields material) then "Yes" else "No")
                  (if biodegradable (fields material) then "Yes"
                   else "No")))
  end.

End MaterialSelector.

(** * Strength evaluator ([strength_predictor.py]) *)

Module StrengthPredictor.

Import Float64.
Local Open Scope string_scope.

Record Properties : Type := mkProps {
  base_strength : Q;
  tensile_strength : Q;
  compression : Q;
  durability : Q
}.

Definition material_properties : list (string * Properties) :=
  [ ("Recycled Cardboard", mkProps 0.75 150 0.70 0.80);
    ("Double-Wall Corrugated Cardboard", mkProps 0.95 250 0.92 0.88);
    ("100% Recycled Kraft Paper", mkProps 0.65 120 0.60 0.70);
    ("Recycled Cardboard with Biodegradable Foam",
     mkProps 0.85 180 0.85 0.90);
    ("Food-Grade Biodegradable Cardboard", mkProps 0.80 160 0.78 0.82);
    ("Foam Insert Box", mkProps 0.85 140 0.88 0.85) ].

Record Analysis : Type := mkAnalysis {
  volume_weight_ratio : Q;
  geometry_rating : string;
  material_rating : string;
  load_distribution : string
}.

(** The dict [predict] returns; the three scores are its keys
    ['strength'], ['durability'] and ['compression_resistance']. *)
Record StrengthReport : Type := mkReport {
  strength_score : Z;
  durability_score : Z;
  compression_score : Z;
  overall_rating : string;
  needs_reinforcement : bool;
  reinforcement_reason : option string;
  analysis : Analysis
}.

Definition _get_rating (score : Z) : string :=
  if (90 <=? score)%Z then "Excellent"
  else if (80 <=? score)%Z then "Very Good"
  else if (70 <=? score)%Z then "Good"
  else if (60 <=? score)%Z then "Adequate"
  else "Needs Improvement".

Definition _rate_material (base_strength : float) : string :=
  if leb (lit 0.9) base_strength then "Premium"
  else if leb (lit 0.8) base_strength then "High Quality"
  else if leb (lit 0.7) base_strength then "Standard"
  else "Economy".

(** [self.material_properties.get(material_name, default)]. *)
Definition get_properties (material_name : string) : result Properties :=
  default <- MaterialSelector.getitem material_properties
                                      "Recycled Cardboard" ;;
  match MaterialSelector.lookup material_properties material_name with
  | Some p => Ok p
  | None => Ok default
  end.

Definition vw_ratio_of (dimensions : Dimensions) (weight : Q) : result Q :=
  let volume :=
    (length dimensions * width dimensions * height dimensions)%Q in
  let weight_grams := (weight * 1000)%Q in
  if Qltb 0 weight_grams then py_div volume weight_grams else Ok 0%Q.

Definition strength_factor_of (vw_ratio : Q) : float :=
  if Qltb 500 vw_ratio then lit 0.98
  else if Qltb 300 vw_ratio then lit 0.92
  else if Qltb 150 vw_ratio then lit 0.85
  else if Qltb 75 vw_ratio then lit 0.75
  else lit 0.65.

Definition fragility_factor_of (fragility : Z) (base_strength : float)
  : float :=
  if (4 <=? fragility)%Z && ltb base_strength (lit 0.8) then lit 0.90
  else if (4 <=? fragility)%Z then lit 1.05
  else if (fragility <=? 2)%Z then lit 1.02
  else lit 1.0.

Definition aspect_ratio_of (dimensions : Dimensions) : result Q :=
  let max_dim :=
    py_max (py_max (length dimensions) (width dimensions))
           (height dimensions) in
  let min_dim :=
    py_min (py_min (length dimensions) (width dimensions))
           (height dimensions) in
  if Qltb 0 min_dim then py_div max_dim min_dim else Ok 10%Q.

Definition geometry_factor_of (aspect_ratio : Q) : float :=
  if Qltb aspect_ratio 2 then lit 1.05
  else if Qltb aspect_ratio 3 then lit 1.0
  else lit 0.92.

(** [min(98, max(lo, int(x)))]. *)
Definition clamp_score (lo : Z) (x : float) : result Z :=
  n <- int x ;;
  Ok (Zpy_min 98 (Zpy_max lo n)).

Definition predict (dimensions : Dimensions) (material_name : string)
           (weight : Q) (fragility : Z) : result StrengthReport :=
  material_props <- get_properties material_name ;;
  let base_strength := lit (base_strength material_props) in
  let compression_factor := lit (compression material_props) in
  let durability_factor := lit (durability material_props) in
  vw_ratio <- vw_ratio_of dimensions weight ;;
  let strength_factor := strength_factor_of vw_ratio in
  let fragility_factor := fragility_factor_of fragility base_strength in
  aspect_ratio <- aspect_ratio_of dimensions ;;
  let geometry_factor := geometry_factor_of aspect_ratio in
  let raw_strength :=
    mul (mul (mul base_strength strength_factor) fragility_factor)
        geometry_factor in
  strength_score <- clamp_score 60 (mul raw_strength (of_Z 100)) ;;
  durability_score <-
    clamp_score 60 (mul (mul durability_factor strength_factor)
                        (of_Z 100)) ;;
  compression_score <-
    clamp_score 65 (mul (mul compression_factor geometry_factor)
                        (of_Z 100)) ;;
  let '(needs_reinforcement, reinforcement_reason) :=
    if (strength_score <? 70)%Z then
      (true, Some "Low overall strength score")
    else if Qltb 5 weight && (strength_score <? 80)%Z then
      (true, Some "Heavy product requires stronger material")
    else if (4 <=? fragility)%Z && (strength_score <? 85)%Z then
      (true, Some "Fragile product requires better protection")
    else (false, None) in
  Ok (mkReport strength_score durability_score compression_score
        (_get_rating strength_score)
        needs_reinforcement reinforcement_reason
        (mkAnalysis vw_ratio
           (if ltb (of_Z 1) geometry_factor then "Excellent"
            else if eqb geometry_factor (of_Z 1) then "Good"
            else "Fair")
           (_rate_material base_strength)
           (if ltb (lit 0.85) strength_factor then "Optimal"
            else if ltb (lit 0.75) strength_factor then "Adequate"
            else "Needs Improvement"))).

Record DropTest : Type := mkDropTest {
  will_survive : bool;
  safety_margin : Q;
  impact_energy : Q;
  material_capacity : Q;
  recommendation : string
}.

(** [predict_drop_test].  The second lookup is a bare [.get(name)]: a
    missing name gives [None], and subscripting it is a [TypeError]. *)
Definition predict_drop_test (dimensions : Dimensions)
           (material_name : string) (weight : Q) (height_cm : Q)
  : result DropTest :=
  strength_scores <- predict dimensions material_name weight 5 ;;
  let g := 9.81%Q in
  let height_m := (height_cm / 100)%Q in
  let impact_energy := (weight * g * height_m)%Q in
  match MaterialSelector.lookup material_properties material_name with
  | None => Raise TypeError
  | Some material_props =>
      let max_impact := (tensile_strength material_props * 0.5)%Q in
      let will_survive := Qltb impact_energy max_impact in
      ratio <- py_div (max_impact - impact_energy) max_impact ;;
      let safety_margin := (ratio * 100)%Q in
      Ok (mkDropTest will_survive (py_max 0 safety_margin) impact_energy
                     max_impact
                     (if will_survive then "Safe for transport"
                      else "Requires additional protection"))
  end.

End StrengthPredictor.

(** * Sustainability analyzer ([sustainability_analyzer.py])

    The tables of the analyzer and the surface of a box.  [analyze] and
    its helpers divide and compare what they have computed; they are in
    [SustainabilityAnalyzer64]. *)

Module SustainabilityAnalyzer.

Local Open Scope string_scope.

Definition over_packaging_factor : Q := 1.6.
Definition co2_per_kg_cardboard : Q := 1.2.
Definition water_per_kg_cardboard : Q := 40.
Definition energy_per_kg_cardboard : Q := 5.0.
Definition cardboard_density : Q := 700.

Definition thickness_factors : list (string * Q) :=
  [ ("2mm", 0.003); ("3mm", 0.005); ("4mm", 0.006); ("5mm", 0.008);
    ("6mm", 0.010); ("7mm", 0.012); ("8mm", 0.014) ]%Q.

(** [d.get(k, default)]. *)
Definition get {V : Type} (d : list (string * V)) (k : string)
           (default : V) : V :=
  match MaterialSelector.lookup d k with
  | Some v => v
  | None => default
  end.

Definition or_default {V : Type} (x : option V) (default : V) : V :=
  match x with
  | Some v => v
  | None => default
  end.

Local Open Scope Q_scope.

Definition _calculate_surface_area (dimensions : Dimensions) : Q :=
  let l := length dimensions in
  let w := width dimensions in
  let h := height dimensions in
  2 * (l * w + w * h + h * l).

End SustainabilityAnalyzer.

(** * The orchestrator ([app.py]) *)

Module App.








End App.

(** * Statements about results *)

(** Both calls return, and the padding reported by the first is at most the
    padding reported by the second, in every dimension. *)
Definition padding_le (r1 r2 : result DimensionOptimizer.BoxDimensions)
  : Prop :=
  exists b1 b2,
    r1 = Ok b1 /\ r2 = Ok b2 /\
    let p1 := DimensionOptimizer.padding_applied b1 in
    let p2 := DimensionOptimizer.padding_applied b2 in
    DimensionOptimizer.padding_length p1 <= DimensionOptimizer.padding_length p2
    /\ DimensionOptimizer.padding_width p1 <= DimensionOptimizer.padding_width p2
    /\ DimensionOptimizer.padding_height p1
       <= DimensionOptimizer.padding_height p2.

(** The three scores of a strength report. *)
Definition scores_of (r : result StrengthPredictor.StrengthReport)
  : result (Z * Z * Z) :=
  rep <- r ;;
  Ok (StrengthPredictor.strength_score rep,
      StrengthPredictor.durability_score rep,
      StrengthPredictor.compression_score rep).

(** The score formulas as the specification words them, for a given
    conversion of the percentage to an integer:
    strengthScore = clamp(to_int(baseStrength x strengthFactor x
    fragilityFactor x geometryFactor x 100), 60, 98),
    durabilityScore = clamp(to_int(durabilityFactor x strengthFactor x 100),
    60, 98), compressionScore = clamp(to_int(compressionFactor x
    geometryFactor x 100), 65, 98). *)
Module StrengthSpec.

Import Float64 StrengthPredictor.

Definition clamp (n lo hi : Z) : Z := Z.max lo (Z.min n hi).

(** Rounding to the nearest integer. *)
Definition round (x : float) : result Z :=
  match to_Q x with
  | Some q => Ok (Qround_half_even q)
  | None => Raise ValueError
  end.

Definition scores_formula (to_int : float -> result Z)
           (dimensions : Dimensions) (material_name : string)
           (weight : Q) (fragility : Z) : result (Z * Z * Z) :=
  props <- get_properties material_name ;;
  vw_ratio <- vw_ratio_of dimensions weight ;;
  aspect_ratio <- aspect_ratio_of dimensions ;;
  let baseStrength := lit (base_strength props) in
  let durabilityFactor := lit (durability props) in
  let compressionFactor := lit (compression props) in
  let strengthFactor := strength_factor_of vw_ratio in
  let fragilityFactor := fragility_factor_of fragility baseStrength in
  let geometryFactor := geometry_factor_of aspect_ratio in
  let rawStrength :=
    mul (mul (mul baseStrength strengthFactor) fragilityFactor)
        geometryFactor in
  s <- to_int (mul rawStrength (of_Z 100)) ;;
  d <- to_int (mul (mul durabilityFactor strengthFactor) (of_Z 100)) ;;
  c <- to_int (mul (mul compressionFactor geometryFactor) (of_Z 100)) ;;
  Ok (clamp s 60 98, clamp d 60 98, clamp c 65 98).

End StrengthSpec.

Definition is_finite (x : Float64.float) : bool :=
  match x with
  | S754_zero _ => true
  | S754_finite _ _ _ => true
  | _ => false
  end.

(** The values the three factors of [predict] range over. *)
Definition strength_factors : list Float64.float :=
  map Float64.lit [0.98; 0.92; 0.85; 0.75; 0.65].

Definition fragility_factors : list Float64.float :=
  map Float64.lit [0.90; 1.05; 1.02; 1.0].

Definition geometry_factors : list Float64.float :=
  map Float64.lit [1.05; 1.0; 0.92].

(** The three percentages of [predict] for one choice of properties and
    factors. *)
Definition percentages (p : StrengthPredictor.Properties)
           (sf ff gf : Float64.float)
  : Float64.float * Float64.float * Float64.float :=
  let mul := Float64.mul in
  let lit := Float64.lit in
  (mul (mul (mul (mul (lit (StrengthPredictor.base_strength p)) sf) ff) gf)
       (Float64.of_Z 100),
   mul (mul (lit (StrengthPredictor.durability p)) sf) (Float64.of_Z 100),
   mul (mul (lit (StrengthPredictor.compression p)) gf) (Float64.of_Z 100)).

Definition percentages_finite (p : StrengthPredictor.Properties)
           (sf ff gf : Float64.float) : bool :=
  let '(s, d, c) := percentages p sf ff gf in
  is_finite s && is_finite d && is_finite c.

(** The selector as [MaterialSelector()] builds it in an empty store, and
    the stores that calls to [select] lead to from there. *)
Definition builtin : MaterialSelector.Selector * MaterialSelector.heap :=
  MaterialSelector.new [].

Definition self0 : MaterialSelector.Selector := fst builtin.
Definition h0 : MaterialSelector.heap := snd builtin.

Inductive reachable : MaterialSelector.heap -> Prop :=
| reach_new : reachable h0
| reach_select (h : MaterialSelector.heap) (category : string) (weight : Q)
               (fragility : Z) (recyclable_priority : bool)
               (l : MaterialSelector.loc) (h' : MaterialSelector.heap) :
    reachable h ->
    MaterialSelector.select self0 h category weight fragility
                            recyclable_priority = Ok (l, h') ->
    reachable h'.

(** Two stores hold the same dict behind every reference of
    [self.materials]. *)
Definition agree (self : MaterialSelector.Selector)
           (h h' : MaterialSelector.heap) : Prop :=
  forall k l, In (k, l) (MaterialSelector.materials self) ->
              MaterialSelector.deref h l = MaterialSelector.deref h' l.

(** The category-affinity outcome when only key membership counts. *)
Definition key_membership_points (cat_prefs : MaterialSelector.CategoryPrefs)
           (category material_key : string) : Z * list string :=
  if str_in material_key (MaterialSelector.preferred_materials cat_prefs)
  then (15%Z, [("Optimized for " ++ category ++ " category")%string])
  else (5%Z, []).

(** The dict [select] hands back, as a value: the winner's catalog record
    with the score, the reasons and the alternatives of the candidate
    table. *)
Definition selection_of (ms : MaterialSelector.material_scores_t)
  : result MaterialSelector.PyDict :=
  k <- MaterialSelector.max_key ms ;;
  e <- MaterialSelector.getitem ms k ;;
  d <- MaterialSelector.deref h0 (MaterialSelector.material e) ;;
  alts <- MaterialSelector._get_alternatives h0 ms k 2 ;;
  Ok (MaterialSelector.mkDict (MaterialSelector.fields d)
        (Some (MaterialSelector.score e))
        (Some (MaterialSelector.reasons e))
        (Some alts)).

(** The store after one call on the fresh selector. *)
Definition after_first_call : MaterialSelector.heap :=
  match MaterialSelector.select self0 h0 "electronics" 0.5 5 true with
  | Ok (_, h) => h
  | Raise _ => h0
  end.

(** The pairs [(lo, hi)] of a descending list in which [lo] does not come
    before [hi]. *)
Fixpoint ordered_pairs (l : list Float64.float)
  : list (Float64.float * Float64.float) :=
  match l with
  | [] => []
  | hi :: rest =>
      (hi, hi) :: (map (fun lo => (lo, hi)) rest ++ ordered_pairs rest)%list
  end.

(** For one choice of properties and factors: the strength and durability
    scores with the lower strength factor are at most those with the
    higher one. *)
Definition scores_monotone_at (p : StrengthPredictor.Properties)
           (lo_hi : Float64.float * Float64.float)
           (ff gf : Float64.float) : bool :=
  let '(lo, hi) := lo_hi in
  let '(s_lo, d_lo, _) := percentages p lo ff gf in
  let '(s_hi, d_hi, _) := percentages p hi ff gf in
  match StrengthPredictor.clamp_score 60 s_lo,
        StrengthPredictor.clamp_score 60 s_hi,
        StrengthPredictor.clamp_score 60 d_lo,
        StrengthPredictor.clamp_score 60 d_hi with
  | Ok a, Ok b, Ok c, Ok d => (a <=? b)%Z && (c <=? d)%Z
  | _, _, _, _ => false
  end.

(** A score between 57 and 105. *)
Definition score_in_range (s : Float64.float) : Prop :=
  Float64.leb (Float64.of_Z 57) s = true
  /\ Float64.leb s (Float64.of_Z 105) = true.

(** The alternative built from an entry of the candidate table. *)
Definition alternative_of (h : MaterialSelector.heap)
           (x : string * MaterialSelector.ScoreEntry)
  : MaterialSelector.Alternative :=
  match MaterialSelector.deref h (MaterialSelector.material (snd x)) with
  | Ok d =>
      MaterialSelector.mkAlternative
        (MaterialSelector.name (MaterialSelector.fields d))
        (MaterialSelector.score (snd x))
        (MaterialSelector.thickness (MaterialSelector.fields d))
        (MaterialSelector.cost_factor (MaterialSelector.fields d))
        (MaterialSelector.sustainability_score (MaterialSelector.fields d))
  | Raise _ =>
      MaterialSelector.mkAlternative
        EmptyString (MaterialSelector.score (snd x)) EmptyString 0 0
  end.

(** The candidates other than the winner, best first. *)
Definition runners_up (ms : MaterialSelector.material_scores_t)
           (selected_key : string) : MaterialSelector.material_scores_t :=
  filter (fun x => negb (String.eqb (fst x) selected_key))
         (MaterialSelector.sorted_desc ms).

(** [a] is not scored below [b]. *)
Definition not_below (a b : Float64.float) : Prop :=
  Float64.ltb a b = false.
(** The rows the catalog queries produce for one catalog entry. *)
Definition catalog_row (x : string * MaterialSelector.Material)
  : MaterialSelector.MaterialInfo :=
  let m := snd x in
  MaterialSelector.mkInfo
    (fst x) (MaterialSelector.name m) (MaterialSelector.thickness m)
    (MaterialSelector.recyclable m) (MaterialSelector.biodegradable m)
    (MaterialSelector.sustainability_score m)
    (MaterialSelector.strength_rating m) (MaterialSelector.best_for m)
    (MaterialSelector.cost_factor m).

Definition comparison_row (key : string)
  : list MaterialSelector.Comparison :=
  match MaterialSelector.lookup MaterialSelector.catalog key with
  | Some m =>
      [MaterialSelector.mkComparison
         (MaterialSelector.name m)
         (MaterialSelector.sustainability_score m)
         (MaterialSelector.strength_rating m)
         (MaterialSelector.cost_factor m)
         (MaterialSelector.co2_per_kg
            (MaterialSelector.environmental_impact m))]
  | None => []
  end.

Definition affordable_row (m : MaterialSelector.Material)
  : MaterialSelector.Affordable :=
  MaterialSelector.mkAffordable
    (MaterialSelector.name m) (MaterialSelector.cost_factor m)
    (MaterialSelector.sustainability_score m)
    (MaterialSelector.strength_rating m).

Definition within_budget (max_cost_factor : Float64.float)
           (m : MaterialSelector.Material) : bool :=
  Float64.leb (Float64.lit (MaterialSelector.cost_factor m))
              max_cost_factor.

(** What the scoring of a table entry keeps when the reasons are left out:
    the key, the score and the material. *)
Definition cores (ms : MaterialSelector.material_scores_t)
  : list (string * (Float64.float * MaterialSelector.loc)) :=
  map (fun x => (fst x, (MaterialSelector.score (snd x),
                         MaterialSelector.material (snd x)))) ms.

(** A selection without its reasons: the record, the score and the
    alternatives (or the error). *)
Definition selection_core (r : result MaterialSelector.PyDict)
  : result (MaterialSelector.Material * option Float64.float
            * option (list MaterialSelector.Alternative)) :=
  d <- r ;;
  Ok (MaterialSelector.fields d, MaterialSelector.selection_score d,
      MaterialSelector.alternatives d).

(** The outcome of scoring one material without its reasons. *)
Definition score_only (r : result (option (Float64.float * list string)))
  : result (option Float64.float) :=
  o <- r ;; Ok (option_map fst o).

(** * The calculators in double precision

    The planner and the strength evaluator once more, and the analyzer, with
    every caller-supplied number a binary64 value and every operation
    rounded as Python rounds it.  The properties that depend on a rounded
    sum, on an overflow or underflow, or on the side of a threshold a
    quotient falls on are stated about these definitions. *)

Module Double.

Import Float64.

Definition zero : float := S754_zero false.

Definition sub : float -> float -> float := SFsub prec emax.

(** A datum of the binary64 format: mantissa and exponent are in the
    canonical form of the format. *)
Definition is_double (x : float) : bool := valid_binary prec emax x.

Definition is_nan (x : float) : bool :=
  match x with
  | S754_nan => true
  | _ => false
  end.

(** [max(a, b)] and [min(a, b)] keep the first argument unless the second
    is strictly greater (smaller); a NaN never is. *)
Definition max (a b : float) : float := if ltb a b then b else a.
Definition min (a b : float) : float := if ltb b a then b else a.

(** Python's [x / y] on floats. *)
Definition truediv (x y : float) : result float :=
  if eqb y zero then Raise ZeroDivisionError else Ok (div x y).

(** [np.ceil]: the smallest integer not below [x], as a double.  A double
    with a non-negative exponent is an integer already; otherwise the
    ceiling of [m / 2^(-e)] has at most 53 bits and [of_Z] is exact.  A
    negative value above -1 gives -0.0. *)
Definition ceil (x : float) : float :=
  match x with
  | S754_finite s m e =>
      if (0 <=? e)%Z then x
      else
        let z := if s then Z.neg m else Z.pos m in
        let n := (- ((- z) / 2 ^ (- e)))%Z in
        if (n =? 0)%Z then S754_zero s else of_Z n
  | _ => x
  end.

Record Dimensions : Type := mkDimensions {
  length : float;
  width : float;
  height : float
}.

End Double.

(** ** Dimension planner *)

Module DimensionOptimizer64.

Import Float64.

Record PaddingApplied : Type := mkPadding {
  padding_length : float;
  padding_width : float;
  padding_height : float
}.

Record BoxDimensions : Type := mkBox {
  box_length : float;
  box_width : float;
  box_height : float;
  volume : float;
  space_utilization : float;
  padding_applied : PaddingApplied
}.

Definition dims (b : BoxDimensions) : Double.Dimensions :=
  Double.mkDimensions (box_length b) (box_width b) (box_height b).

(** [padding_multiplier.get(fragility, 2.5)]. *)
Definition base_padding (fragility : Z) : float :=
  lit (DimensionOptimizer.get DimensionOptimizer.padding_multiplier
                              fragility 2.5).

Definition weight_factor (weight : float) : float :=
  if ltb (of_Z 10) weight then lit 2.0
  else if ltb (of_Z 5) weight then lit 1.5
  else if ltb (of_Z 2) weight then lit 1.0
  else lit 0.5.

(** [optimize].  It has no failing path on floats: the box volume is the
    Python float 125.0 when all three sides are the 5.0 of [max], and a
    NumPy double otherwise, whose division does not raise. *)
Definition optimize (product_length product_width product_height
                     weight : float) (fragility : Z) : BoxDimensions :=
  let base_padding := base_padding fragility in
  let weight_factor := weight_factor weight in
  let padding_length := add base_padding weight_factor in
  let padding_width := add base_padding weight_factor in
  let padding_height := add base_padding weight_factor in
  let optimal_length := Double.ceil (add product_length padding_length) in
  let optimal_width := Double.ceil (add product_width padding_width) in
  let optimal_height := Double.ceil (add product_height padding_height) in
  let optimal_length := Double.max optimal_length (lit 5.0) in
  let optimal_width := Double.max optimal_width (lit 5.0) in
  let optimal_height := Double.max optimal_height (lit 5.0) in
  let product_volume :=
    mul (mul product_length product_width) product_height in
  let box_volume := mul (mul optimal_length optimal_width) optimal_height in
  let space_utilization := mul (div product_volume box_volume) (of_Z 100) in
  mkBox optimal_length optimal_width optimal_height box_volume
        space_utilization
        (mkPadding padding_length padding_width padding_height).

End DimensionOptimizer64.

(** ** Strength evaluator *)

Module StrengthPredictor64.

Import Float64.
Local Open Scope string_scope.

Record Analysis : Type := mkAnalysis {
  volume_weight_ratio : float;
  geometry_rating : string;
  material_rating : string;
  load_distribution : string
}.

Record StrengthReport : Type := mkReport {
  strength_score : Z;
  durability_score : Z;
  compression_score : Z;
  overall_rating : string;
  needs_reinforcement : bool;
  reinforcement_reason : option string;
  analysis : Analysis
}.

Definition strength_factor_of (vw_ratio : float) : float :=
  if ltb (of_Z 500) vw_ratio then lit 0.98
  else if ltb (of_Z 300) vw_ratio then lit 0.92
  else if ltb (of_Z 150) vw_ratio then lit 0.85
  else if ltb (of_Z 75) vw_ratio then lit 0.75
  else lit 0.65.

Definition geometry_factor_of (aspect_ratio : float) : float :=
  if ltb aspect_ratio (of_Z 2) then lit 1.05
  else if ltb aspect_ratio (of_Z 3) then lit 1.0
  else lit 0.92.

(** [predict].  Both divisions are guarded by a test that the divisor is
    positive. *)
Definition predict (dimensions : Double.Dimensions) (material_name : string)
           (weight : float) (fragility : Z) : result StrengthReport :=
  material_props <- StrengthPredictor.get_properties material_name ;;
  let base_strength := lit (StrengthPredictor.base_strength material_props) in
  let compression_factor :=
    lit (StrengthPredictor.compression material_props) in
  let durability_factor :=
    lit (StrengthPredictor.durability material_props) in
  let volume :=
    mul (mul (Double.length dimensions) (Double.width dimensions))
        (Double.height dimensions) in
  let weight_grams := mul weight (of_Z 1000) in
  let vw_ratio :=
    if ltb Double.zero weight_grams then div volume weight_grams
    else Double.zero in
  let strength_factor := strength_factor_of vw_ratio in
  let fragility_factor :=
    StrengthPredictor.fragility_factor_of fragility base_strength in
  let max_dim :=
    Double.max (Double.max (Double.length dimensions)
                           (Double.width dimensions))
               (Double.height dimensions) in
  let min_dim :=
    Double.min (Double.min (Double.length dimensions)
                           (Double.width dimensions))
               (Double.height dimensions) in
  let aspect_ratio :=
    if ltb Double.zero min_dim then div max_dim min_dim else of_Z 10 in
  let geometry_factor := geometry_factor_of aspect_ratio in
  let raw_strength :=
    mul (mul (mul base_strength strength_factor) fragility_factor)
        geometry_factor in
  strength_score <-
    StrengthPredictor.clamp_score 60 (mul raw_strength (of_Z 100)) ;;
  durability_score <-
    StrengthPredictor.clamp_score
      60 (mul (mul durability_factor strength_factor) (of_Z 100)) ;;
  compression_score <-
    StrengthPredictor.clamp_score
      65 (mul (mul compression_factor geometry_factor) (of_Z 100)) ;;
  let '(needs_reinforcement, reinforcement_reason) :=
    if (strength_score <? 70)%Z then
      (true, Some "Low overall strength score")
    else if ltb (of_Z 5) weight && (strength_score <? 80)%Z then
      (true, Some "Heavy product requires stronger material")
    else if (4 <=? fragility)%Z && (strength_score <? 85)%Z then
      (true, Some "Fragile product requires better protection")
    else (false, None) in
  Ok (mkReport strength_score durability_score compression_score
        (StrengthPredictor._get_rating strength_score)
        needs_reinforcement reinforcement_reason
        (mkAnalysis vw_ratio
           (if ltb (of_Z 1) geometry_factor then "Excellent"
            else if eqb geometry_factor (of_Z 1) then "Good"
            else "Fair")
           (StrengthPredictor._rate_material base_strength)
           (if ltb (lit 0.85) strength_factor then "Optimal"
            else if ltb (lit 0.75) strength_factor then "Adequate"
            else "Needs Improvement"))).

End StrengthPredictor64.

(** ** Sustainability analyzer *)

Module SustainabilityAnalyzer64.

Import Float64.
Local Open Scope string_scope.

(** The [material] argument is a dict read with [.get]: any key may be
    missing. *)
Record EnvArg : Type := mkEnvArg {
  co2_per_kg : option float;
  water_usage_liters : option float;
  energy_kwh : option float
}.

Record MaterialArg : Type := mkMaterialArg {
  thickness : option string;
  environmental_impact : option EnvArg;
  sustainability_score : option float
}.

(** The view [analyze] has of a dict returned by the selector. *)
Definition of_selection (d : MaterialSelector.PyDict) : MaterialArg :=
  let m := MaterialSelector.fields d in
  let e := MaterialSelector.environmental_impact m in
  mkMaterialArg
    (Some (MaterialSelector.thickness m))
    (Some (mkEnvArg (Some (lit (MaterialSelector.co2_per_kg e)))
                    (Some (lit (MaterialSelector.water_usage_liters e)))
                    (Some (lit (MaterialSelector.energy_kwh e)))))
    (Some (of_Z (MaterialSelector.sustainability_score m))).

Record Packaging : Type := mkPackaging {
  volume_cm3 : float;
  material_kg : float;
  co2_kg : float;
  water_liters : float;
  energy_kwh_total : float
}.

Record Details : Type := mkDetails {
  traditional_packaging : Packaging;
  optimized_packaging : Packaging
}.

Record Equivalents : Type := mkEquivalents {
  cars_off_road : float;
  trees_planted : float;
  homes_powered_days : float
}.

Record AnnualImpact : Type := mkAnnual {
  units_per_year : Z;
  total_co2_saved_kg : float;
  total_co2_saved_tons : float;
  total_water_saved_liters : float;
  total_energy_saved_kwh : float;
  total_material_saved_kg : float;
  total_material_saved_tons : float;
  equivalent_metrics : Equivalents
}.

Record Report : Type := mkReport {
  volume_reduction : float;
  material_saved_kg : float;
  material_reduction_percentage : float;
  co2_saved_kg : float;
  co2_reduction_percentage : float;
  water_saved_liters : float;
  energy_saved_kwh : float;
  trees_saved : float;
  transport_efficiency_gain : float;
  report_sustainability_score : float;
  environmental_rating : string;
  details : Details;
  annual_impact : AnnualImpact
}.

Definition _calculate_surface_area (dimensions : Double.Dimensions) : float :=
  let l := Double.length dimensions in
  let w := Double.width dimensions in
  let h := Double.height dimensions in
  mul (of_Z 2) (add (add (mul l w) (mul w h)) (mul h l)).

Definition _calculate_transport_efficiency
           (traditional_vol optimized_vol : float) : result float :=
  let truck_capacity := of_Z 80000000 in
  traditional_units <- Double.truediv truck_capacity traditional_vol ;;
  optimized_units <- Double.truediv truck_capacity optimized_vol ;;
  ratio <- Double.truediv (Double.sub optimized_units traditional_units)
                          traditional_units ;;
  let efficiency_gain := mul ratio (of_Z 100) in
  Ok (Double.max Double.zero (Double.min (of_Z 100) efficiency_gain)).

Definition _calculate_sustainability_score
           (volume_red material_red co2_red material_score : float)
  : float :=
  let score :=
    add (add (add (mul volume_red (lit 0.25)) (mul material_red (lit 0.25)))
             (mul co2_red (lit 0.25)))
        (mul material_score (lit 0.25)) in
  Double.min (of_Z 100) (Double.max Double.zero score).

Definition _get_environmental_rating (score : float) : string :=
  if leb (of_Z 90) score then "Exceptional"
  else if leb (of_Z 80) score then "Excellent"
  else if leb (of_Z 70) score then "Very Good"
  else if leb (of_Z 60) score then "Good"
  else if leb (of_Z 50) score then "Fair"
  else "Needs Improvement".

Definition _calculate_annual_impact
           (co2_saved water_saved energy_saved material_saved : float)
  : AnnualImpact :=
  let annual_units := 10000%Z in
  let units := of_Z annual_units in
  mkAnnual annual_units
           (mul co2_saved units)
           (div (mul co2_saved units) (of_Z 1000))
           (mul water_saved units)
           (mul energy_saved units)
           (mul material_saved units)
           (div (mul material_saved units) (of_Z 1000))
           (mkEquivalents (div (mul co2_saved units) (of_Z 4600))
                          (div (mul co2_saved units) (of_Z 21))
                          (div (mul energy_saved units) (of_Z 30))).

(** [analyze].  The divisions by a traditional weight or CO2 quantity are
    guarded by a test that it is positive; the one by the traditional
    volume and the three of [_calculate_transport_efficiency] are not. *)
Definition analyze (original_dims optimized_dims : Double.Dimensions)
           (material : MaterialArg) (product_weight : float)
  : result Report :=
  let product_volume :=
    mul (mul (Double.length original_dims) (Double.width original_dims))
        (Double.height original_dims) in
  let traditional_volume :=
    mul product_volume (lit SustainabilityAnalyzer.over_packaging_factor) in
  let optimized_volume :=
    mul (mul (Double.length optimized_dims) (Double.width optimized_dims))
        (Double.height optimized_dims) in
  ratio <- Double.truediv (Double.sub traditional_volume optimized_volume)
                          traditional_volume ;;
  let volume_reduction := mul ratio (of_Z 100) in
  let volume_reduction :=
    Double.max Double.zero (Double.min (of_Z 95) volume_reduction) in
  let traditional_area :=
    _calculate_surface_area
      (Double.mkDimensions (add (Double.length original_dims) (of_Z 10))
                           (add (Double.width original_dims) (of_Z 10))
                           (add (Double.height original_dims) (of_Z 10))) in
  let optimized_area := _calculate_surface_area optimized_dims in
  let thickness_factor :=
    lit (SustainabilityAnalyzer.get
           SustainabilityAnalyzer.thickness_factors
           (SustainabilityAnalyzer.or_default (thickness material) "3mm")
           0.005) in
  let cardboard_density := lit SustainabilityAnalyzer.cardboard_density in
  let traditional_material_weight :=
    mul (mul (div traditional_area (of_Z 10000)) cardboard_density)
        thickness_factor in
  let optimized_material_weight :=
    mul (mul (div optimized_area (of_Z 10000)) cardboard_density)
        thickness_factor in
  let material_saved_kg :=
    Double.sub traditional_material_weight optimized_material_weight in
  let material_reduction_pct :=
    if ltb Double.zero traditional_material_weight then
      mul (div material_saved_kg traditional_material_weight) (of_Z 100)
    else Double.zero in
  let material_env :=
    SustainabilityAnalyzer.or_default (environmental_impact material)
                                      (mkEnvArg None None None) in
  let co2_per_kg :=
    SustainabilityAnalyzer.or_default (co2_per_kg material_env) (lit 1.0) in
  let traditional_co2 :=
    mul traditional_material_weight
        (lit SustainabilityAnalyzer.co2_per_kg_cardboard) in
  let optimized_co2 := mul optimized_material_weight co2_per_kg in
  let co2_saved := Double.sub traditional_co2 optimized_co2 in
  let co2_reduction_pct :=
    if ltb Double.zero traditional_co2 then
      mul (div co2_saved traditional_co2) (of_Z 100)
    else Double.zero in
  let water_per_kg :=
    SustainabilityAnalyzer.or_default (water_usage_liters material_env)
                                      (of_Z 30) in
  let traditional_water :=
    mul traditional_material_weight
        (lit SustainabilityAnalyzer.water_per_kg_cardboard) in
  let optimized_water := mul optimized_material_weight water_per_kg in
  let water_saved := Double.sub traditional_water optimized_water in
  let energy_per_kg :=
    SustainabilityAnalyzer.or_default (energy_kwh material_env) (lit 4.0) in
  let traditional_energy :=
    mul traditional_material_weight
        (lit SustainabilityAnalyzer.energy_per_kg_cardboard) in
  let optimized_energy := mul optimized_material_weight energy_per_kg in
  let energy_saved := Double.sub traditional_energy optimized_energy in
  transport_efficiency <-
    _calculate_transport_efficiency traditional_volume optimized_volume ;;
  let trees_saved := div material_saved_kg (of_Z 100) in
  let sustainability_score :=
    _calculate_sustainability_score
      volume_reduction material_reduction_pct co2_reduction_pct
      (SustainabilityAnalyzer.or_default (sustainability_score material)
                                         (of_Z 80)) in
  Ok (mkReport volume_reduction material_saved_kg material_reduction_pct
        co2_saved co2_reduction_pct water_saved energy_saved trees_saved
        transport_efficiency sustainability_score
        (_get_environmental_rating sustainability_score)
        (mkDetails
           (mkPackaging traditional_volume traditional_material_weight
                        traditional_co2 traditional_water
                        traditional_energy)
           (mkPackaging optimized_volume optimized_material_weight
                        optimized_co2 optimized_water optimized_energy))
        (_calculate_annual_impact co2_saved water_saved energy_saved
                                  material_saved_kg)).

End SustainabilityAnalyzer64.

(** ** Statements about the double-precision calculators *)

(** The three scores of a strength report. *)
Definition scores_of64 (r : result StrengthPredictor64.StrengthReport)
  : result (Z * Z * Z) :=
  rep <- r ;;
  Ok (StrengthPredictor64.strength_score rep,
      StrengthPredictor64.durability_score rep,
      StrengthPredictor64.compression_score rep).

(** The score formulas of the specification's strength evaluator, written
    from its words and evaluated in double precision, for a given
    conversion [to_int] of a percentage to an integer.  Where the
    specification assumes a valid product, the formulas are completed the
    way it treats a smallest dimension of 0: a weight in grams or a
    smallest dimension that is not positive gives the ratio 0 and the
    aspect ratio 10. *)
Module StrengthFormula.

Import Float64.

(** "unknown names fall back to the Recycled Cardboard entry". *)
Definition properties (materialName : string)
  : StrengthPredictor.Properties :=
  match MaterialSelector.lookup StrengthPredictor.material_properties
                                materialName with
  | Some p => p
  | None => StrengthPredictor.mkProps 0.75 150 0.70 0.80
  end.

(** "volumeWeightRatio = boxVolume / (weight in grams)". *)
Definition volumeWeightRatio (d : Double.Dimensions) (weight : float)
  : float :=
  let boxVolume :=
    mul (mul (Double.length d) (Double.width d)) (Double.height d) in
  let grams := mul weight (of_Z 1000) in
  if ltb Double.zero grams then div boxVolume grams else Double.zero.

(** "banded ... using descending thresholds": the value that goes with
    the first threshold the ratio exceeds. *)
Fixpoint banded (bands : list (Z * Q)) (lowest : Q) (x : float) : float :=
  match bands with
  | [] => lit lowest
  | (threshold, value) :: rest =>
      if ltb (of_Z threshold) x then lit value else banded rest lowest x
  end.

Definition strengthFactor (ratio : float) : float :=
  banded [(500%Z, 0.98%Q); (300%Z, 0.92%Q); (150%Z, 0.85%Q);
          (75%Z, 0.75%Q)] 0.65 ratio.

(** "0.90 if fragility>=4 and baseStrength<0.8; 1.05 if fragility>=4 and
    baseStrength>=0.8; 1.02 if fragility<=2; else 1.0". *)
Definition fragilityFactor (fragility : Z) (baseStrength : float) : float :=
  if (4 <=? fragility)%Z && ltb baseStrength (lit 0.8) then lit 0.90
  else if (4 <=? fragility)%Z && leb (lit 0.8) baseStrength then lit 1.05
  else if (fragility <=? 2)%Z then lit 1.02
  else lit 1.0.

(** "aspect ratio (max dimension / min dimension, min-dim=0 treated as
    ratio 10)". *)
Definition aspectRatio (d : Double.Dimensions) : float :=
  let maxDim :=
    Double.max (Double.max (Double.length d) (Double.width d))
               (Double.height d) in
  let minDim :=
    Double.min (Double.min (Double.length d) (Double.width d))
               (Double.height d) in
  if ltb Double.zero minDim then div maxDim minDim else of_Z 10.

(** "1.05 if <2, 1.0 if <3, else 0.92". *)
Definition geometryFactor (ratio : float) : float :=
  if ltb ratio (of_Z 2) then lit 1.05
  else if ltb ratio (of_Z 3) then lit 1.0
  else lit 0.92.

Definition scores (to_int : float -> result Z) (d : Double.Dimensions)
           (materialName : string) (weight : float) (fragility : Z)
  : result (Z * Z * Z) :=
  let props := properties materialName in
  let baseStrength := lit (StrengthPredictor.base_strength props) in
  let durabilityFactor := lit (StrengthPredictor.durability props) in
  let compressionFactor := lit (StrengthPredictor.compression props) in
  let strengthFactor := strengthFactor (volumeWeightRatio d weight) in
  let fragilityFactor := fragilityFactor fragility baseStrength in
  let geometryFactor := geometryFactor (aspectRatio d) in
  let rawStrength :=
    mul (mul (mul baseStrength strengthFactor) fragilityFactor)
        geometryFactor in
  s <- to_int (mul rawStrength (of_Z 100)) ;;
  dur <- to_int (mul (mul durabilityFactor strengthFactor) (of_Z 100)) ;;
  c <- to_int (mul (mul compressionFactor geometryFactor) (of_Z 100)) ;;
  Ok (StrengthSpec.clamp s 60 98, StrengthSpec.clamp dur 60 98,
      StrengthSpec.clamp c 65 98).

End StrengthFormula.

(** A percentage reduction, [(traditional - optimized) / traditional * 100],
    in double precision. *)
Definition reduction_pct64 (traditional optimized : Float64.float)
  : Float64.float :=
  Float64.mul (Float64.div (Double.sub traditional optimized) traditional)
              (Float64.of_Z 100).

(** The same, yielding 0 when the baseline is zero. *)
Definition guarded_pct64 (traditional optimized : Float64.float)
  : Float64.float :=
  if Float64.eqb traditional Double.zero then Double.zero
  else reduction_pct64 traditional optimized.

(** The analyzer returns, and each of the three reported percentages is the
    guarded reduction of its traditional and optimized quantities. *)
Definition guarded_percentages64 (r : result SustainabilityAnalyzer64.Report)
  : Prop :=
  exists rep,
    r = Ok rep /\
    let t := SustainabilityAnalyzer64.traditional_packaging
               (SustainabilityAnalyzer64.details rep) in
    let o := SustainabilityAnalyzer64.optimized_packaging
               (SustainabilityAnalyzer64.details rep) in
    SustainabilityAnalyzer64.volume_reduction rep
    = guarded_pct64 (SustainabilityAnalyzer64.volume_cm3 t)
                    (SustainabilityAnalyzer64.volume_cm3 o)
    /\ SustainabilityAnalyzer64.material_reduction_percentage rep
       = guarded_pct64 (SustainabilityAnalyzer64.material_kg t)
                       (SustainabilityAnalyzer64.material_kg o)
    /\ SustainabilityAnalyzer64.co2_reduction_percentage rep
       = guarded_pct64 (SustainabilityAnalyzer64.co2_kg t)
                       (SustainabilityAnalyzer64.co2_kg o).

(** The volume of a box and the traditional volume of a product, as
    [analyze] computes them. *)
Definition box_volume (d : Double.Dimensions) : Float64.float :=
  Float64.mul (Float64.mul (Double.length d) (Double.width d))
              (Double.height d).

Definition traditional_volume (d : Double.Dimensions) : Float64.float :=
  Float64.mul (box_volume d)
              (Float64.lit SustainabilityAnalyzer.over_packaging_factor).

(** The number of traditional boxes in a truck load, as
    [_calculate_transport_efficiency] computes it. *)
Definition traditional_units (d : Double.Dimensions) : Float64.float :=
  Float64.div (Float64.of_Z 80000000) (traditional_volume d).

(** The material dict of the source's own test. *)
Definition test_material64 : SustainabilityAnalyzer64.MaterialArg :=
  SustainabilityAnalyzer64.mkMaterialArg
    (Some "3mm"%string)
    (Some (SustainabilityAnalyzer64.mkEnvArg
             (Some (Float64.lit 0.8)) (Some (Float64.of_Z 20))
             (Some (Float64.lit 2.5))))
    (Some (Float64.of_Z 95)).

(** A box given by three whole numbers of centimetres. *)
Definition box (l w h : Z) : Double.Dimensions :=
  Double.mkDimensions (Float64.of_Z l) (Float64.of_Z w) (Float64.of_Z h).

(** [lo <= x <= hi] as Python compares floats. *)
Definition between (lo hi : Z) (x : Float64.float) : Prop :=
  Float64.leb (Float64.of_Z lo) x = true
  /\ Float64.leb x (Float64.of_Z hi) = true.

(** A string of ASCII characters only; on these [lower] is Python's
    [str.lower]. *)
Definition is_ascii (s : string) : bool :=
  forallb (fun c => (nat_of_ascii c <? 128)%nat) (list_ascii_of_string s).

(** An infinity of either sign: what a product of doubles that is too
    large for the format rounds to. *)
Definition is_infinite (x : Float64.float) : bool :=
  match x with
  | S754_infinity _ => true
  | _ => false
  end.

(** * Properties *)

(** ** Comparisons on rationals *)

Lemma Qltb_lt (x y : Q) : Qltb x y = true <-> x < y.
Proof.
  unfold Qltb. rewrite negb_true_iff.
  split; intro H.
  - apply Qnot_le_lt. intro Hle. apply Qle_bool_iff in Hle. congruence.
  - destruct (Qle_bool y x) eqn:E; [|reflexivity].
    apply Qle_bool_iff in E. exfalso. apply (Qlt_not_le _ _ H E).
Qed.

Lemma Qltb_ge (x y : Q) : Qltb x y = false <-> y <= x.
Proof.
  unfold Qltb. rewrite negb_false_iff. apply Qle_bool_iff.
Qed.

Lemma py_max_ge_l (a b : Q) : a <= py_max a b.
Proof.
  unfold py_max. destruct (Qltb a b) eqn:E.
  - apply Qltb_lt in E. apply Qlt_le_weak, E.
  - apply Qle_refl.
Qed.

Lemma py_max_ge_r (a b : Q) : b <= py_max a b.
Proof.
  unfold py_max. destruct (Qltb a b) eqn:E.
  - apply Qle_refl.
  - apply Qltb_ge in E. exact E.
Qed.

Lemma py_div_ok (x y : Q) : ~ y == 0 -> py_div x y = Ok (x / y).
Proof.
  intro H. unfold py_div.
  destruct (Qeq_bool y 0) eqn:E; [|reflexivity].
  apply Qeq_bool_iff in E. contradiction.
Qed.

(** ** Dimension planner *)

Section DimensionPlanner.

Import DimensionOptimizer.

Lemma ceil_ge (x : Q) : x <= ceil x.
Proof. unfold ceil. apply Qle_ceiling. Qed.

Lemma side_ge_5 (x : Q) : 5 <= py_max (ceil x) 5.0.
Proof.
  apply Qle_trans with (y := 5.0); [| apply py_max_ge_r].
  unfold Qle; simpl; lia.
Qed.

Lemma side_ge_padded (x : Q) : x <= py_max (ceil x) 5.0.
Proof.
  apply Qle_trans with (y := ceil x); [apply ceil_ge | apply py_max_ge_l].
Qed.

Lemma base_padding_in_table (fragility : Z) :
  (1 <= fragility <= 5)%Z ->
  In (fragility, base_padding fragility) padding_multiplier.
Proof.
  intro H.
  assert (C : fragility = 1%Z \/ fragility = 2%Z \/ fragility = 3%Z
              \/ fragility = 4%Z \/ fragility = 5%Z) by lia.
  destruct C as [-> | [-> | [-> | [-> | ->]]]]; cbn; tauto.
Qed.

Lemma base_padding_mono (f1 f2 : Z) :
  (1 <= f1)%Z -> (f1 <= f2)%Z -> (f2 <= 5)%Z ->
  base_padding f1 <= base_padding f2.
Proof.
  intros H1 H12 H2.
  assert (C1 : f1 = 1%Z \/ f1 = 2%Z \/ f1 = 3%Z \/ f1 = 4%Z \/ f1 = 5%Z)
    by lia.
  assert (C2 : f2 = 1%Z \/ f2 = 2%Z \/ f2 = 3%Z \/ f2 = 4%Z \/ f2 = 5%Z)
    by lia.
  destruct C1 as [-> | [-> | [-> | [-> | ->]]]];
    destruct C2 as [-> | [-> | [-> | [-> | ->]]]];
    try lia; unfold Qle; cbn; lia.
Qed.

Lemma weight_factor_mono (w1 w2 : Q) :
  w1 <= w2 -> weight_factor w1 <= weight_factor w2.
Proof.
  intro H. unfold weight_factor.
  destruct (Qltb 10 w1) eqn:A1; destruct (Qltb 10 w2) eqn:A2;
    destruct (Qltb 5 w1) eqn:B1; destruct (Qltb 5 w2) eqn:B2;
    destruct (Qltb 2 w1) eqn:C1; destruct (Qltb 2 w2) eqn:C2;
    try (unfold Qle; cbn; lia);
    repeat match goal with
           | E : Qltb _ _ = true |- _ => apply Qltb_lt in E
           | E : Qltb _ _ = false |- _ => apply Qltb_ge in E
           end; lra.
Qed.

Lemma optimize_returns (l w h wt : Q) (f : Z) :
  optimize l w h wt f =
  let p := base_padding f + weight_factor wt in
  let ol := py_max (ceil (l + p)) 5.0 in
  let ow := py_max (ceil (w + p)) 5.0 in
  let oh := py_max (ceil (h + p)) 5.0 in
  Ok (mkBox ol ow oh (ol * ow * oh) (l * w * h / (ol * ow * oh) * 100)
            (mkPadding p p p)).
Proof.
  unfold optimize. cbv zeta.
  set (p := base_padding f + weight_factor wt).
  rewrite py_div_ok; [reflexivity|].
  pose proof (side_ge_5 (l + p)). pose proof (side_ge_5 (w + p)).
  pose proof (side_ge_5 (h + p)).
  intro E.
  assert (0 < py_max (ceil (l + p)) 5.0 * py_max (ceil (w + p)) 5.0
              * py_max (ceil (h + p)) 5.0).
  { repeat apply Qmult_lt_0_compat; lra. }
  lra.
Qed.

End DimensionPlanner.

Section DimensionPlannerClaims.

Import DimensionOptimizer.

(** The scenario of the source's first test: 18 x 14 x 7 cm, 0.5 kg,
    fragility 4 gives a 22 x 18 x 11 box. *)
Example optimize_headphones :
  exists b, optimize 18 14 7 0.5 4 = Ok b
            /\ box_length b == 22 /\ box_width b == 18 /\ box_height b == 11.
Proof.
  rewrite optimize_returns. eexists. split; [reflexivity|].
  repeat split; vm_compute; reflexivity.
Qed.

(** C8.  The padding [optimize] reports never decreases when the fragility
    grows within 1..5 at a fixed weight, nor when the weight grows at a
    fixed fragility. *)
Theorem padding_monotone (l w h w1 w2 : Q) (f f1 f2 : Z) :
  (1 <= f1)%Z -> (f1 <= f2)%Z -> (f2 <= 5)%Z -> w1 <= w2 ->
  padding_le (optimize l w h w1 f1) (optimize l w h w1 f2)
  /\ padding_le (optimize l w h w1 f) (optimize l w h w2 f).
Proof.
  intros H1 H12 H2 Hw.
  pose proof (base_padding_mono f1 f2 H1 H12 H2) as Hb.
  pose proof (weight_factor_mono w1 w2 Hw) as Hwf.
  split; unfold padding_le; rewrite !optimize_returns; cbv zeta;
    do 2 eexists; (split; [reflexivity|]); (split; [reflexivity|]);
    cbn [padding_applied padding_length padding_width padding_height];
    repeat split; lra.
Qed.

Lemma padding_monotone_witness :
  padding_le (optimize 18 14 7 0.5 2) (optimize 18 14 7 0.5 4)
  /\ padding_le (optimize 18 14 7 0.5 3) (optimize 18 14 7 8.5 3).
Proof.
  apply (padding_monotone 18 14 7 0.5 8.5 3 2 4);
    try lia.
  unfold Qle; simpl; lia.
Defined.

End DimensionPlannerClaims.

(** ** Dict lookups *)

Section Lookup.

Import MaterialSelector.

Context {V : Type}.

Lemma lookup_In (d : list (string * V)) (k : string) (v : V) :
  lookup d k = Some v -> In (k, v) d.
Proof.
  induction d as [|[k' v'] d IH]; cbn; [discriminate|].
  destruct (String.eqb k k') eqn:E.
  - apply String.eqb_eq in E. intros [= ->]. left. now subst.
  - intro H. right. now apply IH.
Qed.

Lemma In_lookup (d : list (string * V)) (k : string) (v : V) :
  In (k, v) d -> exists v', lookup d k = Some v'.
Proof.
  induction d as [|[k' v'] d IH]; cbn; [tauto|].
  intros [[= -> ->] | H].
  - rewrite String.eqb_refl. eauto.
  - destruct (String.eqb k k'); eauto.
Qed.

Lemma In_setitem (d : list (string * V)) (k : string) (v : V)
      (k' : string) (v' : V) :
  In (k', v') (setitem d k v) -> (k', v') = (k, v) \/ In (k', v') d.
Proof.
  induction d as [|[k0 v0] d IH]; cbn.
  - intros [H | []]. left. now symmetry.
  - destruct (String.eqb k k0) eqn:E.
    + apply String.eqb_eq in E. subst k0.
      intros [H | H]; [left; now symmetry | right; now right].
    + intros [H | H]; [right; now left|].
      destruct (IH H) as [H' | H']; [now left | right; now right].
Qed.

Lemma setitem_not_nil (d : list (string * V)) (k : string) (v : V) :
  setitem d k v <> [].
Proof.
  destruct d as [|[k0 v0] d]; cbn; [discriminate|].
  destruct (String.eqb k k0); discriminate.
Qed.

End Lookup.

(** ** Strength evaluator *)

Section StrengthEvaluator.

Import Float64 StrengthPredictor.

Lemma get_properties_cases (material_name : string) :
  exists p, get_properties material_name = Ok p
            /\ In p (map snd material_properties).
Proof.
  unfold get_properties.
  change (MaterialSelector.getitem material_properties "Recycled Cardboard")
    with (Ok (mkProps 0.75 150 0.70 0.80)).
  cbn [bind].
  destruct (MaterialSelector.lookup material_properties material_name)
    as [p|] eqn:E.
  - exists p. split; [reflexivity|].
    apply lookup_In in E. apply (in_map snd) in E. exact E.
  - eexists. split; [reflexivity|]. cbn. tauto.
Qed.

(** An unknown material name is given the properties of Recycled
    Cardboard. *)
Lemma get_properties_unknown (material_name : string) :
  MaterialSelector.lookup material_properties material_name = None ->
  get_properties material_name = get_properties "Recycled Cardboard".
Proof.
  intro E. unfold get_properties. rewrite E. reflexivity.
Qed.

Lemma predict_unknown (dimensions : Dimensions) (material_name : string)
      (weight : Q) (fragility : Z) :
  MaterialSelector.lookup material_properties material_name = None ->
  predict dimensions material_name weight fragility
  = predict dimensions "Recycled Cardboard" weight fragility.
Proof.
  intro E. unfold predict. now rewrite (get_properties_unknown _ E).
Qed.

Lemma vw_ratio_returns (dimensions : Dimensions) (weight : Q) :
  exists v, vw_ratio_of dimensions weight = Ok v.
Proof.
  unfold vw_ratio_of. cbv zeta.
  destruct (Qltb 0 (weight * 1000)) eqn:E; [|eauto].
  apply Qltb_lt in E. rewrite py_div_ok; [eauto|]. lra.
Qed.

Lemma aspect_ratio_returns (dimensions : Dimensions) :
  exists a, aspect_ratio_of dimensions = Ok a.
Proof.
  unfold aspect_ratio_of. cbv zeta.
  match goal with |- context [Qltb 0 ?m] => destruct (Qltb 0 m) eqn:E end;
    [|eauto].
  apply Qltb_lt in E. rewrite py_div_ok; [eauto|]. lra.
Qed.

Lemma strength_factor_cases (v : Q) : In (strength_factor_of v) strength_factors.
Proof.
  unfold strength_factor_of, strength_factors.
  repeat match goal with
         | |- context [if ?b then _ else _] => destruct b
         end; cbn [map In]; tauto.
Qed.

Lemma fragility_factor_cases (fragility : Z) (b : float) :
  In (fragility_factor_of fragility b) fragility_factors.
Proof.
  unfold fragility_factor_of, fragility_factors.
  repeat match goal with
         | |- context [if ?b then _ else _] => destruct b
         end; cbn [map In]; tauto.
Qed.

Lemma geometry_factor_cases (a : Q) : In (geometry_factor_of a) geometry_factors.
Proof.
  unfold geometry_factor_of, geometry_factors.
  repeat match goal with
         | |- context [if ?b then _ else _] => destruct b
         end; cbn [map In]; tauto.
Qed.

(** Every product of table constants that [predict] can form is a finite
    double. *)
Lemma all_percentages_finite :
  forallb (fun p =>
    forallb (fun sf =>
      forallb (fun ff =>
        forallb (fun gf => percentages_finite p sf ff gf) geometry_factors)
        fragility_factors)
      strength_factors)
    (map snd material_properties) = true.
Proof. vm_compute. reflexivity. Qed.

Lemma percentages_finite_in (p : Properties) (sf ff gf : float) :
  In p (map snd material_properties) -> In sf strength_factors ->
  In ff fragility_factors -> In gf geometry_factors ->
  percentages_finite p sf ff gf = true.
Proof.
  intros Hp Hsf Hff Hgf.
  pose proof all_percentages_finite as H.
  rewrite forallb_forall in H. specialize (H p Hp).
  rewrite forallb_forall in H. specialize (H sf Hsf).
  rewrite forallb_forall in H. specialize (H ff Hff).
  rewrite forallb_forall in H. exact (H gf Hgf).
Qed.

Lemma int_finite (x : float) :
  is_finite x = true -> exists n, int x = Ok n.
Proof.
  destruct x; cbn; try discriminate; eauto.
Qed.

Lemma clamp_agrees (lo n : Z) :
  (lo <= 98)%Z -> Zpy_min 98 (Zpy_max lo n) = StrengthSpec.clamp n lo 98.
Proof.
  intro H. unfold Zpy_min, Zpy_max, StrengthSpec.clamp.
  destruct (lo <? n)%Z eqn:A;
    [destruct (n <? 98)%Z eqn:B | destruct (lo <? 98)%Z eqn:B]; lia.
Qed.

Lemma clamp_bounds (n lo : Z) :
  (lo <= 98)%Z -> (lo <= StrengthSpec.clamp n lo 98 <= 98)%Z.
Proof. unfold StrengthSpec.clamp. lia. Qed.

(** [predict] always returns, and its scores are the clamped truncations
    of the three percentages. *)
Lemma predict_scores (dimensions : Dimensions) (material_name : string)
      (weight : Q) (fragility : Z) :
  exists s d c,
    scores_of (predict dimensions material_name weight fragility)
    = Ok (StrengthSpec.clamp s 60 98, StrengthSpec.clamp d 60 98,
          StrengthSpec.clamp c 65 98)
    /\ StrengthSpec.scores_formula int dimensions material_name weight
                                   fragility
       = Ok (StrengthSpec.clamp s 60 98, StrengthSpec.clamp d 60 98,
             StrengthSpec.clamp c 65 98).
Proof.
  unfold scores_of, predict, StrengthSpec.scores_formula.
  destruct (get_properties_cases material_name) as [p [-> Hp]].
  destruct (vw_ratio_returns dimensions weight) as [v ->].
  destruct (aspect_ratio_returns dimensions) as [a ->].
  cbn [bind]. cbv zeta.
  pose proof (percentages_finite_in p _ _ _ Hp (strength_factor_cases v)
                (fragility_factor_cases fragility (lit (base_strength p)))
                (geometry_factor_cases a)) as F.
  unfold percentages_finite, percentages in F. cbv zeta in F.
  apply andb_prop in F. destruct F as [F Fc].
  apply andb_prop in F. destruct F as [Fs Fd].
  destruct (int_finite _ Fs) as [s Es].
  destruct (int_finite _ Fd) as [d Ed].
  destruct (int_finite _ Fc) as [c Ec].
  exists s, d, c.
  unfold clamp_score. rewrite Es, Ed, Ec. cbn [bind].
  rewrite !clamp_agrees by lia.
  split; [|reflexivity].
  repeat match goal with
         | |- context [if ?b then _ else _] => destruct b
         end; reflexivity.
Qed.

End StrengthEvaluator.

Section StrengthEvaluatorClaims.

Import Float64 StrengthPredictor.

Lemma predict_returns (dimensions : Dimensions) (material_name : string)
      (weight : Q) (fragility : Z) :
  exists r, predict dimensions material_name weight fragility = Ok r.
Proof.
  destruct (predict_scores dimensions material_name weight fragility)
    as (s & d & c & H & _).
  destruct (predict dimensions material_name weight fragility) as [r|e];
    [eauto | discriminate].
Qed.

(** C6.  For every box, material name, weight and fragility, [predict]
    returns a report whose strength and durability scores lie in [60, 98]
    and whose compression score lies in [65, 98]. *)
Theorem predict_scores_in_bands (dimensions : Dimensions)
        (material_name : string) (weight : Q) (fragility : Z) :
  exists r,
    predict dimensions material_name weight fragility = Ok r
    /\ (60 <= strength_score r <= 98)%Z
    /\ (60 <= durability_score r <= 98)%Z
    /\ (65 <= compression_score r <= 98)%Z.
Proof.
  destruct (predict_scores dimensions material_name weight fragility)
    as (s & d & c & H & _).
  destruct (predict dimensions material_name weight fragility) as [r|e];
    [|discriminate].
  exists r. split; [reflexivity|].
  cbn in H. injection H as -> -> ->.
  repeat split; apply clamp_bounds; lia.
Qed.

(** C3: the drop test does not substitute a default.  For a material name
    missing from the strength table [predict_drop_test] raises
    [TypeError], whatever the other arguments. *)
Theorem predict_drop_test_unknown_raises (dimensions : Dimensions)
        (material_name : string) (weight height_cm : Q) :
  MaterialSelector.lookup material_properties material_name = None ->
  predict_drop_test dimensions material_name weight height_cm
  = Raise TypeError.
Proof.
  intro E. unfold predict_drop_test.
  destruct (predict_returns dimensions material_name weight 5) as [r ->].
  cbn [bind]. cbv zeta. rewrite E. reflexivity.
Qed.

Lemma predict_drop_test_unknown_raises_witness :
  predict_drop_test (mkDimensions 25 20 15) "Honeycomb Cardboard" 1.5 100
  = Raise TypeError.
Proof.
  apply (predict_drop_test_unknown_raises
           (mkDimensions 25 20 15) "Honeycomb Cardboard" 1.5 100).
  reflexivity.
Defined.

(** The source's first test: a 25 x 20 x 15 box of Recycled Cardboard for
    1.5 kg has a volume-weight ratio of 5, the lowest band, and its raw
    strength of 51 percent is lifted to the lower edge of the band. *)
Example predict_standard_box :
  exists r,
    predict (mkDimensions 25 20 15) "Recycled Cardboard" 1.5 3 = Ok r
    /\ volume_weight_ratio (analysis r) == 5
    /\ strength_score r = 60%Z
    /\ needs_reinforcement r = true.
Proof.
  eexists. split; [vm_compute; reflexivity|]. repeat split.
Qed.

(** The same name is accepted by [predict], which scores it as Recycled
    Cardboard. *)
Example predict_honeycomb :
  predict (mkDimensions 25 20 15) "Honeycomb Cardboard" 1.5 3
  = predict (mkDimensions 25 20 15) "Recycled Cardboard" 1.5 3.
Proof. apply predict_unknown. reflexivity. Qed.

(** For a name of the table the drop test returns. *)
Example predict_drop_test_known :
  exists r,
    predict_drop_test (mkDimensions 25 20 15) "Recycled Cardboard" 1.5 100
    = Ok r
    /\ will_survive r = true.
Proof. eexists. split; [vm_compute; reflexivity | reflexivity]. Qed.

End StrengthEvaluatorClaims.

(** ** Object store *)

Section Store.

Import MaterialSelector.

Lemma deref_app (h extra : heap) (l : loc) (d : PyDict) :
  deref h l = Ok d -> deref (h ++ extra) l = Ok d.
Proof.
  unfold deref. destruct (nth_error h l) as [x|] eqn:E; [|discriminate].
  intros [= ->]. rewrite nth_error_app1.
  - now rewrite E.
  - apply nth_error_Some. congruence.
Qed.

Lemma deref_new (h : heap) (d : PyDict) :
  deref (h ++ [d]) (List.length h) = Ok d.
Proof.
  unfold deref. rewrite nth_error_app2 by lia.
  now rewrite Nat.sub_diag.
Qed.

Lemma store_last (h : heap) (d d' : PyDict) :
  store (h ++ [d]) (List.length h) d' = h ++ [d'].
Proof.
  induction h as [|x h IH]; cbn; [reflexivity|]. now rewrite IH.
Qed.

Lemma mapM_ext {A B : Type} (f g : A -> result B) (xs : list A) :
  (forall x, In x xs -> f x = g x) -> mapM f xs = mapM g xs.
Proof.
  induction xs as [|x xs IH]; intro H; cbn; [reflexivity|].
  rewrite (H x) by now left.
  rewrite IH; [reflexivity|]. intros y Hy. apply H. now right.
Qed.

Lemma getitem_In {V : Type} (d : list (string * V)) (k : string) (v : V) :
  getitem d k = Ok v -> In (k, v) d.
Proof.
  unfold getitem. destruct (lookup d k) eqn:E; [|discriminate].
  intros [= ->]. now apply lookup_In.
Qed.

End Store.

(** ** Material selector: the loop *)

Section SelectorFrame.

Import MaterialSelector.

Variable self : Selector.
Variables h h' : heap.
Hypothesis Hagree : agree self h h'.

(** What [select] computes depends on the store only through the dicts of
    [self.materials]. *)
Lemma category_match_agree (cat_prefs : CategoryPrefs)
      (category material_key : string) (material : PyDict) :
  category_match h self cat_prefs category material_key material
  = category_match h' self cat_prefs category material_key material.
Proof.
  unfold category_match.
  destruct (str_in material_key (preferred_materials cat_prefs));
    [reflexivity|].
  rewrite (mapM_ext
             (fun k => l <- getitem (materials self) k ;; deref h l)
             (fun k => l <- getitem (materials self) k ;; deref h' l));
    [reflexivity|].
  intros k _. destruct (getitem (materials self) k) as [l|e] eqn:E;
    [|reflexivity].
  cbn [bind]. apply (Hagree k l). now apply getitem_In.
Qed.

Lemma score_material_agree (cat_prefs : CategoryPrefs) (category : string)
      (weight : Q) (fragility : Z) (rp : bool) (material_key : string)
      (material : PyDict) :
  score_material h self cat_prefs category weight fragility rp
                 material_key material
  = score_material h' self cat_prefs category weight fragility rp
                   material_key material.
Proof.
  unfold score_material. now rewrite category_match_agree.
Qed.

Lemma score_loop_agree (cat_prefs : CategoryPrefs) (category : string)
      (weight : Q) (fragility : Z) (rp : bool)
      (items : list (string * loc)) :
  incl items (materials self) ->
  forall acc,
    score_loop h self cat_prefs category weight fragility rp items acc
    = score_loop h' self cat_prefs category weight fragility rp items acc.
Proof.
  induction items as [|[k l] items IH]; intros Hincl acc; cbn;
    [reflexivity|].
  rewrite (Hagree k l) by (apply Hincl; now left).
  destruct (deref h' l) as [d|e]; [|reflexivity]. cbn [bind].
  rewrite score_material_agree.
  destruct (score_material h' self cat_prefs category weight fragility rp
                           k d) as [[[s why]|]|e];
    cbn [bind]; try reflexivity;
    apply IH; intros x Hx; apply Hincl; now right.
Qed.

Lemma material_scores_agree (category : string) (weight : Q)
      (fragility : Z) (rp : bool) :
  material_scores_of self h category weight fragility rp
  = material_scores_of self h' category weight fragility rp.
Proof.
  unfold material_scores_of.
  destruct (get_cat_prefs self (normalize category)) as [p|e];
    [|reflexivity].
  cbn [bind]. apply score_loop_agree. apply incl_refl.
Qed.

End SelectorFrame.

(** ** Material selector: the built-in catalog *)

Section BuiltinSelector.

Import MaterialSelector.

Lemma materials_self0 :
  materials self0
  = [ ("recycled_cardboard", 0); ("double_wall_corrugated", 1);
      ("kraft_paper", 2); ("foam_insert_cardboard", 3);
      ("food_grade_cardboard", 4); ("molded_pulp", 5);
      ("honeycomb_cardboard", 6) ]%string%nat.
Proof. reflexivity. Qed.

Lemma h0_catalog : h0 = map fresh_dict (map snd catalog).
Proof. reflexivity. Qed.

Lemma catalog_entry (k : string) (l : loc) :
  In (k, l) (materials self0) ->
  exists m, In (k, m) catalog /\ deref h0 l = Ok (fresh_dict m).
Proof.
  rewrite materials_self0. cbn [In].
  intros [E | [E | [E | [E | [E | [E | [E | []]]]]]]];
    injection E as <- <-; eexists; (split; [|reflexivity]); cbn; tauto.
Qed.

Lemma catalog_limit_positive (k : string) (m : Material) :
  In (k, m) catalog -> 0 < weight_limit m.
Proof.
  cbn [In catalog].
  intros [E | [E | [E | [E | [E | [E | [E | []]]]]]]];
    injection E as <- <-; reflexivity.
Qed.

Lemma catalog_limit_max (k : string) (m : Material) :
  In (k, m) catalog -> weight_limit m <= 20.
Proof.
  cbn [In catalog].
  intros [E | [E | [E | [E | [E | [E | [E | []]]]]]]];
    injection E as <- <-; unfold Qle; cbn; lia.
Qed.

Lemma get_cat_prefs_cases (category : string) :
  exists p, get_cat_prefs self0 category = Ok p
            /\ In p (map snd category_table).
Proof.
  unfold get_cat_prefs.
  change (category_priorities self0) with category_table.
  change (getitem category_table "other")
    with (Ok (mkPrefs "balance" ["recycled_cardboard"%string] "Medium")).
  cbn [bind].
  destruct (lookup category_table category) as [p|] eqn:E.
  - exists p. split; [reflexivity|].
    apply lookup_In in E. apply (in_map snd) in E. exact E.
  - eexists. split; [reflexivity|]. cbn. tauto.
Qed.

(** On the built-in catalog the category criterion only ever tests key
    membership: no material is value-equal to a preferred material with
    another key. *)
Lemma category_match_h0 (p : CategoryPrefs) (category k : string)
      (m : Material) :
  In p (map snd category_table) -> In (k, m) catalog ->
  category_match h0 self0 p category k (fresh_dict m)
  = Ok (key_membership_points p category k).
Proof.
  cbn [In catalog category_table map snd].
  intros [P | [P | [P | [P | [P | [P | [P | []]]]]]]];
    intros [E | [E | [E | [E | [E | [E | [E | []]]]]]]];
    subst p; injection E as <- <-; vm_compute; reflexivity.
Qed.

Lemma catalog_records_distinct (k k' : string) (m m' : Material) :
  In (k, m) catalog -> In (k', m') catalog -> k <> k' ->
  dict_eqb (fresh_dict m) (fresh_dict m') = false.
Proof.
  cbn [In catalog].
  intros [E | [E | [E | [E | [E | [E | [E | []]]]]]]];
    intros [E' | [E' | [E' | [E' | [E' | [E' | [E' | []]]]]]]];
    injection E as <- <-; injection E' as <- <-; intro N;
    try reflexivity; exfalso; apply N; reflexivity.
Qed.

End BuiltinSelector.

Section BuiltinLoop.

Import MaterialSelector.

Variable h : heap.
Hypothesis Hagree : agree self0 h h0.

Lemma catalog_entry_rev (k : string) (m : Material) :
  In (k, m) catalog ->
  exists l, In (k, l) (materials self0) /\ deref h l = Ok (fresh_dict m).
Proof.
  intro H.
  assert (exists l, In (k, l) (materials self0)
                    /\ deref h0 l = Ok (fresh_dict m)) as (l & Hl & D).
  { rewrite materials_self0. revert H. cbn [In catalog].
    intros [E | [E | [E | [E | [E | [E | [E | []]]]]]]];
      injection E as <- <-;
      first [ exists 0%nat; split; [cbn; tauto | reflexivity]
            | exists 1%nat; split; [cbn; tauto | reflexivity]
            | exists 2%nat; split; [cbn; tauto | reflexivity]
            | exists 3%nat; split; [cbn; tauto | reflexivity]
            | exists 4%nat; split; [cbn; tauto | reflexivity]
            | exists 5%nat; split; [cbn; tauto | reflexivity]
            | exists 6%nat; split; [cbn; tauto | reflexivity] ]. }
  exists l. split; [exact Hl|]. now rewrite (Hagree k l Hl).
Qed.

Lemma score_material_spec (p : CategoryPrefs) (category : string)
      (weight : Q) (fragility : Z) (rp : bool) (k : string) (m : Material) :
  In p (map snd category_table) -> In (k, m) catalog ->
  exists s why,
    score_material h self0 p category weight fragility rp k (fresh_dict m)
    = Ok (if Qle_bool weight (weight_limit m) then Some (s, why) else None).
Proof.
  intros Hp Hm.
  rewrite (score_material_agree self0 h h0 Hagree).
  unfold score_material, weight_compatibility. cbn [fields fresh_dict].
  destruct (Qle_bool weight (weight_limit m)) eqn:E.
  - rewrite py_div_ok.
    2:{ pose proof (catalog_limit_positive k m Hm). lra. }
    cbn [bind]. rewrite (category_match_h0 p category k m Hp Hm).
    destruct (key_membership_points p category k) as [points why].
    destruct (Qltb (weight / weight_limit m) 0.5);
      [|destruct (Qltb (weight / weight_limit m) 0.75)];
      cbn [bind];
      repeat match goal with
             | |- context [let '(_, _) := ?x in _] => destruct x
             end;
      do 2 eexists; reflexivity.
  - cbn [bind]. exists (Float64.of_Z 0), []. reflexivity.
Qed.

Lemma score_loop_spec (p : CategoryPrefs) (category : string) (weight : Q)
      (fragility : Z) (rp : bool) :
  In p (map snd category_table) ->
  forall items acc,
    incl items (materials self0) ->
    exists res,
      score_loop h self0 p category weight fragility rp items acc = Ok res
      /\ (forall k e,
             In (k, e) res ->
             In (k, e) acc
             \/ exists m, In (k, material e) items /\ In (k, m) catalog
                          /\ deref h (material e) = Ok (fresh_dict m)
                          /\ Qle_bool weight (weight_limit m) = true)
      /\ (acc <> [] -> res <> [])
      /\ (forall k l m,
             In (k, l) items -> deref h l = Ok (fresh_dict m) ->
             Qle_bool weight (weight_limit m) = true -> res <> [])
      /\ ((forall k l m,
              In (k, l) items -> deref h l = Ok (fresh_dict m) ->
              Qle_bool weight (weight_limit m) = false) ->
          res = acc).
Proof.
  intro Hp. induction items as [|[k l] items IH]; intros acc Hincl.
  - exists acc. cbn. repeat split; auto; try (intros k l m []).
  - assert (Hkl : In (k, l) (materials self0)) by (apply Hincl; now left).
    destruct (catalog_entry k l Hkl) as (m & Hm & D0).
    assert (D : deref h l = Ok (fresh_dict m))
      by now rewrite (Hagree k l Hkl).
    destruct (score_material_spec p category weight fragility rp k m Hp Hm)
      as (s & why & S).
    assert (Hrest : incl items (materials self0))
      by (intros x Hx; apply Hincl; now right).
    cbn [score_loop]. rewrite D. cbn [bind]. rewrite S. cbn [bind].
    destruct (Qle_bool weight (weight_limit m)) eqn:E.
    + destruct (IH (setitem acc k (mkEntry s why l)) Hrest)
        as (res & R & Ha & Hb & _ & _).
      exists res. split; [exact R|].
      assert (Hne : res <> []) by (apply Hb, setitem_not_nil).
      repeat split; auto.
      * intros k' e Hin. destruct (Ha k' e Hin) as [Hs | (m' & Hi & Hr)].
        -- destruct (In_setitem _ _ _ _ _ Hs) as [Heq | Hacc];
             [|now left].
           injection Heq as -> ->. right. exists m. cbn [material].
           repeat split; auto. now left.
        -- right. exists m'. destruct Hr as (? & ? & ?).
           repeat split; auto. now right.
      * intro Hall. specialize (Hall k l m (or_introl eq_refl) D).
        congruence.
    + destruct (IH acc Hrest) as (res & R & Ha & Hb & Hc & Hd).
      exists res. split; [exact R|].
      repeat split; auto.
      * intros k' e Hin. destruct (Ha k' e Hin) as [Hs | (m' & Hi & Hr)];
          [now left|].
        right. exists m'. destruct Hr as (? & ? & ?).
        repeat split; auto. now right.
      * intros k' l' m' [Heq | Hin] D' Q'.
        -- injection Heq as <- <-. rewrite D in D'.
           injection D' as <-.
           congruence.
        -- exact (Hc k' l' m' Hin D' Q').
      * intro Hall. apply Hd. intros k' l' m' Hin.
        apply (Hall k' l' m'). now right.
Qed.

(** The candidate table of a call: it is built without error, holds only
    materials whose weight limit admits the weight, is non-empty as soon as
    one catalog material qualifies and empty when none does. *)
Lemma material_scores_spec (category : string) (weight : Q) (fragility : Z)
      (rp : bool) :
  exists ms,
    material_scores_of self0 h category weight fragility rp = Ok ms
    /\ (forall k e,
           In (k, e) ms ->
           exists m, In (k, material e) (materials self0)
                     /\ In (k, m) catalog
                     /\ deref h (material e) = Ok (fresh_dict m)
                     /\ weight <= weight_limit m)
    /\ ((exists k m, In (k, m) catalog /\ weight <= weight_limit m) ->
        ms <> [])
    /\ ((forall k m, In (k, m) catalog -> weight_limit m < weight) ->
        ms = []).
Proof.
  unfold material_scores_of.
  destruct (get_cat_prefs_cases (normalize category)) as (p & -> & Hp).
  cbn [bind].
  destruct (score_loop_spec p (normalize category) weight fragility rp Hp
                            (materials self0) [] (incl_refl _))
    as (ms & R & Ha & _ & Hc & Hd).
  exists ms. split; [exact R|]. repeat split.
  - intros k e Hin. destruct (Ha k e Hin) as [[] | (m & H1 & H2 & H3 & H4)].
    exists m. repeat split; auto. now apply Qle_bool_iff.
  - intros (k & m & Hm & Hw).
    destruct (catalog_entry_rev k m Hm) as (l & Hl & D).
    apply (Hc k l m Hl D). now apply Qle_bool_iff.
  - intro Hall. apply Hd. intros k l m Hl D.
    destruct (catalog_entry k l Hl) as (m' & Hm' & D0).
    rewrite (Hagree k l Hl) in D. rewrite D0 in D.
    injection D as ->.
    specialize (Hall k m Hm').
    destruct (Qle_bool weight (weight_limit m)) eqn:E; [|reflexivity].
    apply Qle_bool_iff in E. lra.
Qed.

End BuiltinLoop.

(** ** Material selector: choosing the winner *)

Section Winner.

Import MaterialSelector.

Lemma max_from_In (best : string * ScoreEntry) (rest : material_scores_t) :
  In (max_from best rest) (best :: rest).
Proof.
  revert best. induction rest as [|x rest IH]; intro best; cbn [max_from].
  - now left.
  - destruct (Float64.ltb (score (snd best)) (score (snd x))).
    + right. apply IH.
    + destruct (IH best) as [E | H]; [left; exact E | right; now right].
Qed.

Lemma max_key_spec (ms : material_scores_t) :
  ms <> [] ->
  exists k e, max_key ms = Ok k /\ getitem ms k = Ok e /\ In (k, e) ms.
Proof.
  destruct ms as [|x rest]; [congruence|]. intros _.
  pose proof (max_from_In x rest) as Hin.
  destruct (max_from x rest) as [k e0] eqn:M.
  destruct (In_lookup _ _ _ Hin) as [e L].
  exists k, e. cbn [max_key]. rewrite M. cbn [fst].
  split; [reflexivity|]. unfold getitem. rewrite L.
  split; [reflexivity|]. now apply lookup_In.
Qed.

Lemma In_insert_desc (x y : string * ScoreEntry) (l : material_scores_t) :
  In y (insert_desc x l) -> y = x \/ In y l.
Proof.
  induction l as [|z l IH]; cbn.
  - intros [H | []]. now left.
  - destruct (Float64.ltb (score (snd z)) (score (snd x))); cbn.
    + intros [H | H]; [left; now symmetry | now right].
    + intros [H | H]; [right; now left|].
      destruct (IH H); [now left | right; now right].
Qed.

Lemma In_sorted_desc (y : string * ScoreEntry) (ms : material_scores_t) :
  In y (sorted_desc ms) -> In y ms.
Proof.
  unfold sorted_desc.
  assert (G : forall acc, In y (fold_left (fun a x => insert_desc x a) ms acc)
                          -> In y acc \/ In y ms).
  { induction ms as [|x ms IH]; intros acc H; cbn in H; [now left|].
    destruct (IH _ H) as [H' | H']; [|right; now right].
    destruct (In_insert_desc _ _ _ H'); [right; left; now symmetry | now left]. }
  intro H. destruct (G [] H) as [[] | H']. exact H'.
Qed.

Lemma collect_alternatives_agree (h1 h2 : heap) (selected_key : string)
      (count : nat) (sorted_materials : material_scores_t) :
  (forall k e, In (k, e) sorted_materials ->
               deref h1 (material e) = deref h2 (material e)) ->
  forall alts,
    collect_alternatives h1 selected_key count sorted_materials alts
    = collect_alternatives h2 selected_key count sorted_materials alts.
Proof.
  induction sorted_materials as [|[k e] rest IH]; intros H alts;
    cbn [collect_alternatives]; [reflexivity|].
  assert (Hrest : forall k' e', In (k', e') rest ->
                                deref h1 (material e') = deref h2 (material e'))
    by (intros k' e' Hin; apply (H k' e'); now right).
  rewrite (H k e) by now left.
  destruct (negb (String.eqb k selected_key)
            && (List.length alts <? count)%nat).
  - destruct (deref h2 (material e)); cbn [bind]; [|reflexivity].
    now apply IH.
  - now apply IH.
Qed.

End Winner.

(** ** Material selector: [select] on the built-in catalog *)

Section BuiltinSelect.

Import MaterialSelector.

Lemma agree_refl (self : Selector) (h : heap) : agree self h h.
Proof. intros k l _. reflexivity. Qed.

Lemma collect_alternatives_returns (h : heap) (selected_key : string)
      (count : nat) (sorted_materials : material_scores_t) :
  (forall k e, In (k, e) sorted_materials ->
               exists d, deref h (material e) = Ok d) ->
  forall alts,
    exists alts',
      collect_alternatives h selected_key count sorted_materials alts
      = Ok alts'.
Proof.
  induction sorted_materials as [|[k e] rest IH]; intros H alts;
    cbn [collect_alternatives]; [eauto|].
  assert (Hrest : forall k' e', In (k', e') rest ->
                                exists d, deref h (material e') = Ok d)
    by (intros k' e' Hin; apply (H k' e'); now right).
  destruct (H k e (or_introl eq_refl)) as [d ->]. cbn [bind].
  destruct (negb (String.eqb k selected_key)
            && (List.length alts <? count)%nat); now apply IH.
Qed.

(** [select] is the value [selection_of] of the candidate table, stored in
    a new dict at the end of the store; nothing else is written. *)
Lemma select_allocates (h : heap) (category : string) (weight : Q)
      (fragility : Z) (rp : bool) :
  agree self0 h h0 ->
  select self0 h category weight fragility rp
  = (ms <- material_scores_of self0 h0 category weight fragility rp ;;
     d <- selection_of ms ;;
     Ok (List.length h, h ++ [d])).
Proof.
  intro Hagree.
  destruct (material_scores_spec h Hagree category weight fragility rp)
    as (ms & R & Hent & _ & _).
  unfold select. rewrite R.
  rewrite <- (material_scores_agree self0 h h0 Hagree), R.
  cbn [bind]. unfold selection_of.
  destruct (max_key ms) as [k|err]; cbn [bind]; [|reflexivity].
  destruct (getitem ms k) as [e|err] eqn:G; cbn [bind]; [|reflexivity].
  destruct (Hent k e (getitem_In _ _ _ G)) as (m & Hl & Hm & D & _).
  assert (D0 : deref h0 (material e) = Ok (fresh_dict m))
    by now rewrite <- (Hagree k (material e) Hl).
  unfold copy. rewrite D, D0. cbn [bind alloc].
  unfold set_selection_score. rewrite deref_new. cbn [bind].
  rewrite store_last.
  unfold set_selection_reasons. rewrite deref_new. cbn [bind].
  rewrite store_last.
  cbn [fields selection_score selection_reasons alternatives fresh_dict].
  unfold _get_alternatives.
  match goal with
  | |- context [collect_alternatives (h ++ [?x]) k 2 ?s []] =>
      rewrite (collect_alternatives_agree (h ++ [x]) h0 k 2 s)
  end.
  2:{ intros k' e' Hin. apply In_sorted_desc in Hin.
      destruct (Hent k' e' Hin) as (m' & Hl' & _ & D' & _).
      rewrite (deref_app h _ _ _ D').
      now rewrite <- (Hagree k' (material e') Hl'). }
  destruct (collect_alternatives h0 k 2 (sorted_desc ms) []) as [alts|err];
    cbn [bind]; [|reflexivity].
  unfold set_alternatives. rewrite deref_new. cbn [bind].
  rewrite store_last. reflexivity.
Qed.

Lemma selected_dict_select (h : heap) (category : string) (weight : Q)
      (fragility : Z) (rp : bool) :
  agree self0 h h0 ->
  selected_dict (select self0 h category weight fragility rp)
  = (ms <- material_scores_of self0 h0 category weight fragility rp ;;
     selection_of ms).
Proof.
  intro Hagree. rewrite (select_allocates h _ _ _ _ Hagree).
  destruct (material_scores_of self0 h0 category weight fragility rp)
    as [ms|err]; cbn [bind]; [|reflexivity].
  destruct (selection_of ms) as [d|err]; cbn [bind]; [|reflexivity].
  unfold selected_dict. cbn [bind fst snd]. apply deref_new.
Qed.

(** Calls to [select] leave the catalog dicts where they are. *)
Lemma reachable_agree (h : heap) : reachable h -> agree self0 h h0.
Proof.
  induction 1 as [|h category weight fragility rp l h' _ IH S].
  - apply agree_refl.
  - rewrite (select_allocates h _ _ _ _ IH) in S.
    destruct (material_scores_of self0 h0 category weight fragility rp)
      as [ms|err]; cbn [bind] in S; [|discriminate].
    destruct (selection_of ms) as [d|err]; cbn [bind] in S; [|discriminate].
    injection S as <- <-.
    intros k l' Hl. rewrite <- (IH k l' Hl).
    destruct (catalog_entry k l' Hl) as (m & _ & D0).
    rewrite <- (IH k l' Hl) in D0.
    rewrite (deref_app h [d] l' _ D0). now rewrite D0.
Qed.

(** When some material qualifies, the value of the candidate table is a
    catalog record that admits the weight. *)
Lemma selection_of_qualifies (category : string) (weight : Q)
      (fragility : Z) (rp : bool) :
  (exists k m, In (k, m) catalog /\ weight <= weight_limit m) ->
  exists ms d k,
    material_scores_of self0 h0 category weight fragility rp = Ok ms
    /\ selection_of ms = Ok d
    /\ In (k, fields d) catalog
    /\ weight <= weight_limit (fields d).
Proof.
  intro Hq.
  destruct (material_scores_spec h0 (agree_refl _ _) category weight
                                 fragility rp)
    as (ms & R & Hent & Hne & _).
  destruct (max_key_spec ms (Hne Hq)) as (k & e & M & G & Hin).
  destruct (Hent k e Hin) as (m & _ & Hm & D & Hw).
  destruct (collect_alternatives_returns h0 k 2 (sorted_desc ms)) with
    (alts := @nil Alternative) as [alts A].
  { intros k' e' Hin'. apply In_sorted_desc in Hin'.
    destruct (Hent k' e' Hin') as (m' & _ & _ & D' & _). eauto. }
  exists ms. eexists. exists k. split; [exact R|].
  unfold selection_of, _get_alternatives.
  rewrite M. cbn [bind]. rewrite G. cbn [bind]. rewrite D. cbn [bind].
  rewrite A. cbn [bind]. split; [reflexivity|].
  cbn [fields fresh_dict]. auto.
Qed.

End BuiltinSelect.

Section SelectorClaims.

Import MaterialSelector.

(** With a weight of 25 kg every material is skipped by the loop, the
    candidate table is empty, and [select] raises [ValueError] from [max]
    instead of returning a material. *)
Lemma select_all_disqualified_counterexample :
  select self0 h0 "other" 25 3 true = Raise ValueError
  /\ ~ returns (selected_dict (select self0 h0 "other" 25 3 true)).
Proof.
  assert (A : select self0 h0 "other" 25 3 true = Raise ValueError)
    by (vm_compute; reflexivity).
  split; [exact A|]. rewrite A. intros [d E]. discriminate.
Qed.

(** In every call whose weight exceeds 20 kg, the weight limit of the
    whole catalog, every material is skipped by the scoring loop: the
    candidate table handed to the max-score selection is empty. *)
Lemma all_disqualified_no_candidates (h : heap) (category : string)
        (weight : Q) (fragility : Z) (recyclable_priority : bool) :
  reachable h -> 20 < weight ->
  (forall k m, In (k, m) catalog -> weight_limit m < weight)
  /\ material_scores_of self0 h category weight fragility
                        recyclable_priority = Ok [].
Proof.
  intros Hr Hw.
  assert (Hall : forall k m, In (k, m) catalog -> weight_limit m < weight).
  { intros k m Hm. pose proof (catalog_limit_max k m Hm). lra. }
  split; [exact Hall|].
  destruct (material_scores_spec h (reachable_agree h Hr) category weight
                                 fragility recyclable_priority)
    as (ms & R & _ & _ & Hempty).
  rewrite R. now rewrite (Hempty Hall).
Qed.

(** C1.  The code does not do what the claim asks for.  In every call
    whose weight exceeds 20 kg, the largest weight limit of the catalog,
    every material is weight-disqualified and [select] raises [ValueError]
    from [max] on the empty candidate table instead of returning a
    best-effort selection. *)
Theorem select_all_disqualified_raises (h : heap) (category : string)
        (weight : Q) (fragility : Z) (recyclable_priority : bool) :
  reachable h -> 20 < weight ->
  (forall k m, In (k, m) catalog -> weight_limit m < weight)
  /\ select self0 h category weight fragility recyclable_priority
     = Raise ValueError
  /\ ~ returns (selected_dict (select self0 h category weight fragility
                                      recyclable_priority)).
Proof.
  intros Hr Hw.
  destruct (all_disqualified_no_candidates h category weight fragility
                                           recyclable_priority Hr Hw)
    as [Hall M].
  assert (S : select self0 h category weight fragility recyclable_priority
              = Raise ValueError).
  { unfold select. rewrite M. reflexivity. }
  split; [exact Hall|].
  split; [exact S|]. rewrite S. intros [d E]. discriminate.
Qed.

Lemma select_all_disqualified_raises_witness :
  (forall k m, In (k, m) catalog -> weight_limit m < 25)
  /\ select self0 h0 "other" 25 3 true = Raise ValueError
  /\ ~ returns (selected_dict (select self0 h0 "other" 25 3 true)).
Proof.
  apply (select_all_disqualified_raises h0 "other" 25 3 true).
  - apply reach_new.
  - reflexivity.
Defined.

(** C2.  In every call in which some catalog material has a weight limit
    of at least the weight, [select] returns a dict whose record is a
    catalog material with a weight limit of at least the weight. *)
Theorem select_respects_weight_limit (h : heap) (category : string)
        (weight : Q) (fragility : Z) (recyclable_priority : bool) :
  reachable h ->
  (exists k m, In (k, m) catalog /\ weight <= weight_limit m) ->
  exists d k,
    selected_dict (select self0 h category weight fragility
                          recyclable_priority) = Ok d
    /\ In (k, fields d) catalog
    /\ weight <= weight_limit (fields d).
Proof.
  intros Hr Hq.
  rewrite (selected_dict_select h _ _ _ _ (reachable_agree h Hr)).
  destruct (selection_of_qualifies category weight fragility
                                   recyclable_priority Hq)
    as (ms & d & k & -> & S & Hk & Hw).
  cbn [bind]. exists d, k. auto.
Qed.

Lemma select_respects_weight_limit_witness :
  exists d k,
    selected_dict (select self0 h0 "other" 12 2 true) = Ok d
    /\ In (k, fields d) catalog
    /\ 12 <= weight_limit (fields d).
Proof.
  apply (select_respects_weight_limit h0 "other" 12 2 true).
  - apply reach_new.
  - exists "honeycomb_cardboard"%string, honeycomb_cardboard.
    split; [cbn; tauto | unfold Qle; simpl; lia].
Defined.

(** The source's second test: 12 kg in category [other] selects Honeycomb
    Cardboard, with Double-Wall Corrugated as the only alternative. *)
Example select_heavy_item :
  exists d alt,
    selected_dict (select self0 h0 "other" 12 2 true) = Ok d
    /\ name (fields d) = "Honeycomb Cardboard"%string
    /\ alternatives d = Some [alt]
    /\ alt_name alt = "Double-Wall Corrugated Cardboard"%string.
Proof.
  do 2 eexists. split; [vm_compute; reflexivity|].
  repeat split.
Qed.

(** The specification's scenario: fragile electronics of 0.5 kg select the
    foam-insert cardboard. *)
Example select_electronics :
  exists d,
    selected_dict (select self0 h0 "electronics" 0.5 5 true) = Ok d
    /\ fields d = foam_insert_cardboard.
Proof. eexists. split; [vm_compute; reflexivity | reflexivity]. Qed.

Lemma reachable_after_first_call : reachable after_first_call.
Proof.
  apply (reach_select h0 "electronics" 0.5 5 true 7%nat after_first_call
                      reach_new).
  vm_compute. reflexivity.
Qed.

(** C9.  Whatever calls to [select] came before, two calls with the same
    category, weight, fragility and recyclable priority return dicts with
    the same content: the same winner record, selection score, selection
    reasons and list of alternatives (or both raise the same error). *)
Theorem select_deterministic (h h' : heap) (category : string) (weight : Q)
        (fragility : Z) (recyclable_priority : bool) :
  reachable h -> reachable h' ->
  selected_dict (select self0 h category weight fragility
                        recyclable_priority)
  = selected_dict (select self0 h' category weight fragility
                          recyclable_priority).
Proof.
  intros Hr Hr'.
  rewrite (selected_dict_select h _ _ _ _ (reachable_agree h Hr)).
  rewrite (selected_dict_select h' _ _ _ _ (reachable_agree h' Hr')).
  reflexivity.
Qed.

Lemma select_deterministic_witness :
  selected_dict (select self0 h0 "food" 2 3 true)
  = selected_dict (select self0 after_first_call "food" 2 3 true).
Proof.
  apply (select_deterministic h0 after_first_call "food" 2 3 true).
  - apply reach_new.
  - apply reachable_after_first_call.
Defined.

(** C10.  In every call on the built-in catalog, for every catalog
    material the category criterion yields 15 points when the material's
    key is in the preferred list of the category and 5 points otherwise;
    the 10-point branch is never taken, since the records of two catalog
    materials with different keys never compare equal. *)
Theorem category_points_by_key (h : heap) (category k : string)
        (m : Material) :
  reachable h -> In (k, m) catalog ->
  exists cat_prefs points why,
    get_cat_prefs self0 (normalize category) = Ok cat_prefs
    /\ category_match h self0 cat_prefs (normalize category) k
                      (fresh_dict m) = Ok (points, why)
    /\ points = (if str_in k (preferred_materials cat_prefs)
                 then 15 else 5)%Z
    /\ (forall k' m', In (k', m') catalog -> k <> k' ->
                      dict_eqb (fresh_dict m) (fresh_dict m') = false).
Proof.
  intros Hr Hm.
  destruct (get_cat_prefs_cases (normalize category)) as (p & E & Hp).
  exists p, (fst (key_membership_points p (normalize category) k)),
         (snd (key_membership_points p (normalize category) k)).
  split; [exact E|].
  rewrite (category_match_agree self0 h h0 (reachable_agree h Hr)).
  rewrite (category_match_h0 p (normalize category) k m Hp Hm).
  rewrite <- surjective_pairing. split; [reflexivity|]. split.
  - unfold key_membership_points.
    destruct (str_in k (preferred_materials p)); reflexivity.
  - intros k' m' Hm' Hne. exact (catalog_records_distinct k k' m m' Hm Hm' Hne).
Qed.

Lemma category_points_by_key_witness :
  exists cat_prefs points why,
    get_cat_prefs self0 (normalize "Food") = Ok cat_prefs
    /\ category_match h0 self0 cat_prefs (normalize "Food") "kraft_paper"
                      (fresh_dict kraft_paper) = Ok (points, why)
    /\ points = (if str_in "kraft_paper" (preferred_materials cat_prefs)
                 then 15 else 5)%Z
    /\ (forall k' m', In (k', m') catalog -> "kraft_paper"%string <> k' ->
                      dict_eqb (fresh_dict kraft_paper) (fresh_dict m')
                      = false).
Proof.
  apply (category_points_by_key h0 "Food" "kraft_paper" kraft_paper).
  - apply reach_new.
  - cbn. tauto.
Defined.

End SelectorClaims.

(** ** The pipeline *)

(** The four calculators chained as the orchestrator chains them, on the
    headphones of the source's tests: a 22 x 18 x 11 box of foam-insert
    cardboard that needs reinforcement. *)
Example pipeline_headphones :
  exists box material strength sustainability,
    DimensionOptimizer.optimize 18 14 7 0.5 4 = Ok box
    /\ DimensionOptimizer64.dims
         (DimensionOptimizer64.optimize
            (Float64.of_Z 18) (Float64.of_Z 14) (Float64.of_Z 7)
            (Float64.lit 0.5) 4)
       = Double.mkDimensions (Float64.of_Z 22) (Float64.of_Z 18)
                             (Float64.of_Z 11)
    /\ MaterialSelector.selected_dict
         (MaterialSelector.select self0 h0 "Electronics" 0.5 4 true)
       = Ok material
    /\ MaterialSelector.fields material
       = MaterialSelector.foam_insert_cardboard
    /\ StrengthPredictor.predict
         (DimensionOptimizer.dims box)
         (MaterialSelector.name (MaterialSelector.fields material)) 0.5 4
       = Ok strength
    /\ StrengthPredictor.needs_reinforcement strength = true
    /\ SustainabilityAnalyzer64.analyze
         (Double.mkDimensions (Float64.of_Z 18) (Float64.of_Z 14)
                              (Float64.of_Z 7))
         (Double.mkDimensions (Float64.of_Z 22) (Float64.of_Z 18)
                              (Float64.of_Z 11))
         (SustainabilityAnalyzer64.of_selection material) (Float64.lit 0.5)
       = Ok sustainability.
Proof.
  do 4 eexists.
  split; [vm_compute; reflexivity|].
  split; [vm_compute; reflexivity|].
  split; [vm_compute; reflexivity|].
  split; [reflexivity|].
  split; [vm_compute; reflexivity|].
  split; [reflexivity|].
  vm_compute; reflexivity.
Qed.

(** * Further properties *)

(** ** Dimension planner *)

Section DimensionPlannerMore.

Import DimensionOptimizer.

(** A fragility outside 1..5 is planned exactly like fragility 3. *)
Theorem optimize_fragility_default (l w h wt : Q) (f : Z) :
  ~ (1 <= f <= 5)%Z ->
  optimize l w h wt f = optimize l w h wt 3.
Proof.
  intro H.
  assert (E : base_padding f = base_padding 3).
  { unfold base_padding, padding_multiplier, get.
    assert (f <> 1 /\ f <> 2 /\ f <> 3 /\ f <> 4 /\ f <> 5)%Z
      as (H1 & H2 & H3 & H4 & H5) by lia.
    apply Z.eqb_neq in H1, H2, H3, H4, H5.
    rewrite H1, H2, H3, H4, H5. reflexivity. }
  unfold optimize. rewrite E. reflexivity.
Qed.

Lemma optimize_fragility_default_witness :
  optimize 18 14 7 0.5 9 = optimize 18 14 7 0.5 3.
Proof.
  apply (optimize_fragility_default 18 14 7 0.5 9). lia.
Defined.

End DimensionPlannerMore.

(** ** Strength evaluator *)

Section StrengthEvaluatorMore.

Import Float64 StrengthPredictor.

(** The shape of every report: the scores are in their bands, the rating
    is the rating of the strength score, and the reinforcement flag and
    reason follow the three tests in order. *)
Lemma predict_shape (dimensions : Dimensions) (material_name : string)
      (weight : Q) (fragility : Z) :
  exists r,
    predict dimensions material_name weight fragility = Ok r
    /\ (60 <= strength_score r <= 98)%Z
    /\ overall_rating r = _get_rating (strength_score r)
    /\ (needs_reinforcement r, reinforcement_reason r)
       = (if (strength_score r <? 70)%Z then
            (true, Some "Low overall strength score"%string)
          else if Qltb 5 weight && (strength_score r <? 80)%Z then
            (true, Some "Heavy product requires stronger material"%string)
          else if (4 <=? fragility)%Z && (strength_score r <? 85)%Z then
            (true, Some "Fragile product requires better protection"%string)
          else (false, None)).
Proof.
  unfold predict.
  destruct (get_properties_cases material_name) as [p [-> Hp]].
  destruct (vw_ratio_returns dimensions weight) as [v ->].
  destruct (aspect_ratio_returns dimensions) as [a ->].
  cbn [bind]. cbv zeta.
  pose proof (percentages_finite_in p _ _ _ Hp (strength_factor_cases v)
                (fragility_factor_cases fragility (lit (base_strength p)))
                (geometry_factor_cases a)) as F.
  unfold percentages_finite, percentages in F. cbv zeta in F.
  apply andb_prop in F. destruct F as [F Fc].
  apply andb_prop in F. destruct F as [Fs Fd].
  destruct (int_finite _ Fs) as [s Es].
  destruct (int_finite _ Fd) as [d Ed].
  destruct (int_finite _ Fc) as [c Ec].
  unfold clamp_score. rewrite Es, Ed, Ec. cbn [bind].
  set (s' := Zpy_min 98 (Zpy_max 60 s)).
  assert (Hs : (60 <= s' <= 98)%Z).
  { unfold s'. rewrite clamp_agrees by lia. apply clamp_bounds. lia. }
  destruct (s' <? 70)%Z eqn:E1;
    [|destruct (Qltb 5 weight && (s' <? 80)%Z) eqn:E2;
      [|destruct ((4 <=? fragility)%Z && (s' <? 85)%Z) eqn:E3]];
    eexists; (split; [reflexivity|]);
    cbn [strength_score overall_rating needs_reinforcement
         reinforcement_reason];
    rewrite ?E1, ?E2, ?E3; auto.
Qed.

(** [needs_reinforcement] is set exactly when the strength score is below
    70, or the weight is above 5 kg with a score below 80, or the
    fragility is at least 4 with a score below 85; a reason is given
    exactly when the flag is set, and a score below 70 always gives the
    reason "Low overall strength score". *)
Theorem needs_reinforcement_spec (dimensions : Dimensions)
        (material_name : string) (weight : Q) (fragility : Z) :
  exists r,
    predict dimensions material_name weight fragility = Ok r
    /\ (needs_reinforcement r = true <->
        (strength_score r < 70)%Z
        \/ (5 < weight /\ (strength_score r < 80)%Z)
        \/ ((4 <= fragility)%Z /\ (strength_score r < 85)%Z))
    /\ (needs_reinforcement r = false <-> reinforcement_reason r = None)
    /\ ((strength_score r < 70)%Z ->
        reinforcement_reason r = Some "Low overall strength score"%string).
Proof.
  destruct (predict_shape dimensions material_name weight fragility)
    as (r & E & _ & _ & H).
  exists r. split; [exact E|].
  destruct (strength_score r <? 70)%Z eqn:E1.
  { injection H as -> ->. apply Z.ltb_lt in E1.
    repeat split; auto; try discriminate. }
  apply Z.ltb_ge in E1.
  destruct (Qltb 5 weight) eqn:Ew;
    destruct (strength_score r <? 80)%Z eqn:E2;
    destruct (4 <=? fragility)%Z eqn:Ef;
    destruct (strength_score r <? 85)%Z eqn:E3;
    cbn [andb] in H; injection H as -> ->;
    repeat match goal with
           | H : (_ <? _)%Z = true |- _ => apply Z.ltb_lt in H
           | H : (_ <? _)%Z = false |- _ => apply Z.ltb_ge in H
           | H : (_ <=? _)%Z = true |- _ => apply Z.leb_le in H
           | H : (_ <=? _)%Z = false |- _ => apply Z.leb_gt in H
           | H : Qltb _ _ = true |- _ => apply Qltb_lt in H
           | H : Qltb _ _ = false |- _ => apply Qltb_ge in H
           end;
    repeat split; try discriminate; try reflexivity; try lia;
    try (intros _; tauto);
    try (intros [? | [[? ?] | [? ?]]]; try lia; try lra).
Qed.

(** The overall rating of a report is never "Needs Improvement": the
    strength score is clamped to at least 60.  The lowest rating that
    occurs, "Adequate", always comes with the reinforcement flag. *)
Theorem overall_rating_labels (dimensions : Dimensions)
        (material_name : string) (weight : Q) (fragility : Z) :
  exists r,
    predict dimensions material_name weight fragility = Ok r
    /\ In (overall_rating r)
          ["Excellent"; "Very Good"; "Good"; "Adequate"]%string
    /\ overall_rating r <> "Needs Improvement"%string
    /\ (overall_rating r = "Adequate"%string ->
        needs_reinforcement r = true).
Proof.
  destruct (predict_shape dimensions material_name weight fragility)
    as (r & E & Hs & Hr & H).
  exists r. split; [exact E|]. rewrite Hr. unfold _get_rating.
  destruct (90 <=? strength_score r)%Z eqn:E90;
    [|destruct (80 <=? strength_score r)%Z eqn:E80;
      [|destruct (70 <=? strength_score r)%Z eqn:E70;
        [|destruct (60 <=? strength_score r)%Z eqn:E60]]];
    try (apply Z.leb_gt in E60; lia);
    (split; [cbn; tauto|]); (split; [discriminate|]);
    try discriminate.
  intros _. apply Z.leb_gt in E70.
  apply Z.ltb_lt in E70. rewrite E70 in H. now injection H.
Qed.

Lemma tensile_positive (material_name : string) (p : Properties) :
  MaterialSelector.lookup material_properties material_name = Some p ->
  0 < tensile_strength p.
Proof.
  intro E. apply lookup_In in E. cbn [In material_properties] in E.
  destruct E as [E | [E | [E | [E | [E | [E | []]]]]]];
    injection E as _ <-; reflexivity.
Qed.



(** The drop test does not depend on the box: [predict] is called and
    always returns, but its scores are not used. *)
Theorem drop_test_ignores_dimensions (d1 d2 : Dimensions)
        (material_name : string) (weight height_cm : Q) :
  predict_drop_test d1 material_name weight height_cm
  = predict_drop_test d2 material_name weight height_cm.
Proof.
  unfold predict_drop_test.
  destruct (predict_returns d1 material_name weight 5) as [r1 ->].
  destruct (predict_returns d2 material_name weight 5) as [r2 ->].
  reflexivity.
Qed.

End StrengthEvaluatorMore.

Section StrengthMonotone.

Import Float64 StrengthPredictor.

Lemma strength_factor_pair (v1 v2 : Q) :
  v1 <= v2 ->
  In (strength_factor_of v1, strength_factor_of v2)
     (ordered_pairs strength_factors).
Proof.
  intro H. unfold strength_factor_of.
  destruct (Qltb 500 v1) eqn:A1; destruct (Qltb 500 v2) eqn:A2;
    destruct (Qltb 300 v1) eqn:B1; destruct (Qltb 300 v2) eqn:B2;
    destruct (Qltb 150 v1) eqn:C1; destruct (Qltb 150 v2) eqn:C2;
    destruct (Qltb 75 v1) eqn:D1; destruct (Qltb 75 v2) eqn:D2;
    try (cbn [ordered_pairs strength_factors map app In]; tauto);
    exfalso;
    repeat match goal with
           | E : Qltb _ _ = true |- _ => apply Qltb_lt in E
           | E : Qltb _ _ = false |- _ => apply Qltb_ge in E
           end; lra.
Qed.

(** Over the whole table, a higher strength factor never gives a lower
    strength or durability score. *)
Lemma all_scores_monotone :
  forallb (fun p =>
    forallb (fun lo_hi =>
      forallb (fun ff =>
        forallb (fun gf => scores_monotone_at p lo_hi ff gf)
                geometry_factors)
        fragility_factors)
      (ordered_pairs strength_factors))
    (map snd material_properties) = true.
Proof. vm_compute. reflexivity. Qed.

Lemma scores_monotone_in (p : Properties) (lo hi ff gf : float) :
  In p (map snd material_properties) ->
  In (lo, hi) (ordered_pairs strength_factors) ->
  In ff fragility_factors -> In gf geometry_factors ->
  scores_monotone_at p (lo, hi) ff gf = true.
Proof.
  intros Hp Hsf Hff Hgf.
  pose proof all_scores_monotone as H.
  rewrite forallb_forall in H. specialize (H p Hp).
  rewrite forallb_forall in H. specialize (H (lo, hi) Hsf).
  rewrite forallb_forall in H. specialize (H ff Hff).
  rewrite forallb_forall in H. exact (H gf Hgf).
Qed.

Lemma vw_ratio_antitone (dimensions : Dimensions) (w1 w2 : Q) :
  0 <= length dimensions * width dimensions * height dimensions ->
  0 < w1 -> w1 <= w2 ->
  exists v1 v2,
    vw_ratio_of dimensions w1 = Ok v1
    /\ vw_ratio_of dimensions w2 = Ok v2
    /\ v2 <= v1.
Proof.
  intros HV H1 H12. unfold vw_ratio_of. cbv zeta.
  set (V := length dimensions * width dimensions * height dimensions) in *.
  assert (G1 : Qltb 0 (w1 * 1000) = true) by (apply Qltb_lt; lra).
  assert (G2 : Qltb 0 (w2 * 1000) = true) by (apply Qltb_lt; lra).
  rewrite G1, G2. rewrite !py_div_ok by lra.
  do 2 eexists. split; [reflexivity|]. split; [reflexivity|].
  apply Qle_shift_div_l; [lra|].
  assert (E : V / (w2 * 1000) * (w1 * 1000) == V * (w1 * 1000) / (w2 * 1000))
    by (field; lra).
  rewrite E. apply Qle_shift_div_r; [lra|].
  rewrite (Qmult_comm V (w1 * 1000)), (Qmult_comm V (w2 * 1000)).
  apply Qmult_le_compat_r; lra.
Qed.

(** In the same box, with the same material and fragility, a heavier
    product never gets a higher strength or durability score than a
    lighter one; the compression score does not depend on the weight. *)
Theorem scores_antitone_in_weight (dimensions : Dimensions)
        (material_name : string) (w1 w2 : Q) (fragility : Z) :
  0 <= length dimensions * width dimensions * height dimensions ->
  0 < w1 -> w1 <= w2 ->
  exists r1 r2,
    predict dimensions material_name w1 fragility = Ok r1
    /\ predict dimensions material_name w2 fragility = Ok r2
    /\ (strength_score r2 <= strength_score r1)%Z
    /\ (durability_score r2 <= durability_score r1)%Z
    /\ compression_score r2 = compression_score r1.
Proof.
  intros HV H1 H12.
  destruct (vw_ratio_antitone dimensions w1 w2 HV H1 H12)
    as (v1 & v2 & E1 & E2 & Hv).
  unfold predict.
  destruct (get_properties_cases material_name) as [p [-> Hp]].
  rewrite E1, E2.
  destruct (aspect_ratio_returns dimensions) as [a ->].
  cbn [bind]. cbv zeta.
  pose proof (scores_monotone_in p _ _ _ _ Hp
                (strength_factor_pair v2 v1 Hv)
                (fragility_factor_cases fragility (lit (base_strength p)))
                (geometry_factor_cases a)) as M.
  pose proof (percentages_finite_in p _ _ _ Hp (strength_factor_cases v1)
                (fragility_factor_cases fragility (lit (base_strength p)))
                (geometry_factor_cases a)) as F.
  unfold percentages_finite, percentages in F. cbv zeta in F.
  apply andb_prop in F. destruct F as [_ Fc].
  unfold scores_monotone_at, percentages in M. cbv zeta in M.
  destruct (clamp_score 60
              (mul (mul (mul (mul (lit (base_strength p))
                                  (strength_factor_of v2))
                             (fragility_factor_of fragility
                                (lit (base_strength p))))
                        (geometry_factor_of a)) (of_Z 100)))
    as [s2|] ; [|discriminate].
  destruct (clamp_score 60
              (mul (mul (mul (mul (lit (base_strength p))
                                  (strength_factor_of v1))
                             (fragility_factor_of fragility
                                (lit (base_strength p))))
                        (geometry_factor_of a)) (of_Z 100)))
    as [s1|]; [|discriminate].
  destruct (clamp_score 60
              (mul (mul (lit (durability p)) (strength_factor_of v2))
                   (of_Z 100))) as [d2|]; [|discriminate].
  destruct (clamp_score 60
              (mul (mul (lit (durability p)) (strength_factor_of v1))
                   (of_Z 100))) as [d1|]; [|discriminate].
  apply andb_prop in M. destruct M as [Ms Md].
  apply Z.leb_le in Ms, Md.
  destruct (int_finite _ Fc) as [c Ec].
  unfold clamp_score at 1 2. rewrite Ec. cbn [bind].
  repeat match goal with
         | |- context [if ?b then _ else _] => destruct b
         end;
    do 2 eexists; (split; [reflexivity|]); (split; [reflexivity|]);
    cbn [strength_score durability_score compression_score]; auto.
Qed.

Lemma scores_antitone_in_weight_witness :
  exists r1 r2,
    predict (mkDimensions 30 20 20) "Recycled Cardboard" 0.03 3 = Ok r1
    /\ predict (mkDimensions 30 20 20) "Recycled Cardboard" 1.5 3 = Ok r2
    /\ (strength_score r2 <= strength_score r1)%Z
    /\ (durability_score r2 <= durability_score r1)%Z
    /\ compression_score r2 = compression_score r1.
Proof.
  apply (scores_antitone_in_weight (mkDimensions 30 20 20)
                                   "Recycled Cardboard" 0.03 1.5 3).
  - unfold Qle; simpl; lia.
  - reflexivity.
  - unfold Qle; simpl; lia.
Defined.

End StrengthMonotone.

(** ** Order of binary64 values *)

Section FloatOrder.

Import Float64.

Ltac float_cases :=
  repeat match goal with
         | x : float |- _ => destruct x as [[|]|[|]| |[|] ? ?]
         | x : spec_float |- _ => destruct x as [[|]|[|]| |[|] ? ?]
         end;
  unfold ltb, SFltb, SFcompare; cbn;
  try discriminate; try reflexivity; try congruence.

Ltac compare_cases :=
  repeat match goal with
         | |- context [Z.compare ?a ?b] =>
             destruct (Z.compare_spec a b); cbn
         | H : context [Z.compare ?a ?b] |- _ =>
             destruct (Z.compare_spec a b); cbn in H
         | |- context [Pos.compare_cont Eq ?a ?b] =>
             change (Pos.compare_cont Eq a b) with (Pos.compare a b);
             destruct (Pos.compare_spec a b); cbn
         | H : context [Pos.compare_cont Eq ?a ?b] |- _ =>
             change (Pos.compare_cont Eq a b) with (Pos.compare a b) in H;
             destruct (Pos.compare_spec a b); cbn in H
         end;
  try discriminate; try reflexivity; try congruence; try lia.

Lemma ltb_irrefl (x : float) : ltb x x = false.
Proof.
  float_cases; rewrite Z.compare_refl;
    match goal with
    | |- context [Pos.compare_cont Eq ?m ?m] =>
        change (Pos.compare_cont Eq m m) with (Pos.compare m m);
        rewrite Pos.compare_refl
    end; reflexivity.
Qed.

Lemma ltb_trans (x y z : float) :
  ltb x y = true -> ltb y z = true -> ltb x z = true.
Proof.
  float_cases; intros H1 H2; compare_cases.
Qed.

(** For a middle value that is not NaN: if neither [x < y] nor [y < z],
    then not [x < z]. *)
Lemma ltb_false_trans (x y z : float) :
  y <> S754_nan ->
  ltb x y = false -> ltb y z = false -> ltb x z = false.
Proof.
  float_cases; intros Hy H1 H2; compare_cases.
Qed.

End FloatOrder.
(** ** Material selector: scores *)

Section SelectorScores.

Import MaterialSelector.

Lemma score_in_range_not_nan (s : Float64.float) :
  score_in_range s -> s <> S754_nan.
Proof. intros [H _] ->. discriminate H. Qed.

(** Whatever the branch taken, the score of a scored catalog material is
    between 57 and 105. *)
Lemma score_material_range (h : heap) (p : CategoryPrefs)
      (category : string) (weight : Q) (fragility : Z) (rp : bool)
      (k : string) (m : Material) (s : Float64.float) (why : list string) :
  agree self0 h h0 ->
  In p (map snd category_table) -> In (k, m) catalog ->
  score_material h self0 p category weight fragility rp k (fresh_dict m)
  = Ok (Some (s, why)) ->
  score_in_range s.
Proof.
  intros Hagree Hp Hm H.
  rewrite (score_material_agree self0 h h0 Hagree) in H.
  unfold score_material in H.
  rewrite (category_match_h0 p category k m Hp Hm) in H.
  unfold key_membership_points in H.
  unfold score_in_range.
  destruct (str_in k (preferred_materials p)); destruct rp;
    cbn [In catalog] in Hm;
    destruct Hm as [E | [E | [E | [E | [E | [E | [E | []]]]]]]];
    injection E as <- <-;
    unfold weight_compatibility, fragility_handling, py_div in H;
    cbn [fields fresh_dict] in H;
    match type of H with
    | context [Qle_bool weight ?l] => destruct (Qle_bool weight l)
    end; try discriminate;
    match type of H with
    | context [Qeq_bool ?a 0] =>
        let v := eval vm_compute in (Qeq_bool a 0) in
        change (Qeq_bool a 0) with v in H
    end;
    cbn [bind] in H;
    repeat match type of H with
           | context [Qltb (weight / ?l) ?c] =>
               destruct (Qltb (weight / l) c)
           | context [(fragility <=? ?x)%Z] => destruct (fragility <=? x)%Z
           | context [(4 <=? fragility)%Z] => destruct (4 <=? fragility)%Z
           end;
    vm_compute in H; injection H as <- _; split; vm_compute; reflexivity.
Qed.

Lemma score_loop_range (h : heap) (p : CategoryPrefs) (category : string)
      (weight : Q) (fragility : Z) (rp : bool) :
  agree self0 h h0 -> In p (map snd category_table) ->
  forall items acc res,
    incl items (materials self0) ->
    (forall k e, In (k, e) acc -> score_in_range (score e)) ->
    score_loop h self0 p category weight fragility rp items acc = Ok res ->
    forall k e, In (k, e) res -> score_in_range (score e).
Proof.
  intros Hagree Hp.
  induction items as [|[k l] items IH]; intros acc res Hincl Hacc R;
    cbn [score_loop] in R.
  - injection R as <-. exact Hacc.
  - assert (Hkl : In (k, l) (materials self0)) by (apply Hincl; now left).
    destruct (catalog_entry k l Hkl) as (m & Hm & D0).
    rewrite (Hagree k l Hkl), D0 in R. cbn [bind] in R.
    assert (Hrest : incl items (materials self0))
      by (intros x Hx; apply Hincl; now right).
    destruct (score_material h self0 p category weight fragility rp k
                             (fresh_dict m)) as [[[s why]|]|err] eqn:S;
      cbn [bind] in R; [| |discriminate].
    + refine (IH _ _ Hrest _ R).
      intros k' e' Hin. apply In_setitem in Hin.
      destruct Hin as [Heq | Hin]; [|now apply (Hacc k')].
      injection Heq as -> ->. cbn [score].
      exact (score_material_range h p category weight fragility rp k m s
                                  why Hagree Hp Hm S).
    + exact (IH _ _ Hrest Hacc R).
Qed.

Lemma material_scores_range (h : heap) (category : string) (weight : Q)
      (fragility : Z) (rp : bool) (ms : material_scores_t) :
  agree self0 h h0 ->
  material_scores_of self0 h category weight fragility rp = Ok ms ->
  forall k e, In (k, e) ms -> score_in_range (score e).
Proof.
  intros Hagree R. unfold material_scores_of in R.
  destruct (get_cat_prefs_cases (normalize category)) as (p & E & Hp).
  rewrite E in R. cbn [bind] in R.
  apply (score_loop_range h p (normalize category) weight fragility rp
                          Hagree Hp (materials self0) [] ms
                          (incl_refl _)); [|exact R].
  intros k e [].
Qed.

End SelectorScores.

(** ** Material selector: the winner and the alternatives *)

Section SelectorRanking.

Import MaterialSelector.

Lemma ltb_asym (x y : Float64.float) :
  Float64.ltb x y = true -> Float64.ltb y x = false.
Proof.
  intro H. destruct (Float64.ltb y x) eqn:E; [|reflexivity].
  pose proof (ltb_trans x y x H E) as C.
  rewrite ltb_irrefl in C. discriminate.
Qed.

Lemma ltb_true_not_nan (x y : Float64.float) :
  Float64.ltb x y = true -> x <> S754_nan.
Proof. intros H ->. discriminate H. Qed.

(** [max] returns an entry that no entry of the table outscores. *)
Lemma max_from_max (rest : material_scores_t) :
  forall best,
    (forall x, In x (best :: rest) -> score (snd x) <> S754_nan) ->
    forall x, In x (best :: rest) ->
              not_below (score (snd (max_from best rest))) (score (snd x)).
Proof.
  unfold not_below.
  induction rest as [|y rest IH]; intros best Hnan x Hx; cbn [max_from].
  - destruct Hx as [<- | []]. apply ltb_irrefl.
  - destruct (Float64.ltb (score (snd best)) (score (snd y))) eqn:E.
    + assert (Hnan' : forall z, In z (y :: rest) ->
                                score (snd z) <> S754_nan)
        by (intros z Hz; apply Hnan; now right).
      destruct Hx as [<- | Hx]; [|now apply IH].
      pose proof (IH y Hnan' y (or_introl eq_refl)) as Hy.
      destruct (Float64.ltb (score (snd (max_from y rest)))
                            (score (snd best))) eqn:C; [|reflexivity].
      rewrite (ltb_trans _ _ _ C E) in Hy. discriminate.
    + assert (Hnan' : forall z, In z (best :: rest) ->
                                score (snd z) <> S754_nan).
      { intros z [<- | Hz]; apply Hnan; [now left | right; now right]. }
      destruct Hx as [<- | [<- | Hx]].
      * apply IH; [exact Hnan' | now left].
      * apply ltb_false_trans with (y := score (snd best)).
        -- apply Hnan. now left.
        -- apply IH; [exact Hnan' | now left].
        -- exact E.
      * apply IH; [exact Hnan' | now right].
Qed.

(** The key invariant of a dict: no key occurs twice. *)
Lemma In_keys_setitem {V : Type} (d : list (string * V)) (k : string)
      (v : V) (x : string) :
  In x (map fst (setitem d k v)) -> x = k \/ In x (map fst d).
Proof.
  induction d as [|[k0 v0] d IH]; cbn.
  - intros [<- | []]. now left.
  - destruct (String.eqb k k0) eqn:E; cbn.
    + tauto.
    + intros [H | H]; [right; now left|].
      destruct (IH H); [now left | right; now right].
Qed.

Lemma NoDup_setitem {V : Type} (d : list (string * V)) (k : string) (v : V) :
  NoDup (map fst d) -> NoDup (map fst (setitem d k v)).
Proof.
  induction d as [|[k0 v0] d IH]; cbn; intro H.
  - constructor; [intros [] | constructor].
  - destruct (String.eqb k k0) eqn:E; cbn; [exact H|].
    inversion H as [|? ? Hnotin Hnd]; subst.
    constructor; [|now apply IH].
    intro Hin. apply In_keys_setitem in Hin.
    destruct Hin as [-> | Hin]; [|contradiction].
    rewrite String.eqb_refl in E. discriminate.
Qed.

Lemma score_loop_NoDup (h : heap) (self : Selector) (p : CategoryPrefs)
      (category : string) (weight : Q) (fragility : Z) (rp : bool) :
  forall items acc res,
    NoDup (map fst acc) ->
    score_loop h self p category weight fragility rp items acc = Ok res ->
    NoDup (map fst res).
Proof.
  induction items as [|[k l] items IH]; intros acc res Hnd R;
    cbn [score_loop] in R.
  - now injection R as <-.
  - destruct (deref h l) as [d|]; cbn [bind] in R; [|discriminate].
    destruct (score_material h self p category weight fragility rp k d)
      as [[[s why]|]|]; cbn [bind] in R; [| |discriminate].
    + refine (IH _ _ _ R). now apply NoDup_setitem.
    + exact (IH _ _ Hnd R).
Qed.

Lemma lookup_unique {V : Type} (d : list (string * V)) (k : string) (v : V) :
  NoDup (map fst d) -> In (k, v) d -> lookup d k = Some v.
Proof.
  induction d as [|[k0 v0] d IH]; cbn; intros Hnd Hin; [contradiction|].
  inversion Hnd as [|? ? Hnotin Hnd']; subst.
  destruct Hin as [[= -> ->] | Hin].
  - now rewrite String.eqb_refl.
  - destruct (String.eqb k k0) eqn:E.
    + apply String.eqb_eq in E. subst k0. exfalso. apply Hnotin.
      apply (in_map fst) in Hin. exact Hin.
    + now apply IH.
Qed.

(** The sorted table is sorted: no entry is outscored by a later one. *)
Lemma insert_desc_sorted (x : string * ScoreEntry)
      (l : material_scores_t) :
  (forall y, In y l -> score (snd y) <> S754_nan) ->
  StronglySorted (fun a b => not_below (score (snd a)) (score (snd b))) l ->
  StronglySorted (fun a b => not_below (score (snd a)) (score (snd b)))
                 (insert_desc x l).
Proof.
  unfold not_below.
  induction l as [|y l IH]; intros Hnan Hs; cbn [insert_desc].
  - constructor; constructor.
  - apply StronglySorted_inv in Hs. destruct Hs as [Hs Hy].
    destruct (Float64.ltb (score (snd y)) (score (snd x))) eqn:E.
    + constructor; [constructor; assumption|].
      constructor; [now apply ltb_asym|].
      rewrite Forall_forall in *. intros z Hz.
      apply ltb_false_trans with (y := score (snd y)).
      * apply Hnan. now left.
      * now apply ltb_asym.
      * now apply Hy.
    + constructor.
      * apply IH; [|exact Hs]. intros z Hz. apply Hnan. now right.
      * rewrite Forall_forall in *. intros z Hz.
        apply In_insert_desc in Hz. destruct Hz as [-> | Hz];
          [exact E | now apply Hy].
Qed.

Lemma sorted_desc_sorted (ms : material_scores_t) :
  (forall y, In y ms -> score (snd y) <> S754_nan) ->
  StronglySorted (fun a b => not_below (score (snd a)) (score (snd b)))
                 (sorted_desc ms).
Proof.
  unfold sorted_desc. intro Hnan.
  assert (G : forall items acc,
             (forall y, In y items -> score (snd y) <> S754_nan) ->
             (forall y, In y acc -> score (snd y) <> S754_nan) ->
             StronglySorted
               (fun a b => not_below (score (snd a)) (score (snd b))) acc ->
             StronglySorted
               (fun a b => not_below (score (snd a)) (score (snd b)))
               (fold_left (fun a x => insert_desc x a) items acc)).
  { induction items as [|x items IH]; intros acc Hi Ha Hs; cbn [fold_left];
      [exact Hs|].
    apply IH.
    - intros y Hy. apply Hi. now right.
    - intros y Hy. apply In_insert_desc in Hy.
      destruct Hy as [-> | Hy]; [apply Hi; now left | now apply Ha].
    - now apply insert_desc_sorted. }
  apply G; [exact Hnan | intros y [] | constructor].
Qed.

Lemma StronglySorted_filter {A : Type} (R : A -> A -> Prop)
      (f : A -> bool) (l : list A) :
  StronglySorted R l -> StronglySorted R (filter f l).
Proof.
  induction 1 as [|a l Hs IH Ha]; cbn; [constructor|].
  destruct (f a); [|exact IH].
  constructor; [exact IH|].
  rewrite Forall_forall in *. intros x Hx.
  apply filter_In in Hx. now apply Ha.
Qed.

Lemma StronglySorted_firstn {A : Type} (R : A -> A -> Prop) (l : list A) :
  StronglySorted R l -> forall n, StronglySorted R (firstn n l).
Proof.
  induction 1 as [|a l Hs IH Ha]; intros [|n]; cbn; try constructor.
  - apply IH.
  - rewrite Forall_forall in *. intros x Hx.
    apply Ha. revert Hx. clear. revert n.
    induction l as [|y l IH]; intros [|n]; cbn; try tauto.
    intros [-> | H]; [now left | right; now apply (IH n)].
Qed.

Lemma StronglySorted_map {A B : Type} (R : B -> B -> Prop) (g : A -> B)
      (l : list A) :
  StronglySorted (fun a b => R (g a) (g b)) l ->
  StronglySorted R (map g l).
Proof.
  induction 1 as [|a l Hs IH Ha]; cbn; constructor; [exact IH|].
  rewrite Forall_forall in *. intros x Hx.
  apply in_map_iff in Hx. destruct Hx as (y & <- & Hy). now apply Ha.
Qed.

(** The alternatives are the first [count] entries of the sorted table
    that are not the winner. *)
Lemma collect_alternatives_firstn (h : heap) (selected_key : string)
      (count : nat) (sorted_materials : material_scores_t) :
  (forall x, In x sorted_materials ->
             exists d, deref h (material (snd x)) = Ok d) ->
  forall alts,
    collect_alternatives h selected_key count sorted_materials alts
    = Ok (alts ++ map (alternative_of h)
                      (firstn (count - List.length alts)
                              (filter (fun x => negb (String.eqb (fst x)
                                                        selected_key))
                                      sorted_materials))).
Proof.
  induction sorted_materials as [|[k e] rest IH]; intros H alts;
    cbn [collect_alternatives filter fst].
  - rewrite firstn_nil. cbn. now rewrite app_nil_r.
  - assert (Hrest : forall x, In x rest ->
                              exists d, deref h (material (snd x)) = Ok d)
      by (intros x Hx; apply H; now right).
    destruct (negb (String.eqb k selected_key)) eqn:Ek; cbn [andb].
    + destruct (List.length alts <? count)%nat eqn:El.
      * destruct (H (k, e) (or_introl eq_refl)) as [d D].
        cbn [snd] in D. rewrite D. cbn [bind].
        rewrite (IH Hrest). unfold append.
        rewrite length_app. cbn [List.length].
        apply Nat.ltb_lt in El.
        replace (count - List.length alts)%nat
          with (S (count - (List.length alts + 1)))%nat by lia.
        cbn [firstn map]. rewrite <- app_assoc. cbn [app].
        unfold alternative_of at 2. cbn [snd]. rewrite D. reflexivity.
      * rewrite (IH Hrest). apply Nat.ltb_ge in El.
        replace (count - List.length alts)%nat with 0%nat by lia.
        reflexivity.
    + apply (IH Hrest).
Qed.

End SelectorRanking.
Section SelectorResult.

Import MaterialSelector.

Lemma catalog_names_distinct (k k' : string) (m m' : Material) :
  In (k, m) catalog -> In (k', m') catalog -> k <> k' ->
  name m <> name m'.
Proof.
  cbn [In catalog].
  intros [E | [E | [E | [E | [E | [E | [E | []]]]]]]];
    intros [E' | [E' | [E' | [E' | [E' | [E' | [E' | []]]]]]]];
    injection E as <- <-; injection E' as <- <-; intro N;
    try discriminate; exfalso; apply N; reflexivity.
Qed.

Lemma material_scores_NoDup (h : heap) (category : string) (weight : Q)
      (fragility : Z) (rp : bool) (ms : material_scores_t) :
  material_scores_of self0 h category weight fragility rp = Ok ms ->
  NoDup (map fst ms).
Proof.
  unfold material_scores_of.
  destruct (get_cat_prefs self0 (normalize category)) as [p|];
    cbn [bind]; [|discriminate].
  apply score_loop_NoDup. constructor.
Qed.

(** The outcome of a call whose weight some material admits. *)
Lemma select_result (h : heap) (category : string) (weight : Q)
      (fragility : Z) (rp : bool) :
  reachable h -> weight <= 20 ->
  exists ms k e m,
    material_scores_of self0 h category weight fragility rp = Ok ms
    /\ (forall k' e',
           In (k', e') ms ->
           exists m', In (k', m') catalog
                      /\ deref h0 (material e') = Ok (fresh_dict m')
                      /\ weight <= weight_limit m'
                      /\ score_in_range (score e'))
    /\ In (k, e) ms /\ In (k, m) catalog
    /\ weight <= weight_limit m
    /\ (forall x, In x ms -> not_below (score e) (score (snd x)))
    /\ select self0 h category weight fragility rp
       = Ok (List.length h,
             h ++ [mkDict m (Some (score e)) (Some (reasons e))
                          (Some (map (alternative_of h0)
                                     (firstn 2 (runners_up ms k))))]).
Proof.
  intros Hr Hw.
  pose proof (reachable_agree h Hr) as Hagree.
  destruct (material_scores_spec h0 (agree_refl _ _) category weight
                                 fragility rp)
    as (ms & R & Hent & Hne & _).
  pose proof (material_scores_range h0 category weight fragility rp ms
                                    (agree_refl _ _) R) as Hrange.
  pose proof (material_scores_NoDup h0 category weight fragility rp ms R)
    as Hnd.
  assert (Hq : exists k m, In (k, m) catalog /\ weight <= weight_limit m).
  { exists "honeycomb_cardboard"%string, honeycomb_cardboard.
    split; [cbn; tauto|]. cbn. lra. }
  specialize (Hne Hq).
  destruct ms as [|x rest]; [congruence|].
  pose proof (max_from_In x rest) as Hin.
  destruct (max_from x rest) as [k e] eqn:M.
  destruct (Hent k e Hin) as (m & _ & Hm & D & Hwm).
  exists (x :: rest), k, e, m.
  split; [now rewrite (material_scores_agree self0 h h0 Hagree)|].
  split.
  { intros k' e' Hin'.
    destruct (Hent k' e' Hin') as (m' & _ & Hm1 & Hm2 & Hm3).
    exists m'. split; [exact Hm1|]. split; [exact Hm2|].
    split; [exact Hm3|]. exact (Hrange k' e' Hin'). }
  split; [exact Hin|]. split; [exact Hm|]. split; [exact Hwm|].
  split.
  { intros y Hy.
    pose proof (max_from_max rest x) as Hmax.
    rewrite M in Hmax. cbn [snd] in Hmax. apply Hmax; [|exact Hy].
    intros [kz ez] Hz. apply score_in_range_not_nan.
    exact (Hrange kz ez Hz). }
  rewrite (select_allocates h _ _ _ _ Hagree), R. cbn [bind].
  unfold selection_of. cbn [max_key]. rewrite M. cbn [fst bind].
  unfold getitem. rewrite (lookup_unique _ k e Hnd Hin). cbn [bind].
  rewrite D. cbn [bind]. unfold _get_alternatives.
  rewrite collect_alternatives_firstn.
  2:{ intros [ky ey] Hy. apply In_sorted_desc in Hy.
      destruct (Hent ky ey Hy) as (m' & _ & _ & D' & _). eauto. }
  cbn [bind fields fresh_dict]. reflexivity.
Qed.

Lemma select_overweight (h : heap) (category : string) (weight : Q)
      (fragility : Z) (rp : bool) :
  reachable h -> 20 < weight ->
  select self0 h category weight fragility rp = Raise ValueError.
Proof.
  intros Hr Hw.
  destruct (material_scores_spec h0 (agree_refl _ _) category weight
                                 fragility rp)
    as (ms & R & _ & _ & Hempty).
  rewrite (select_allocates h _ _ _ _ (reachable_agree h Hr)), R.
  rewrite Hempty; [reflexivity|].
  intros k m Hm. pose proof (catalog_limit_max k m Hm). lra.
Qed.

(** [select] returns exactly when the weight is at most 20 kg, the largest
    weight limit of the catalog, and raises [ValueError] above it.  When
    it returns, the result is a new dict appended to the store; the store
    it found is left as it was. *)
Theorem select_returns_iff (h : heap) (category : string) (weight : Q)
        (fragility : Z) (recyclable_priority : bool) :
  reachable h ->
  (weight <= 20 ->
   exists d,
     select self0 h category weight fragility recyclable_priority
     = Ok (List.length h, h ++ [d]))
  /\ (20 < weight ->
      select self0 h category weight fragility recyclable_priority
      = Raise ValueError).
Proof.
  intro Hr. split.
  - intro Hw.
    destruct (select_result h category weight fragility recyclable_priority
                            Hr Hw) as (ms & k & e & m & _ & _ & _ & _ & _
                                       & _ & S).
    eexists. exact S.
  - intro Hw. now apply select_overweight.
Qed.

Lemma select_returns_iff_witness :
  (20 <= 20 ->
   exists d,
     select self0 after_first_call "other" 20 3 true
     = Ok (List.length after_first_call, after_first_call ++ [d]))
  /\ (20 < 20 -> select self0 after_first_call "other" 20 3 true
                 = Raise ValueError).
Proof.
  apply (select_returns_iff after_first_call "other" 20 3 true).
  apply reachable_after_first_call.
Defined.

(** The material returned is a best-scoring candidate: the returned dict
    is the catalog record under the key of an entry of the candidate
    table, with the score and the reasons of that entry, and no entry of
    the table has a higher score. *)
Theorem winner_is_best (h : heap) (category : string) (weight : Q)
        (fragility : Z) (recyclable_priority : bool) :
  reachable h -> weight <= 20 ->
  exists d ms k e m,
    selected_dict (select self0 h category weight fragility
                          recyclable_priority) = Ok d
    /\ material_scores_of self0 h category weight fragility
                          recyclable_priority = Ok ms
    /\ In (k, e) ms
    /\ In (k, m) catalog
    /\ fields d = m
    /\ selection_score d = Some (score e)
    /\ selection_reasons d = Some (reasons e)
    /\ (forall k' e', In (k', e') ms -> not_below (score e) (score e')).
Proof.
  intros Hr Hw.
  destruct (select_result h category weight fragility recyclable_priority
                          Hr Hw)
    as (ms & k & e & m & R & _ & Hin & Hm & _ & Hmax & S).
  eexists. exists ms, k, e, m. rewrite S. unfold selected_dict.
  cbn [bind fst snd]. rewrite deref_new.
  split; [reflexivity|]. split; [exact R|]. split; [exact Hin|].
  split; [exact Hm|].
  split; [reflexivity|]. split; [reflexivity|]. split; [reflexivity|].
  intros k' e' Hin'. exact (Hmax (k', e') Hin').
Qed.

Lemma winner_is_best_witness :
  exists d ms k e m,
    selected_dict (select self0 h0 "food" 2 3 true) = Ok d
    /\ material_scores_of self0 h0 "food" 2 3 true = Ok ms
    /\ In (k, e) ms
    /\ In (k, m) catalog
    /\ fields d = m
    /\ selection_score d = Some (score e)
    /\ selection_reasons d = Some (reasons e)
    /\ (forall k' e', In (k', e') ms -> not_below (score e) (score e')).
Proof.
  apply (winner_is_best h0 "food" 2 3 true).
  - apply reach_new.
  - unfold Qle; simpl; lia.
Defined.

(** The selection score is always between 57 and 105; it is not confined
    to the 0-100 scale: fragile electronics of 0.5 kg score above 100. *)
Theorem selection_score_range (h : heap) (category : string) (weight : Q)
        (fragility : Z) (recyclable_priority : bool) :
  reachable h -> weight <= 20 ->
  (exists d s,
      selected_dict (select self0 h category weight fragility
                            recyclable_priority) = Ok d
      /\ selection_score d = Some s
      /\ score_in_range s)
  /\ (exists d s,
         selected_dict (select self0 h "electronics" 0.5 5 true) = Ok d
         /\ selection_score d = Some s
         /\ Float64.ltb (Float64.of_Z 100) s = true).
Proof.
  intros Hr Hw. split.
  - destruct (select_result h category weight fragility
                            recyclable_priority Hr Hw)
      as (ms & k & e & m & _ & Hent & Hin & _ & _ & _ & S).
    eexists. exists (score e). rewrite S. unfold selected_dict.
    cbn [bind fst snd]. rewrite deref_new.
    split; [reflexivity|]. split; [reflexivity|].
    destruct (Hent k e Hin) as (m' & _ & _ & _ & Hrange). exact Hrange.
  - rewrite (selected_dict_select h _ _ _ _ (reachable_agree h Hr)).
    do 2 eexists. split; [vm_compute; reflexivity|].
    split; [reflexivity|]. vm_compute. reflexivity.
Qed.

Lemma selection_score_range_witness :
  (exists d s,
      selected_dict (select self0 h0 "other" 12 2 true) = Ok d
      /\ selection_score d = Some s
      /\ score_in_range s)
  /\ (exists d s,
         selected_dict (select self0 h0 "electronics" 0.5 5 true) = Ok d
         /\ selection_score d = Some s
         /\ Float64.ltb (Float64.of_Z 100) s = true).
Proof.
  apply (selection_score_range h0 "other" 12 2 true).
  - apply reach_new.
  - unfold Qle; simpl; lia.
Defined.

(** The alternatives of a selection: at most two, in descending order of
    score, none scoring above the winner, none being the winner, and each
    one the name, thickness, cost factor and sustainability score of a
    catalog material whose weight limit admits the weight. *)
Theorem alternatives_spec (h : heap) (category : string) (weight : Q)
        (fragility : Z) (recyclable_priority : bool) :
  reachable h -> weight <= 20 ->
  exists d s alts,
    selected_dict (select self0 h category weight fragility
                          recyclable_priority) = Ok d
    /\ selection_score d = Some s
    /\ alternatives d = Some alts
    /\ (List.length alts <= 2)%nat
    /\ StronglySorted (fun a b => not_below (alt_score a) (alt_score b))
                      alts
    /\ (forall a,
           In a alts ->
           not_below s (alt_score a)
           /\ alt_name a <> name (fields d)
           /\ exists k m,
               In (k, m) catalog
               /\ alt_name a = name m
               /\ alt_thickness a = thickness m
               /\ alt_cost_factor a = cost_factor m
               /\ alt_sustainability_score a = sustainability_score m
               /\ weight <= weight_limit m).
Proof.
  intros Hr Hw.
  destruct (select_result h category weight fragility recyclable_priority
                          Hr Hw)
    as (ms & k & e & m & R & Hent & Hin & Hm & _ & Hmax & S).
  eexists. exists (score e). eexists. rewrite S. unfold selected_dict.
  cbn [bind fst snd]. rewrite deref_new.
  split; [reflexivity|]. split; [reflexivity|]. split; [reflexivity|].
  cbn [fields].
  assert (Hnan : forall y, In y ms -> score (snd y) <> S754_nan).
  { intros [ky ey] Hy. apply score_in_range_not_nan.
    destruct (Hent ky ey Hy) as (? & _ & _ & _ & Hrange). exact Hrange. }
  split; [rewrite length_map; apply firstn_le_length|].
  split.
  { apply (StronglySorted_map
             (fun a b => not_below (alt_score a) (alt_score b))
             (alternative_of h0)).
    apply StronglySorted_firstn. unfold runners_up.
    apply StronglySorted_filter.
    assert (E : forall a b : string * ScoreEntry,
               alt_score (alternative_of h0 a) = score (snd a)).
    { intros a _. unfold alternative_of.
      destruct (deref h0 (material (snd a))); reflexivity. }
    pose proof (sorted_desc_sorted ms Hnan) as Hs.
    revert Hs. apply StronglySorted_ind.
    - constructor.
    - intros a l Hl IH Ha. constructor; [exact IH|].
      rewrite Forall_forall in *. intros x Hx.
      rewrite !(E _ a). now apply Ha. }
  intros a Ha. apply in_map_iff in Ha.
  destruct Ha as ([ky ey] & <- & Hy).
  assert (Hy' : In (ky, ey) (runners_up ms k)).
  { revert Hy. generalize (runners_up ms k). intros l. revert l.
    generalize 2%nat. intros n l. revert n.
    induction l as [|z l IH]; intros [|n]; cbn; try tauto.
    intros [-> | H]; [now left | right; now apply (IH n)]. }
  unfold runners_up in Hy'. apply filter_In in Hy'.
  destruct Hy' as [Hs Hk]. cbn [fst] in Hk.
  apply In_sorted_desc in Hs.
  destruct (Hent ky ey Hs) as (m' & Hm' & D' & Hw' & _).
  unfold alternative_of. cbn [snd]. rewrite D'.
  cbn [alt_score alt_name alt_thickness alt_cost_factor
       alt_sustainability_score fields fresh_dict].
  split; [exact (Hmax (ky, ey) Hs)|]. split.
  - apply (catalog_names_distinct ky k m' m Hm' Hm).
    intros ->. rewrite String.eqb_refl in Hk. discriminate.
  - exists ky, m'. repeat split; auto.
Qed.

Lemma alternatives_spec_witness :
  exists d s alts,
    selected_dict (select self0 h0 "food" 2 3 true) = Ok d
    /\ selection_score d = Some s
    /\ alternatives d = Some alts
    /\ (List.length alts <= 2)%nat
    /\ StronglySorted (fun a b => not_below (alt_score a) (alt_score b))
                      alts
    /\ (forall a,
           In a alts ->
           not_below s (alt_score a)
           /\ alt_name a <> name (fields d)
           /\ exists k m,
               In (k, m) catalog
               /\ alt_name a = name m
               /\ alt_thickness a = thickness m
               /\ alt_cost_factor a = cost_factor m
               /\ alt_sustainability_score a = sustainability_score m
               /\ 2 <= weight_limit m).
Proof.
  apply (alternatives_spec h0 "food" 2 3 true).
  - apply reach_new.
  - unfold Qle; simpl; lia.
Defined.

End SelectorResult.
(** ** Material selector: the catalog queries *)

Section CatalogQueries.

Import MaterialSelector.

Variable h : heap.
Hypothesis Hr : reachable h.

Lemma materials_deref :
  Forall2 (fun kl m => deref h (snd kl) = Ok (fresh_dict m))
          (materials self0) (map snd catalog).
Proof.
  pose proof (reachable_agree h Hr) as Hagree.
  assert (G : forall items ms,
             incl items (materials self0) ->
             Forall2 (fun kl m => deref h0 (snd kl) = Ok (fresh_dict m))
                     items ms ->
             Forall2 (fun kl m => deref h (snd kl) = Ok (fresh_dict m))
                     items ms).
  { intros items ms Hincl F. induction F as [|[k l] m items ms D _ IH];
      constructor.
    - cbn [snd] in *. rewrite (Hagree k l); [exact D|].
      apply Hincl. now left.
    - apply IH. intros x Hx. apply Hincl. now right. }
  apply G; [apply incl_refl|].
  rewrite materials_self0. cbn [map snd catalog].
  repeat constructor.
Qed.

Lemma catalog_NoDup : NoDup (map fst catalog).
Proof. cbn. repeat constructor; cbn; intuition discriminate. Qed.

Lemma lookup_materials (key : string) :
  match lookup (materials self0) key with
  | Some l => exists m, lookup catalog key = Some m
                        /\ deref h l = Ok (fresh_dict m)
  | None => lookup catalog key = None
  end.
Proof.
  pose proof (reachable_agree h Hr) as Hagree.
  destruct (lookup (materials self0) key) as [l|] eqn:E.
  - pose proof (lookup_In _ _ _ E) as Hin.
    destruct (catalog_entry key l Hin) as (m & Hm & D).
    exists m. split; [|now rewrite (Hagree key l Hin)].
    apply lookup_unique; [apply catalog_NoDup | exact Hm].
  - revert E. rewrite materials_self0. cbn [lookup catalog].
    repeat match goal with
           | |- context [String.eqb key ?s] => destruct (String.eqb key s)
           end; try discriminate; reflexivity.
Qed.

(** The catalog listing is the same after any number of selections: one
    row per catalog material, in declaration order, with the key as id. *)
Theorem get_all_materials_rows :
  get_all_materials self0 h = Ok (map catalog_row catalog).
Proof.
  unfold get_all_materials.
  match goal with |- mapM ?f _ = _ => set (row := f) end.
  assert (G : forall items ms,
             Forall2 (fun kl m => deref h (snd kl) = Ok (fresh_dict m))
                     items ms ->
             mapM row items
             = Ok (map catalog_row (combine (map fst items) ms))).
  { induction 1 as [|[k l] m items ms D _ IH]; cbn [mapM]; [reflexivity|].
    rewrite IH. unfold row. cbn [snd] in D. rewrite D. reflexivity. }
  rewrite (G _ _ materials_deref). reflexivity.
Qed.

Lemma compare_loop_rows (material_keys : list string) :
  forall comparison,
    compare_loop self0 h material_keys comparison
    = Ok (comparison ++ flat_map comparison_row material_keys).
Proof.
  induction material_keys as [|key rest IH]; intro comparison;
    cbn [compare_loop flat_map].
  - now rewrite app_nil_r.
  - pose proof (lookup_materials key) as L. unfold comparison_row at 1.
    destruct (lookup (materials self0) key) as [l|].
    + destruct L as (m & -> & D). rewrite D. cbn [bind].
      rewrite IH. unfold append. rewrite <- app_assoc. reflexivity.
    + rewrite L. apply IH.
Qed.

(** [compare_materials] never fails: every key of the catalog gives one
    row, in the order and as often as the keys were given, and every
    other key is skipped. *)
Theorem compare_materials_rows (material_keys : list string) :
  compare_materials self0 h material_keys
  = Ok (flat_map comparison_row material_keys)
  /\ (forall key, lookup catalog key = None -> comparison_row key = [])
  /\ (forall key m, In (key, m) catalog ->
                    exists row, comparison_row key = [row]
                                /\ cmp_name row = name m).
Proof.
  split; [apply (compare_loop_rows material_keys [])|]. split.
  - intros key E. unfold comparison_row. now rewrite E.
  - intros key m Hm. unfold comparison_row.
    rewrite (lookup_unique catalog key m catalog_NoDup Hm). eauto.
Qed.

Lemma budget_loop_rows (max_cost_factor : Float64.float) :
  forall items ms,
    Forall2 (fun kl m => deref h (snd kl) = Ok (fresh_dict m)) items ms ->
    forall affordable,
      budget_loop h max_cost_factor items affordable
      = Ok (affordable
            ++ map affordable_row
                   (filter (within_budget max_cost_factor) ms)).
Proof.
  induction 1 as [|[k l] m items ms D _ IH]; intro affordable;
    cbn [budget_loop filter map].
  - now rewrite app_nil_r.
  - cbn [snd] in D. rewrite D. cbn [bind fields fresh_dict].
    unfold within_budget at 1.
    destruct (Float64.leb (Float64.lit (cost_factor m)) max_cost_factor).
    + rewrite IH. unfold append. rewrite <- app_assoc. reflexivity.
    + apply IH.
Qed.

Lemma In_insert_by_sustainability (x y : Affordable) (l : list Affordable) :
  In y (insert_by_sustainability x l) <-> y = x \/ In y l.
Proof.
  induction l as [|z l IH]; cbn.
  - split; [intros [H | []]; now left | intros [H | []]; now left].
  - destruct (aff_sustainability_score z <? aff_sustainability_score x)%Z;
      cbn; [split; intros [H | H]; auto|].
    rewrite IH. tauto.
Qed.

Lemma insert_by_sustainability_sorted (x : Affordable)
      (l : list Affordable) :
  StronglySorted (fun a b => (aff_sustainability_score b
                              <= aff_sustainability_score a)%Z) l ->
  StronglySorted (fun a b => (aff_sustainability_score b
                              <= aff_sustainability_score a)%Z)
                 (insert_by_sustainability x l).
Proof.
  induction l as [|y l IH]; intro Hs; cbn [insert_by_sustainability].
  - constructor; constructor.
  - apply StronglySorted_inv in Hs. destruct Hs as [Hs Hy].
    destruct (aff_sustainability_score y <? aff_sustainability_score x)%Z
      eqn:E.
    + apply Z.ltb_lt in E.
      constructor; [constructor; assumption|].
      constructor; [lia|].
      rewrite Forall_forall in *. intros z Hz. specialize (Hy z Hz). lia.
    + apply Z.ltb_ge in E. constructor; [now apply IH|].
      rewrite Forall_forall in *. intros z Hz.
      apply In_insert_by_sustainability in Hz.
      destruct Hz as [-> | Hz]; [exact E | now apply Hy].
Qed.

Lemma sort_by_sustainability_spec (xs : list Affordable) :
  (forall a, In a (sort_by_sustainability xs) <-> In a xs)
  /\ StronglySorted (fun a b => (aff_sustainability_score b
                                 <= aff_sustainability_score a)%Z)
                    (sort_by_sustainability xs).
Proof.
  unfold sort_by_sustainability.
  assert (G : forall items acc,
             StronglySorted
               (fun a b => (aff_sustainability_score b
                            <= aff_sustainability_score a)%Z) acc ->
             (forall a,
                 In a (fold_left (fun s x => insert_by_sustainability x s)
                                 items acc)
                 <-> In a acc \/ In a items)
             /\ StronglySorted
                  (fun a b => (aff_sustainability_score b
                               <= aff_sustainability_score a)%Z)
                  (fold_left (fun s x => insert_by_sustainability x s)
                             items acc)).
  { induction items as [|x items IH]; intros acc Hs; cbn [fold_left].
    - split; [intro a; cbn; tauto | exact Hs].
    - destruct (IH _ (insert_by_sustainability_sorted x acc Hs))
        as [Hin Hsorted].
      split; [|exact Hsorted].
      intro a. rewrite Hin, In_insert_by_sustainability. cbn.
      intuition (subst; auto). }
  destruct (G xs [] (SSorted_nil _)) as [Hin Hs].
  split; [|exact Hs]. intro a. rewrite Hin. cbn. tauto.
Qed.

(** [get_material_by_budget] returns exactly the catalog materials whose
    cost factor is at most the budget, ordered by sustainability score,
    highest first. *)
Theorem budget_spec (max_cost_factor : Float64.float) :
  exists out,
    get_material_by_budget self0 h max_cost_factor = Ok out
    /\ (forall a,
           In a out <->
           exists k m, In (k, m) catalog
                       /\ Float64.leb (Float64.lit (cost_factor m))
                                      max_cost_factor = true
                       /\ a = affordable_row m)
    /\ StronglySorted (fun a b => (aff_sustainability_score b
                                   <= aff_sustainability_score a)%Z) out.
Proof.
  unfold get_material_by_budget.
  rewrite (budget_loop_rows max_cost_factor _ _ materials_deref []).
  cbn [bind app]. eexists. split; [reflexivity|].
  destruct (sort_by_sustainability_spec
              (map affordable_row
                   (filter (within_budget max_cost_factor)
                           (map snd catalog)))) as [Hin Hs].
  split; [|exact Hs].
  intro a. rewrite Hin, in_map_iff. split.
  - intros (m & <- & Hm). apply filter_In in Hm. destruct Hm as [Hm Hb].
    apply in_map_iff in Hm. destruct Hm as ([k m'] & <- & Hm).
    exists k, m'. auto.
  - intros (k & m & Hm & Hb & ->). exists m. split; [reflexivity|].
    apply filter_In. split; [|exact Hb].
    apply in_map_iff. exists (k, m). auto.
Qed.

Lemma find_by_name_rows (material_name : string) :
  forall items ms,
    Forall2 (fun kl m => deref h (snd kl) = Ok (fresh_dict m)) items ms ->
    find_by_name h material_name items
    = Ok (option_map fresh_dict
            (find (fun m => String.eqb (name m) material_name) ms)).
Proof.
  induction 1 as [|[k l] m items ms D _ IH]; cbn [find_by_name find];
    [reflexivity|].
  cbn [snd] in D. rewrite D. cbn [bind fields fresh_dict].
  destruct (String.eqb (name m) material_name); [reflexivity | exact IH].
Qed.

(** [calculate_environmental_impact] answers [None] for a name that no
    catalog material bears, and for the name of a catalog material the
    three per-kilogram figures of that material times the quantity. *)
Theorem environmental_impact_spec (material_name : string)
        (quantity_kg : Q) :
  ((forall k m, In (k, m) catalog -> name m <> material_name) ->
   calculate_environmental_impact self0 h material_name quantity_kg
   = Ok None)
  /\ (forall k m,
         In (k, m) catalog -> name m = material_name ->
         exists i,
           calculate_environmental_impact self0 h material_name quantity_kg
           = Ok (Some i)
           /\ total_co2_kg i
              = co2_per_kg (environmental_impact m) * quantity_kg
           /\ total_water_liters i
              = water_usage_liters (environmental_impact m) * quantity_kg
           /\ total_energy_kwh i
              = energy_kwh (environmental_impact m) * quantity_kg).
Proof.
  unfold calculate_environmental_impact.
  rewrite (find_by_name_rows material_name _ _ materials_deref).
  cbn [bind]. split.
  - intro Hno.
    destruct (find (fun m => String.eqb (name m) material_name)
                   (map snd catalog)) as [m|] eqn:F; [|reflexivity].
    apply find_some in F. destruct F as [Hm E].
    apply String.eqb_eq in E. apply in_map_iff in Hm.
    destruct Hm as ([k m'] & <- & Hm). exfalso. exact (Hno k m' Hm E).
  - intros k m Hm <-.
    assert (F : find (fun m' => String.eqb (name m') (name m))
                     (map snd catalog) = Some m).
    { revert Hm. cbn [In catalog].
      intros [E | [E | [E | [E | [E | [E | [E | []]]]]]]];
        injection E as <- <-; reflexivity. }
    rewrite F. cbn [option_map]. eexists. split; [reflexivity|].
    repeat split.
Qed.

End CatalogQueries.
Lemma get_all_materials_rows_witness :
  MaterialSelector.get_all_materials self0 after_first_call
  = Ok (map catalog_row MaterialSelector.catalog).
Proof.
  apply (get_all_materials_rows after_first_call
                                reachable_after_first_call).
Defined.

Lemma compare_materials_rows_witness :
  MaterialSelector.compare_materials
    self0 after_first_call
    ["kraft_paper"; "plastic"; "kraft_paper"]%string
  = Ok (flat_map comparison_row
                 ["kraft_paper"; "plastic"; "kraft_paper"]%string)
  /\ (forall key,
         MaterialSelector.lookup MaterialSelector.catalog key = None ->
         comparison_row key = [])
  /\ (forall key m,
         In (key, m) MaterialSelector.catalog ->
         exists row, comparison_row key = [row]
                     /\ MaterialSelector.cmp_name row
                        = MaterialSelector.name m).
Proof.
  apply (compare_materials_rows after_first_call
                                reachable_after_first_call).
Defined.

Lemma budget_spec_witness :
  exists out,
    MaterialSelector.get_material_by_budget
      self0 after_first_call (Float64.lit 1.0) = Ok out
    /\ (forall a,
           In a out <->
           exists k m,
             In (k, m) MaterialSelector.catalog
             /\ Float64.leb (Float64.lit (MaterialSelector.cost_factor m))
                            (Float64.lit 1.0) = true
             /\ a = affordable_row m)
    /\ StronglySorted
         (fun a b => (MaterialSelector.aff_sustainability_score b
                      <= MaterialSelector.aff_sustainability_score a)%Z)
         out.
Proof.
  apply (budget_spec after_first_call reachable_after_first_call).
Defined.

Lemma environmental_impact_spec_witness :
  ((forall k m, In (k, m) MaterialSelector.catalog ->
                MaterialSelector.name m <> "Recycled Cardboard"%string) ->
   MaterialSelector.calculate_environmental_impact
     self0 after_first_call "Recycled Cardboard" 50 = Ok None)
  /\ (forall k m,
         In (k, m) MaterialSelector.catalog ->
         MaterialSelector.name m = "Recycled Cardboard"%string ->
         exists i,
           MaterialSelector.calculate_environmental_impact
             self0 after_first_call "Recycled Cardboard" 50 = Ok (Some i)
           /\ MaterialSelector.total_co2_kg i
              = MaterialSelector.co2_per_kg
                  (MaterialSelector.environmental_impact m) * 50
           /\ MaterialSelector.total_water_liters i
              = MaterialSelector.water_usage_liters
                  (MaterialSelector.environmental_impact m) * 50
           /\ MaterialSelector.total_energy_kwh i
              = MaterialSelector.energy_kwh
                  (MaterialSelector.environmental_impact m) * 50).
Proof.
  apply (environmental_impact_spec after_first_call
                                   reachable_after_first_call).
Defined.

(** ** The orchestrator *)

Section Pipeline.

Import App.



End Pipeline.

(** ** Material selector: the category only matters through its profile *)

Section CategoryProfile.

Import MaterialSelector.

Lemma recyclability_score (rp : bool) (m : Material) (s : Float64.float)
      (r1 r2 : list string) :
  fst (recyclability rp m s r1) = fst (recyclability rp m s r2).
Proof.
  unfold recyclability.
  destruct (rp && recyclable m); [reflexivity|].
  destruct (recyclable m); reflexivity.
Qed.

Lemma cost_efficiency_score (m : Material) (s : Float64.float)
      (r1 r2 : list string) :
  fst (cost_efficiency m s r1) = fst (cost_efficiency m s r2).
Proof.
  unfold cost_efficiency.
  repeat match goal with
         | |- context [if ?b then _ else _] => destruct b
         end; reflexivity.
Qed.

Lemma category_match_points (h : heap) (self : Selector)
      (p : CategoryPrefs) (c1 c2 k : string) (material : PyDict) :
  (x <- category_match h self p c1 k material ;; Ok (fst x))
  = (x <- category_match h self p c2 k material ;; Ok (fst x)).
Proof.
  unfold category_match.
  destruct (str_in k (preferred_materials p)); [reflexivity|].
  destruct (mapM _ (preferred_materials p)) as [pref|err];
    cbn [bind]; [|reflexivity].
  destruct (existsb (dict_eqb material) pref); reflexivity.
Qed.

Lemma score_material_category (h : heap) (self : Selector)
      (p : CategoryPrefs) (c1 c2 : string) (weight : Q) (fragility : Z)
      (rp : bool) (k : string) (material : PyDict) :
  score_only (score_material h self p c1 weight fragility rp k material)
  = score_only (score_material h self p c2 weight fragility rp k material).
Proof.
  unfold score_material, score_only.
  destruct (weight_compatibility weight (fields material)
                                 (Float64.of_Z 0) [])
    as [[[s r]|]|err]; cbn [bind]; try reflexivity.
  destruct (fragility_handling fragility (fields material) s r)
    as [s1 r1].
  destruct (sustainability (fields material) s1 r1) as [s2 r2].
  pose proof (category_match_points h self p c1 c2 k material) as C.
  destruct (category_match h self p c1 k material) as [[pts1 why1]|e1];
    destruct (category_match h self p c2 k material) as [[pts2 why2]|e2];
    cbn [bind fst] in C; try discriminate C;
    cbn [bind]; [|now injection C as ->].
  injection C as ->.
  pose proof (recyclability_score rp (fields material)
                (Float64.add s2 (Float64.of_Z pts2))
                (r2 ++ why1)%list (r2 ++ why2)%list) as R.
  destruct (recyclability rp (fields material)
              (Float64.add s2 (Float64.of_Z pts2)) (r2 ++ why1)%list)
    as [s3 r3].
  destruct (recyclability rp (fields material)
              (Float64.add s2 (Float64.of_Z pts2)) (r2 ++ why2)%list)
    as [s3' r3'].
  cbn [fst] in R. subst s3'.
  pose proof (cost_efficiency_score (fields material) s3 r3 r3') as K.
  destruct (cost_efficiency (fields material) s3 r3) as [s4 r4].
  destruct (cost_efficiency (fields material) s3 r3') as [s4' r4'].
  cbn [fst] in K. subst s4'. reflexivity.
Qed.

Lemma cores_setitem (d : material_scores_t) (k : string) (e : ScoreEntry) :
  cores (setitem d k e) = setitem (cores d) k (score e, material e).
Proof.
  unfold cores.
  induction d as [|[k0 e0] d IH]; cbn; [reflexivity|].
  destruct (String.eqb k k0); cbn; [reflexivity|]. now rewrite IH.
Qed.

Lemma score_loop_category (h : heap) (self : Selector) (p : CategoryPrefs)
      (c1 c2 : string) (weight : Q) (fragility : Z) (rp : bool) :
  forall items acc1 acc2,
    cores acc1 = cores acc2 ->
    (r <- score_loop h self p c1 weight fragility rp items acc1 ;;
     Ok (cores r))
    = (r <- score_loop h self p c2 weight fragility rp items acc2 ;;
       Ok (cores r)).
Proof.
  induction items as [|[k l] items IH]; intros acc1 acc2 Hacc;
    cbn [score_loop].
  - cbn [bind]. now rewrite Hacc.
  - destruct (deref h l) as [d|err]; cbn [bind]; [|reflexivity].
    pose proof (score_material_category h self p c1 c2 weight fragility rp
                                        k d) as S.
    unfold score_only in S.
    destruct (score_material h self p c1 weight fragility rp k d)
      as [[[s1 w1]|]|e1];
      destruct (score_material h self p c2 weight fragility rp k d)
        as [[[s2 w2]|]|e2];
      cbn [bind option_map fst] in S; try discriminate S; cbn [bind].
    + injection S as ->. apply IH. rewrite !cores_setitem.
      cbn [score material]. now rewrite Hacc.
    + now apply IH.
    + now injection S as ->.
Qed.

Lemma max_from_cores (r1 : material_scores_t) :
  forall r2 b1 b2,
    cores (b1 :: r1) = cores (b2 :: r2) ->
    fst (max_from b1 r1) = fst (max_from b2 r2).
Proof.
  induction r1 as [|x1 r1 IH]; intros [|x2 r2] b1 b2 H;
    cbn in H; try discriminate H.
  - now injection H.
  - injection H as Hk Hs Hm Hk' Hs' Hm' Hrest.
    cbn [max_from]. rewrite Hs, Hs'.
    destruct (Float64.ltb (score (snd b2)) (score (snd x2)));
      apply IH; cbn; unfold cores in Hrest; congruence.
Qed.

Lemma lookup_cores (ms1 ms2 : material_scores_t) (k : string) :
  cores ms1 = cores ms2 ->
  option_map (fun e => (score e, material e)) (lookup ms1 k)
  = option_map (fun e => (score e, material e)) (lookup ms2 k).
Proof.
  revert ms2. induction ms1 as [|[k1 e1] ms1 IH]; intros [|[k2 e2] ms2] H;
    cbn in H; try discriminate H; [reflexivity|].
  injection H as -> Hs Hm Hrest. cbn [lookup].
  destruct (String.eqb k k2); [cbn; congruence|].
  apply IH. exact Hrest.
Qed.

Lemma insert_desc_cores (x1 x2 : string * ScoreEntry)
      (l1 : material_scores_t) :
  forall l2,
    cores [x1] = cores [x2] -> cores l1 = cores l2 ->
    cores (insert_desc x1 l1) = cores (insert_desc x2 l2).
Proof.
  induction l1 as [|y1 l1 IH]; intros [|y2 l2] Hx Hl; cbn in Hl;
    try discriminate Hl; [exact Hx|].
  cbn in Hx. injection Hx as Hxk Hxs Hxm.
  injection Hl as Hyk Hys Hym Hrest.
  cbn [insert_desc]. rewrite Hxs, Hys.
  destruct (Float64.ltb (score (snd y2)) (score (snd x2))).
  - cbn. unfold cores in Hrest. congruence.
  - change ((cores [y1] ++ cores (insert_desc x1 l1))%list
            = (cores [y2] ++ cores (insert_desc x2 l2))%list).
    rewrite (IH l2); [cbn; congruence | cbn; congruence | exact Hrest].
Qed.

Lemma sorted_desc_cores (ms1 ms2 : material_scores_t) :
  cores ms1 = cores ms2 -> cores (sorted_desc ms1) = cores (sorted_desc ms2).
Proof.
  unfold sorted_desc.
  assert (G : forall items1 items2 acc1 acc2,
             cores items1 = cores items2 -> cores acc1 = cores acc2 ->
             cores (fold_left (fun a x => insert_desc x a) items1 acc1)
             = cores (fold_left (fun a x => insert_desc x a) items2 acc2)).
  { induction items1 as [|x1 items1 IH]; intros [|x2 items2] acc1 acc2 Hi Ha;
      cbn in Hi; try discriminate Hi; cbn [fold_left]; [exact Ha|].
    injection Hi as Hk Hs Hm Hrest.
    apply IH; [exact Hrest|].
    apply insert_desc_cores; [cbn; congruence | exact Ha]. }
  intro H. now apply G.
Qed.

Lemma collect_alternatives_cores (h : heap) (key : string) (count : nat)
      (s1 : material_scores_t) :
  forall s2 alts,
    cores s1 = cores s2 ->
    collect_alternatives h key count s1 alts
    = collect_alternatives h key count s2 alts.
Proof.
  induction s1 as [|[k1 e1] s1 IH]; intros [|[k2 e2] s2] alts H;
    cbn in H; try discriminate H; [reflexivity|].
  injection H as -> Hs Hm Hrest. cbn [collect_alternatives].
  rewrite Hs, Hm.
  destruct (negb (String.eqb k2 key) && (List.length alts <? count)%nat).
  - destruct (deref h (material e2)); cbn [bind]; [|reflexivity].
    now apply IH.
  - now apply IH.
Qed.

Lemma selection_of_cores (ms1 ms2 : material_scores_t) :
  cores ms1 = cores ms2 ->
  selection_core (selection_of ms1) = selection_core (selection_of ms2).
Proof.
  intro H. unfold selection_of, selection_core.
  assert (K : max_key ms1 = max_key ms2).
  { destruct ms1 as [|b1 r1]; destruct ms2 as [|b2 r2]; cbn in H;
      try discriminate H; [reflexivity|].
    cbn [max_key]. now rewrite (max_from_cores r1 r2 b1 b2 H). }
  rewrite K. destruct (max_key ms2) as [k|err]; cbn [bind]; [|reflexivity].
  pose proof (lookup_cores ms1 ms2 k H) as L. unfold getitem.
  destruct (lookup ms1 k) as [e1|]; destruct (lookup ms2 k) as [e2|];
    cbn [option_map] in L; try discriminate L; cbn [bind];
    [|reflexivity].
  injection L as Hs Hm. rewrite Hm.
  destruct (deref h0 (material e2)) as [d|err]; cbn [bind]; [|reflexivity].
  unfold _get_alternatives.
  rewrite (collect_alternatives_cores h0 k 2 (sorted_desc ms1)
             (sorted_desc ms2) [] (sorted_desc_cores ms1 ms2 H)).
  destruct (collect_alternatives h0 k 2 (sorted_desc ms2) []);
    cbn [bind fields selection_score alternatives]; [|reflexivity].
  now rewrite Hs.
Qed.

(** Two categories written in ASCII with the same preference profile
    select the same material with the same score and the same
    alternatives, whatever the spelling: an unknown category is scored
    exactly like [other].  Only the texts of the reasons can differ. *)
Theorem category_matters_through_profile (h : heap) (c1 c2 : string)
        (weight : Q) (fragility : Z) (recyclable_priority : bool) :
  reachable h ->
  is_ascii c1 = true -> is_ascii c2 = true ->
  get_cat_prefs self0 (normalize c1) = get_cat_prefs self0 (normalize c2) ->
  selection_core (selected_dict (select self0 h c1 weight fragility
                                        recyclable_priority))
  = selection_core (selected_dict (select self0 h c2 weight fragility
                                          recyclable_priority)).
Proof.
  intros Hr _ _ Hp.
  rewrite !(selected_dict_select h _ _ _ _ (reachable_agree h Hr)).
  unfold material_scores_of. rewrite Hp.
  destruct (get_cat_prefs self0 (normalize c2)) as [p|err];
    cbn [bind]; [|reflexivity].
  pose proof (score_loop_category h0 self0 p (normalize c1) (normalize c2)
                weight fragility recyclable_priority (materials self0)
                [] [] eq_refl) as L.
  destruct (score_loop h0 self0 p (normalize c1) weight fragility
                       recyclable_priority (materials self0) [])
    as [ms1|e1];
    destruct (score_loop h0 self0 p (normalize c2) weight fragility
                         recyclable_priority (materials self0) [])
      as [ms2|e2]; cbn [bind] in L; try discriminate L; cbn [bind].
  - injection L as L. now apply selection_of_cores.
  - injection L as ->. reflexivity.
Qed.

Lemma category_matters_through_profile_witness :
  selection_core (selected_dict (select self0 h0 "Gadgets" 2 3 true))
  = selection_core (selected_dict (select self0 h0 "other" 2 3 true)).
Proof.
  apply (category_matters_through_profile h0 "Gadgets" "other" 2 3 true).
  - apply reach_new.
  - reflexivity.
  - reflexivity.
  - reflexivity.
Defined.

End CategoryProfile.

(** ** From the selector to the strength evaluator *)

Section SelectorToStrength.

Import MaterialSelector.

(** Two of the seven catalog materials, Molded Pulp and Honeycomb
    Cardboard, have no entry in the strength table: [predict] scores them
    as Recycled Cardboard and the drop test raises [TypeError] for them;
    for the other five the drop test returns. *)
Theorem strength_table_coverage (k : string) (m : Material)
        (dimensions : Dimensions) (weight height_cm : Q) (fragility : Z) :
  In (k, m) catalog ->
  (k = "molded_pulp"%string \/ k = "honeycomb_cardboard"%string ->
   StrengthPredictor.predict dimensions (name m) weight fragility
   = StrengthPredictor.predict dimensions "Recycled Cardboard" weight
                               fragility
   /\ StrengthPredictor.predict_drop_test dimensions (name m) weight
                                          height_cm
      = Raise TypeError)
  /\ (k <> "molded_pulp"%string -> k <> "honeycomb_cardboard"%string ->
      returns (StrengthPredictor.predict_drop_test dimensions (name m)
                                                   weight height_cm)).
Proof.
  intro Hm.
  assert (C : (k = "molded_pulp"%string \/ k = "honeycomb_cardboard"%string)
              /\ lookup StrengthPredictor.material_properties (name m)
                 = None
              \/ (k <> "molded_pulp"%string
                  /\ k <> "honeycomb_cardboard"%string)
                 /\ exists p,
                     lookup StrengthPredictor.material_properties (name m)
                     = Some p).
  { revert Hm. cbn [In catalog].
    intros [E | [E | [E | [E | [E | [E | [E | []]]]]]]];
      injection E as <- <-;
      first [ left; split; [tauto | reflexivity]
            | right; split; [split; discriminate | eexists; reflexivity] ]. }
  destruct C as [[Hk L] | [[N1 N2] [p L]]]; split.
  - intros _. split.
    + apply predict_unknown. exact L.
    + unfold StrengthPredictor.predict_drop_test.
      destruct (predict_returns dimensions (name m) weight 5) as [r ->].
      cbn [bind]. cbv zeta. rewrite L. reflexivity.
  - intros A B. destruct Hk; contradiction.
  - intros [-> | ->]; contradiction.
  - intros _ _. unfold StrengthPredictor.predict_drop_test.
    destruct (predict_returns dimensions (name m) weight 5) as [r ->].
    cbn [bind]. cbv zeta. rewrite L.
    pose proof (tensile_positive (name m) p L).
    rewrite py_div_ok by lra. cbn [bind]. eexists. reflexivity.
Qed.

Lemma strength_table_coverage_witness :
  ("honeycomb_cardboard"%string = "molded_pulp"%string
   \/ "honeycomb_cardboard"%string = "honeycomb_cardboard"%string ->
   StrengthPredictor.predict (mkDimensions 50 40 30)
                             (name honeycomb_cardboard) 18 2
   = StrengthPredictor.predict (mkDimensions 50 40 30) "Recycled Cardboard"
                               18 2
   /\ StrengthPredictor.predict_drop_test (mkDimensions 50 40 30)
                                          (name honeycomb_cardboard) 18 100
      = Raise TypeError)
  /\ ("honeycomb_cardboard"%string <> "molded_pulp"%string ->
      "honeycomb_cardboard"%string <> "honeycomb_cardboard"%string ->
      returns (StrengthPredictor.predict_drop_test
                 (mkDimensions 50 40 30) (name honeycomb_cardboard) 18 100)).
Proof.
  apply (strength_table_coverage "honeycomb_cardboard" honeycomb_cardboard
                                 (mkDimensions 50 40 30) 18 100 2).
  cbn. tauto.
Defined.

(** Above 15 kg only Honeycomb Cardboard is left: it is selected without
    alternatives, whatever the category, fragility and priority. *)
Theorem heavy_selects_honeycomb (h : heap) (category : string) (weight : Q)
        (fragility : Z) (recyclable_priority : bool) :
  reachable h -> 15 < weight -> weight <= 20 ->
  exists d,
    selected_dict (select self0 h category weight fragility
                          recyclable_priority) = Ok d
    /\ fields d = honeycomb_cardboard
    /\ alternatives d = Some [].
Proof.
  intros Hr H15 H20.
  destruct (select_result h category weight fragility recyclable_priority
                          Hr H20)
    as (ms & k & e & m & _ & Hent & Hin & Hm & Hlim & _ & S).
  assert (Only : forall k' m', In (k', m') catalog ->
                               weight <= weight_limit m' ->
                               k' = "honeycomb_cardboard"%string
                               /\ m' = honeycomb_cardboard).
  { intros k' m'. cbn [In catalog].
    intros [E | [E | [E | [E | [E | [E | [E | []]]]]]]];
      injection E as <- <-; cbn [weight_limit]; intro L;
      first [ split; reflexivity
            | exfalso; revert L; cbn; lra ]. }
  destruct (Only k m Hm Hlim) as [-> ->].
  eexists. rewrite S. unfold selected_dict. cbn [bind fst snd].
  rewrite deref_new. split; [reflexivity|]. split; [reflexivity|].
  cbn [alternatives]. f_equal.
  assert (E : runners_up ms "honeycomb_cardboard" = []).
  { unfold runners_up.
    destruct (filter _ (sorted_desc ms)) as [|[ky ey] rest] eqn:F;
      [reflexivity|].
    assert (Hy : In (ky, ey)
                    (filter (fun x => negb (String.eqb (fst x)
                                              "honeycomb_cardboard"))
                            (sorted_desc ms)))
      by (rewrite F; now left).
    apply filter_In in Hy. destruct Hy as [Hs Hk]. cbn [fst] in Hk.
    apply In_sorted_desc in Hs.
    destruct (Hent ky ey Hs) as (m' & Hm' & _ & Hw' & _).
    destruct (Only ky m' Hm' Hw') as [-> _]. discriminate Hk. }
  rewrite E. reflexivity.
Qed.

Lemma heavy_selects_honeycomb_witness :
  exists d,
    selected_dict (select self0 h0 "electronics" 18 5 false) = Ok d
    /\ fields d = honeycomb_cardboard
    /\ alternatives d = Some [].
Proof.
  apply (heavy_selects_honeycomb h0 "electronics" 18 5 false).
  - apply reach_new.
  - reflexivity.
  - unfold Qle; simpl; lia.
Defined.

End SelectorToStrength.

(** * The calculators in double precision: properties *)

(** ** Binary64 data

    What the operations of [SpecFloat] return is again a datum of the
    format, in canonical form; on canonical data the comparisons are the
    order of the values. *)

Section DoubleFacts.

Import Float64.

Local Open Scope Z_scope.

Lemma digits2_pos_size (p : positive) : digits2_pos p = Pos.size p.
Proof. induction p; cbn; congruence. Qed.

Lemma Zdigits2_log2 (z : Z) : 0 < z -> Zdigits2 z = Z.log2 z + 1.
Proof.
  destruct z as [|p|p]; try lia. intros _. cbn [Zdigits2].
  rewrite digits2_pos_size. destruct p; cbn; lia.
Qed.

Lemma Zdigits2_nonneg (z : Z) : 0 <= Zdigits2 z.
Proof. destruct z; cbn; lia. Qed.

Lemma fexp_eq (e : Z) : fexp prec emax e = Z.max (e - 53) (-1074).
Proof. reflexivity. Qed.

Lemma iter_pos_nat {A : Type} (f : A -> A) (n : positive) :
  forall x, iter_pos f n x = Nat.iter (Pos.to_nat n) f x.
Proof.
  induction n as [n IH | n IH |]; intro x; cbn [iter_pos].
  - rewrite !IH, Pos2Nat.inj_xI.
    replace (S (2 * Pos.to_nat n))%nat
      with (Pos.to_nat n + (Pos.to_nat n + 1))%nat by lia.
    rewrite !Nat.iter_add. reflexivity.
  - rewrite !IH, Pos2Nat.inj_xO.
    replace (2 * Pos.to_nat n)%nat
      with (Pos.to_nat n + Pos.to_nat n)%nat by lia.
    rewrite Nat.iter_add. reflexivity.
  - reflexivity.
Qed.

Lemma shr_1_m (r : shr_record) :
  0 <= shr_m r -> shr_m (shr_1 r) = shr_m r / 2.
Proof.
  destruct r as [m b s]. cbn [shr_m]. intro H.
  rewrite <- Z.div2_div.
  destruct m as [|p|p]; [reflexivity | | lia].
  destruct p; reflexivity.
Qed.

Lemma shr_iter_m (n : nat) (r : shr_record) :
  0 <= shr_m r ->
  shr_m (Nat.iter n shr_1 r) = shr_m r / 2 ^ Z.of_nat n.
Proof.
  intro H. induction n as [|n IH].
  - cbn. now rewrite Z.div_1_r.
  - rewrite Nat.iter_succ, shr_1_m.
    + rewrite IH, Nat2Z.inj_succ, Z.pow_succ_r by lia.
      rewrite Z.div_div by lia. f_equal. lia.
    + rewrite IH. apply Z.div_pos; lia.
Qed.

(** The mantissa and the exponent after [shr]. *)
Lemma shr_spec (r : shr_record) (e n : Z) :
  0 <= shr_m r ->
  shr_m (fst (shr r e n)) = shr_m r / 2 ^ Z.max 0 n
  /\ snd (shr r e n) = e + Z.max 0 n.
Proof.
  intro H. destruct n as [|p|p]; cbn [shr fst snd].
  - rewrite Z.div_1_r. split; lia.
  - rewrite iter_pos_nat, shr_iter_m by exact H.
    rewrite positive_nat_Z. split; [reflexivity | lia].
  - cbn. rewrite Z.div_1_r. split; lia.
Qed.

Lemma shr_record_of_loc_m (m : Z) (l : location) :
  shr_m (shr_record_of_loc m l) = m.
Proof. destruct l as [|[ | | ]]; reflexivity. Qed.

Lemma log2_div_pow2 (a n : Z) :
  0 < a -> 0 <= n -> 0 < a / 2 ^ n ->
  Z.log2 (a / 2 ^ n) = Z.log2 a - n.
Proof.
  intros Ha Hn Hq.
  rewrite <- Z.shiftr_div_pow2 in * by exact Hn.
  rewrite Z.log2_shiftr by exact Ha.
  destruct (Z.le_gt_cases n (Z.log2 a)) as [L | L]; [lia|].
  rewrite Z.shiftr_eq_0 in Hq; lia.
Qed.

Lemma div_pow2_small (a n : Z) :
  0 <= a -> Z.log2 a < n -> a / 2 ^ n = 0.
Proof.
  intros Ha L. pose proof (Z.log2_nonneg a).
  rewrite <- Z.shiftr_div_pow2 by lia.
  apply Z.shiftr_eq_0; assumption.
Qed.

Lemma round_nearest_even_cases (m : Z) (l : location) :
  round_nearest_even m l = m \/ round_nearest_even m l = m + 1.
Proof.
  destruct l as [|[ | | ]]; cbn; auto. destruct (Z.even m); auto.
Qed.

(** What [binary_round_aux] returns is never a NaN and always a datum of
    the format, provided the mantissa it is given is long enough. *)
Lemma binary_round_aux_valid (sx : bool) (mx ex : Z) (lx : location) :
  0 <= mx -> ex <= fexp prec emax (Zdigits2 mx + ex) ->
  Double.is_nan (binary_round_aux prec emax sx mx ex lx) = false
  /\ Double.is_double (binary_round_aux prec emax sx mx ex lx) = true.
Proof.
  intros Hm He. unfold binary_round_aux, shr_fexp.
  set (n := fexp prec emax (Zdigits2 mx + ex) - ex).
  pose proof (shr_spec (shr_record_of_loc mx lx) ex n) as S1.
  rewrite shr_record_of_loc_m in S1. specialize (S1 Hm).
  destruct (shr (shr_record_of_loc mx lx) ex n) as [mrs' e'].
  cbn [fst snd] in S1. destruct S1 as [M1 E1].
  set (m1 := round_nearest_even (shr_m mrs') (loc_of_shr_record mrs')).
  assert (Hm' : 0 <= shr_m mrs') by (rewrite M1; apply Z.div_pos; lia).
  assert (Hm1 : m1 = shr_m mrs' \/ m1 = shr_m mrs' + 1)
    by apply round_nearest_even_cases.
  set (n2 := fexp prec emax (Zdigits2 m1 + e') - e').
  pose proof (shr_spec (shr_record_of_loc m1 loc_Exact) e' n2) as S2.
  rewrite shr_record_of_loc_m in S2.
  assert (Hm1' : 0 <= m1) by lia. specialize (S2 Hm1').
  destruct (shr (shr_record_of_loc m1 loc_Exact) e' n2) as [mrs'' e''].
  cbn [fst snd] in S2. destruct S2 as [M2 E2].
  assert (Hm'' : 0 <= shr_m mrs'') by (rewrite M2; apply Z.div_pos; lia).
  destruct (shr_m mrs'') as [|m''|m''] eqn:Em''; [now split | | lia].
  destruct (e'' <=? emax - prec) eqn:Le; [|now split].
  split; [reflexivity|].
  unfold Double.is_double, valid_binary, bounded, canonical_mantissa.
  rewrite Le, andb_true_r. apply Z.eqb_eq.
  change (Z.pos (digits2_pos m'')) with (Zdigits2 (Z.pos m'')).
  (* digits of the final mantissa *)
  assert (P2 : 0 < m1 / 2 ^ Z.max 0 n2) by lia.
  assert (P1 : 0 < m1).
  { destruct (Z.eq_dec m1 0) as [Z0|]; [|lia].
    rewrite Z0, Z.div_0_l in P2; [lia|]. apply Z.pow_nonzero; lia. }
  rewrite M2, Zdigits2_log2, log2_div_pow2, fexp_eq by lia.
  assert (En : n = Z.max (Zdigits2 mx + ex - 53) (-1074) - ex)
    by reflexivity.
  assert (En2 : n2 = Z.max (Z.log2 m1 + 1 + e' - 53) (-1074) - e').
  { unfold n2. now rewrite fexp_eq, (Zdigits2_log2 m1 P1). }
  rewrite fexp_eq in He.
  assert (F0 : shr_m mrs' = 0 -> Zdigits2 mx <= n /\ Z.log2 m1 = 0).
  { intro Z0. split.
    - destruct (Z.eq_dec mx 0) as [-> | NZx]; [cbn; lia|].
      rewrite Zdigits2_log2 by lia.
      destruct (Z.le_gt_cases n (Z.log2 mx)) as [L | L]; [|lia].
      apply Z.log2_le_pow2 in L; [|lia].
      assert (0 < mx / 2 ^ Z.max 0 n); [|lia].
      apply Z.div_str_pos. replace (Z.max 0 n) with n by lia.
      split; [apply Z.pow_pos_nonneg; lia | exact L].
    - destruct Hm1 as [E | E]; [lia | rewrite E, Z0; reflexivity]. }
  assert (Fa : 0 < shr_m mrs' ->
               Zdigits2 mx = Z.log2 mx + 1
               /\ Z.log2 (shr_m mrs') = Z.log2 mx - Z.max 0 n
               /\ (Z.log2 m1 = Z.log2 (shr_m mrs')
                   \/ Z.log2 m1 = Z.log2 (shr_m mrs') + 1)).
  { intro Pa.
    assert (Pmx : 0 < mx).
    { destruct (Z.eq_dec mx 0) as [Z0 |]; [|lia].
      rewrite M1, Z0, Z.div_0_l in Pa; [lia|]. apply Z.pow_nonzero; lia. }
    split; [now apply Zdigits2_log2|]. split.
    - rewrite M1. apply log2_div_pow2; lia.
    - destruct Hm1 as [-> | ->]; [now left|].
      destruct (Z.log2_succ_or (shr_m mrs')) as [E | E];
        unfold Z.succ in E; lia. }
  clearbody n n2 m1.
  destruct (Z.eq_dec (shr_m mrs') 0) as [Z0 | NZ].
  - destruct (F0 Z0) as [A B]. lia.
  - destruct Fa as (A & B & C); lia.
Qed.

Lemma digits2_pos_iter_xO (m d : positive) :
  Z.pos (digits2_pos (Pos.iter xO m d)) = Z.pos (digits2_pos m) + Z.pos d.
Proof.
  rewrite (Pos2Nat.inj_iter d xO m). rewrite <- (positive_nat_Z d).
  induction (Pos.to_nat d) as [|n IH].
  - cbn. lia.
  - rewrite Nat2Z.inj_succ. cbn [nat_rect digits2_pos]. lia.
Qed.

Lemma Zpos_iter_xO (m d : positive) :
  Z.pos (Pos.iter xO m d) = Z.pos m * 2 ^ Z.pos d.
Proof.
  rewrite (Pos2Nat.inj_iter d xO m). rewrite <- (positive_nat_Z d).
  induction (Pos.to_nat d) as [|n IH].
  - cbn. lia.
  - rewrite Nat2Z.inj_succ, Z.pow_succ_r by lia.
    cbn [nat_rect]. rewrite Pos2Z.inj_xO, IH. lia.
Qed.

(** [shl_align] towards the exponent of the format. *)
Lemma shl_align_fexp (m : positive) (e : Z) :
  let '(mz, ez) :=
    shl_align m e (fexp prec emax (Z.pos (digits2_pos m) + e)) in
  Z.pos (digits2_pos mz) + ez = Z.pos (digits2_pos m) + e
  /\ ez <= fexp prec emax (Z.pos (digits2_pos m) + e)
  /\ ez = Z.min e (fexp prec emax (Z.pos (digits2_pos m) + e))
  /\ Z.pos mz = Z.pos m * 2 ^ (e - ez).
Proof.
  unfold shl_align.
  destruct (fexp prec emax (Z.pos (digits2_pos m) + e) - e) as [|d|d] eqn:E.
  - rewrite Z.sub_diag. cbn [Z.pow]. lia.
  - rewrite Z.sub_diag. cbn [Z.pow]. lia.
  - rewrite digits2_pos_iter_xO, Zpos_iter_xO.
    replace (e - fexp prec emax (Z.pos (digits2_pos m) + e)) with (Z.pos d)
      by lia.
    lia.
Qed.

Lemma binary_round_valid (s : bool) (m : positive) (e : Z) :
  Double.is_nan (binary_round prec emax s m e) = false
  /\ Double.is_double (binary_round prec emax s m e) = true.
Proof.
  unfold binary_round.
  pose proof (shl_align_fexp m e) as A.
  destruct (shl_align m e (fexp prec emax (Z.pos (digits2_pos m) + e)))
    as [mz ez].
  destruct A as (A1 & A2 & _).
  apply binary_round_aux_valid; [lia|].
  cbn [Zdigits2]. rewrite A1. exact A2.
Qed.

Lemma binary_normalize_valid (z e : Z) (szero : bool) :
  Double.is_nan (binary_normalize prec emax z e szero) = false
  /\ Double.is_double (binary_normalize prec emax z e szero) = true.
Proof.
  destruct z; cbn [binary_normalize];
    [now split | apply binary_round_valid | apply binary_round_valid].
Qed.

(** Rounding a mantissa that is in canonical form already changes
    nothing. *)
Lemma binary_round_aux_exact (s : bool) (m : positive) (e : Z) :
  fexp prec emax (Z.pos (digits2_pos m) + e) = e -> e <= emax - prec ->
  binary_round_aux prec emax s (Z.pos m) e loc_Exact = S754_finite s m e.
Proof.
  intros C B. unfold binary_round_aux, shr_fexp.
  cbn [Zdigits2 shr_record_of_loc]. rewrite C, Z.sub_diag.
  cbn [shr shr_m loc_of_shr_record round_nearest_even Zdigits2
       shr_record_of_loc].
  rewrite C, Z.sub_diag. cbn [shr shr_m].
  apply Z.leb_le in B. now rewrite B.
Qed.

(** [of_Z] is exact on integers of at most 53 bits: the mantissa is the
    integer shifted to 53 bits. *)
Lemma binary_round_exact (s : bool) (p : positive) :
  Z.pos (digits2_pos p) <= 53 ->
  exists mz,
    binary_round prec emax s p 0
    = S754_finite s mz (Z.pos (digits2_pos p) - 53)
    /\ Z.pos mz = Z.pos p * 2 ^ (53 - Z.pos (digits2_pos p)).
Proof.
  intro D. unfold binary_round.
  pose proof (shl_align_fexp p 0) as A.
  destruct (shl_align p 0 (fexp prec emax (Z.pos (digits2_pos p) + 0)))
    as [mz ez].
  destruct A as (A1 & A2 & A3 & A4).
  rewrite fexp_eq in A2.
  assert (Ez : ez = Z.pos (digits2_pos p) - 53)
    by (rewrite fexp_eq in A3; lia).
  exists mz. split.
  - rewrite binary_round_aux_exact; [now rewrite Ez| |].
    + rewrite A1, fexp_eq. lia.
    + unfold emax, prec. lia.
  - rewrite A4, Ez. f_equal. f_equal. lia.
Qed.

Ltac order_cases :=
  repeat match goal with
         | x : float |- _ => destruct x as [[|]|[|]| |[|] ? ?]
         | x : spec_float |- _ => destruct x as [[|]|[|]| |[|] ? ?]
         end;
  unfold ltb, leb, SFltb, SFleb, SFcompare, Double.is_nan; cbn;
  try discriminate; try reflexivity; try congruence.

Ltac compare_split :=
  repeat match goal with
         | |- context [Z.compare ?a ?b] =>
             destruct (Z.compare_spec a b); cbn
         | H : context [Z.compare ?a ?b] |- _ =>
             destruct (Z.compare_spec a b); cbn in H
         | |- context [Pos.compare_cont Eq ?a ?b] =>
             change (Pos.compare_cont Eq a b) with (Pos.compare a b);
             destruct (Pos.compare_spec a b); cbn
         | H : context [Pos.compare_cont Eq ?a ?b] |- _ =>
             change (Pos.compare_cont Eq a b) with (Pos.compare a b) in H;
             destruct (Pos.compare_spec a b); cbn in H
         end;
  try discriminate; try reflexivity; try congruence; try lia.

Lemma leb_refl (x : float) : Double.is_nan x = false -> leb x x = true.
Proof. order_cases; intros _; compare_split. Qed.

Lemma ltb_leb (x y : float) : ltb x y = true -> leb x y = true.
Proof.
  unfold ltb, leb, SFltb, SFleb.
  destruct (SFcompare x y) as [[ | | ]|]; congruence.
Qed.

Lemma not_ltb_leb (x y : float) :
  Double.is_nan x = false -> Double.is_nan y = false ->
  ltb x y = false -> leb y x = true.
Proof. order_cases; intros _ _ H; compare_split. Qed.

Lemma leb_ltb_trans (x y z : float) :
  leb x y = true -> ltb y z = true -> ltb x z = true.
Proof. order_cases; intros H1 H2; compare_split. Qed.

Lemma leb_trans (x y z : float) :
  leb x y = true -> leb y z = true -> leb x z = true.
Proof. order_cases; intros H1 H2; compare_split. Qed.

Lemma is_double_finite (s : bool) (m : positive) (e : Z) :
  Double.is_double (S754_finite s m e) = true ->
  fexp prec emax (Z.pos (digits2_pos m) + e) = e /\ e <= 971.
Proof.
  unfold Double.is_double, valid_binary, bounded, canonical_mantissa.
  intro V. apply andb_prop in V. destruct V as [C B].
  apply Z.eqb_eq in C. apply Z.leb_le in B. split; [exact C | exact B].
Qed.

(** [np.ceil] never goes below its argument. *)
Lemma double_ceil_ge (x : float) :
  Double.is_double x = true -> Double.is_nan x = false ->
  leb x (Double.ceil x) = true.
Proof.
  intros V N.
  destruct x as [s|s| |s m e]; try (apply leb_refl; exact N).
  unfold Double.ceil. destruct (0 <=? e) eqn:E0; [apply leb_refl; exact N|].
  apply Z.leb_gt in E0. cbv zeta.
  destruct (is_double_finite s m e V) as [C B]. rewrite fexp_eq in C.
  pose proof (Zdigits2_log2 (Z.pos m) eq_refl) as D. cbn [Zdigits2] in D.
  assert (K : 0 < 2 ^ (- e)) by (apply Z.pow_pos_nonneg; lia).
  destruct s.
  - (* negative: the magnitude is truncated *)
    change (- Z.neg m) with (Z.pos m).
    pose proof (Z.mul_div_le (Z.pos m) (2 ^ (- e)) K) as Q1.
    assert (Q0 : 0 <= Z.pos m / 2 ^ (- e)) by (apply Z.div_pos; lia).
    destruct (Z.pos m / 2 ^ (- e)) as [|q|q] eqn:Hq; [reflexivity | | lia].
    change (- Z.pos q =? 0) with false. cbv iota.
    change (of_Z (- Z.pos q)) with (binary_round prec emax true q 0).
    assert (Lq : Z.log2 (Z.pos q) = Z.log2 (Z.pos m) - - e).
    { rewrite <- Hq. apply log2_div_pow2; lia. }
    pose proof (Zdigits2_log2 (Z.pos q) eq_refl) as Dq. cbn [Zdigits2] in Dq.
    pose proof (Z.log2_nonneg (Z.pos q)).
    destruct (binary_round_exact true q) as (mz & -> & Mz); [lia|].
    assert (Ee : Z.pos (digits2_pos q) - 53 = e) by lia.
    rewrite Ee. unfold leb, SFleb, SFcompare. rewrite Z.compare_refl.
    change (Pos.compare_cont Eq m mz) with (Pos.compare m mz).
    assert (Z.pos mz <= Z.pos m).
    { rewrite Mz. replace (53 - Z.pos (digits2_pos q)) with (- e) by lia.
      lia. }
    destruct (Pos.compare_spec m mz); cbn; try reflexivity. lia.
  - (* positive: rounded up *)
    change (- Z.pos m) with (Z.neg m).
    set (n := - (Z.neg m / 2 ^ (- e))).
    assert (Hn : Z.pos m <= n * 2 ^ (- e) < Z.pos m + 2 ^ (- e)).
    { pose proof (Z.mul_div_le (Z.neg m) (2 ^ (- e)) K).
      pose proof (Z.mul_succ_div_gt (Z.neg m) (2 ^ (- e)) K).
      unfold n. lia. }
    assert (Pn : 0 < n) by nia.
    destruct n as [|p|p] eqn:En; try lia.
    change (Z.pos p =? 0) with false. cbv iota.
    change (of_Z (Z.pos p)) with (binary_round prec emax false p 0).
    pose proof (Zdigits2_log2 (Z.pos p) eq_refl) as Dp. cbn [Zdigits2] in Dp.
    pose proof (Z.log2_nonneg (Z.pos p)).
    pose proof (Z.log2_nonneg (Z.pos m)).
    assert (L1 : Z.log2 (Z.pos m) <= Z.log2 (Z.pos p) + - e).
    { rewrite Z.add_comm, <- Z.log2_mul_pow2 by lia.
      apply Z.log2_le_mono. lia. }
    assert (U : Z.pos p <= 2 ^ 52).
    { assert (Z.pos m < 2 ^ 53).
      { apply Z.log2_lt_pow2; lia. }
      assert (2 ^ 53 = 2 ^ 52 * 2) by reflexivity.
      assert (2 <= 2 ^ (- e)).
      { change 2 with (2 ^ 1) at 1. apply Z.pow_le_mono_r; lia. }
      nia. }
    assert (Lp : Z.log2 (Z.pos p) <= 52).
    { apply Z.log2_le_mono in U. exact U. }
    destruct (binary_round_exact false p) as (mz & -> & Mz); [lia|].
    unfold leb, SFleb, SFcompare.
    destruct (Z.compare_spec e (Z.pos (digits2_pos p) - 53)) as [Ee | Ee | Ee];
      cbn; try reflexivity; [|lia].
    change (Pos.compare_cont Eq m mz) with (Pos.compare m mz).
    assert (Z.pos m <= Z.pos mz).
    { rewrite Mz. replace (53 - Z.pos (digits2_pos p)) with (- e) by lia.
      lia. }
    destruct (Pos.compare_spec m mz); cbn; try reflexivity. lia.
Qed.

Lemma ceil_not_nan (x : float) :
  Double.is_nan x = false -> Double.is_nan (Double.ceil x) = false.
Proof.
  destruct x as [s|s| |s m e]; cbn; try congruence. intros _.
  destruct (0 <=? e); [reflexivity|].
  match goal with |- context [(?n =? 0)%Z] => destruct (n =? 0)%Z end;
    [reflexivity|].
  apply binary_normalize_valid.
Qed.

Lemma ceil_valid (x : float) :
  Double.is_double x = true -> Double.is_double (Double.ceil x) = true.
Proof.
  destruct x as [s|s| |s m e]; cbn [Double.ceil]; try congruence. intro V.
  destruct (0 <=? e); [exact V|]. cbv zeta.
  match goal with |- context [(?n =? 0)%Z] => destruct (n =? 0)%Z end;
    [reflexivity|].
  apply binary_normalize_valid.
Qed.

(** When the mantissa is not shifted out, the result is not a zero. *)
Lemma binary_round_aux_nonzero (sx : bool) (mx ex : Z) (lx : location) :
  0 < mx -> ex <= fexp prec emax (Zdigits2 mx + ex) ->
  fexp prec emax (Zdigits2 mx + ex) - ex <= Z.log2 mx ->
  forall s, binary_round_aux prec emax sx mx ex lx <> S754_zero s.
Proof.
  intros Hm He Hn s0. unfold binary_round_aux, shr_fexp.
  set (n := fexp prec emax (Zdigits2 mx + ex) - ex) in *.
  pose proof (shr_spec (shr_record_of_loc mx lx) ex n) as S1.
  rewrite shr_record_of_loc_m in S1.
  assert (Hm0 : 0 <= mx) by lia. specialize (S1 Hm0).
  destruct (shr (shr_record_of_loc mx lx) ex n) as [mrs' e'].
  cbn [fst snd] in S1. destruct S1 as [M1 E1].
  set (m1 := round_nearest_even (shr_m mrs') (loc_of_shr_record mrs')).
  assert (Hm1 : m1 = shr_m mrs' \/ m1 = shr_m mrs' + 1)
    by apply round_nearest_even_cases.
  assert (n_nonneg : 0 <= n) by (unfold n; lia).
  assert (Pm' : 0 < shr_m mrs').
  { rewrite M1. apply Z.div_str_pos. replace (Z.max 0 n) with n by lia.
    split; [apply Z.pow_pos_nonneg; lia|].
    apply Z.log2_le_pow2; lia. }
  assert (D1 : Z.log2 (shr_m mrs') = Z.log2 mx - Z.max 0 n).
  { rewrite M1. apply log2_div_pow2; lia. }
  assert (P1 : 0 < m1) by lia.
  assert (L1 : Z.log2 m1 = Z.log2 (shr_m mrs')
               \/ Z.log2 m1 = Z.log2 (shr_m mrs') + 1).
  { destruct Hm1 as [-> | ->]; [now left|].
    destruct (Z.log2_succ_or (shr_m mrs')) as [E | E];
      unfold Z.succ in E; lia. }
  set (n2 := fexp prec emax (Zdigits2 m1 + e') - e').
  pose proof (shr_spec (shr_record_of_loc m1 loc_Exact) e' n2) as S2.
  rewrite shr_record_of_loc_m in S2.
  assert (Hm1' : 0 <= m1) by lia. specialize (S2 Hm1').
  destruct (shr (shr_record_of_loc m1 loc_Exact) e' n2) as [mrs'' e''].
  cbn [fst snd] in S2. destruct S2 as [M2 E2].
  assert (En : n = Z.max (Zdigits2 mx + ex - 53) (-1074) - ex)
    by reflexivity.
  assert (En2 : n2 = Z.max (Z.log2 m1 + 1 + e' - 53) (-1074) - e').
  { unfold n2. now rewrite fexp_eq, (Zdigits2_log2 m1 P1). }
  rewrite (Zdigits2_log2 mx Hm) in En.
  pose proof (Z.log2_nonneg m1) as Lnn.
  assert (P2 : 0 < shr_m mrs'').
  { rewrite M2. apply Z.div_str_pos.
    split; [apply Z.pow_pos_nonneg; lia|].
    apply Z.log2_le_pow2; [lia|].
    clearbody n n2 m1. lia. }
  destruct (shr_m mrs'') as [|m''|m'']; try lia.
  destruct (e'' <=? emax - prec); discriminate.
Qed.

Lemma mul_double (x y : float) :
  Double.is_double x = true -> Double.is_double y = true ->
  Double.is_double (mul x y) = true.
Proof.
  intros Vx Vy.
  destruct x as [sx|sx| |sx mx ex]; destruct y as [sy|sy| |sy my ey];
    try reflexivity.
  unfold mul, SFmul.
  apply binary_round_aux_valid; [lia|].
  destruct (is_double_finite sx mx ex Vx) as [Cx _].
  destruct (is_double_finite sy my ey Vy) as [Cy _].
  rewrite fexp_eq in *.
  pose proof (Zdigits2_log2 (Z.pos mx) eq_refl) as Dx.
  pose proof (Zdigits2_log2 (Z.pos my) eq_refl) as Dy.
  pose proof (Zdigits2_log2 (Z.pos (mx * my)) eq_refl) as Dxy.
  cbn [Zdigits2] in Dx, Dy. 
  pose proof (Z.log2_mul_below (Z.pos mx) (Z.pos my) eq_refl eq_refl) as B.
  rewrite <- Pos2Z.inj_mul in B.
  pose proof (Z.log2_nonneg (Z.pos mx)). pose proof (Z.log2_nonneg (Z.pos my)).
  rewrite Dxy. lia.
Qed.

Lemma eqb_zero (x : float) :
  eqb x Double.zero = true -> exists s, x = S754_zero s.
Proof.
  destruct x as [s|s| |s m e]; unfold eqb, SFeqb; cbn;
    try discriminate; eauto.
  all: destruct s; discriminate.
Qed.

(** A truck load holds a non-zero number of boxes of any finite non-zero
    volume: the quotient 80000000 / v is at least 2^-998, far above the
    smallest double. *)
Lemma truck_units_nonzero (v : float) :
  Double.is_double v = true -> is_finite v = true ->
  eqb v Double.zero = false ->
  eqb (div (of_Z 80000000) v) Double.zero = false.
Proof.
  intros V F NZ.
  destruct v as [s|s| |s m e]; try discriminate F;
    [destruct s; discriminate NZ|].
  destruct (is_double_finite s m e V) as [C B]. rewrite fexp_eq in C.
  pose proof (Zdigits2_log2 (Z.pos m) eq_refl) as D. cbn [Zdigits2] in D.
  pose proof (Z.log2_nonneg (Z.pos m)) as Lm.
  destruct (eqb (div (of_Z 80000000) (S754_finite s m e)) Double.zero) eqn:E;
    [|reflexivity].
  apply eqb_zero in E. destruct E as [s0 E]. exfalso. revert E.
  change (of_Z 80000000) with (S754_finite false 5368709120000000 (-26)).
  unfold div, SFdiv, SFdiv_core_binary.
  change (Zdigits2 (Z.pos 5368709120000000)) with 53.
  cbn [Zdigits2]. rewrite fexp_eq.
  set (d := Z.pos (digits2_pos m)) in *.
  replace (Z.min (Z.max (53 + -26 - (d + e) - 53) (-1074)) (-26 - e))
    with (-26 - e - d) by lia.
  replace (-26 - e - (-26 - e - d)) with d by lia.
  unfold d at 1.
  assert (Sh : Z.shiftl (Z.pos 5368709120000000) d
               = Z.pos 5368709120000000 * 2 ^ d)
    by (apply Z.shiftl_mul_pow2; lia).
  rewrite Sh.
  pose proof (Z_div_mod (Z.pos 5368709120000000 * 2 ^ d) (Z.pos m) eq_refl)
    as DM.
  destruct (Z.div_eucl (Z.pos 5368709120000000 * 2 ^ d) (Z.pos m))
    as [q r].
  destruct DM as [DM1 DM2].
  assert (P2 : Z.pos m < 2 ^ d).
  { apply Z.log2_lt_pow2; lia. }
  assert (P2' : 2 ^ (d - 1) <= Z.pos m).
  { apply Z.log2_le_pow2; lia. }
  assert (Pd : 2 ^ d = 2 * 2 ^ (d - 1)).
  { rewrite <- Z.pow_succ_r by lia. f_equal. lia. }
  assert (Q1 : Z.pos 5368709120000000 <= q) by nia.
  assert (Q2 : q <= 2 * Z.pos 5368709120000000) by nia.
  assert (L52 : 52 <= Z.log2 q).
  { change 52 with (Z.log2 (Z.pos 5368709120000000)).
    apply Z.log2_le_mono. exact Q1. }
  assert (L53 : Z.log2 q <= 53).
  { change 53 with (Z.log2 (2 * Z.pos 5368709120000000)).
    apply Z.log2_le_mono. exact Q2. }
  apply binary_round_aux_nonzero; try lia;
    rewrite fexp_eq, Zdigits2_log2 by lia; lia.
Qed.

(** The sum of two doubles is a double, and it is a number when the
    first is positive and the second finite. *)
Lemma add_double (x y : float) :
  Double.is_double x = true -> Double.is_double y = true ->
  Double.is_double (add x y) = true.
Proof.
  intros Vx Vy.
  destruct x as [sx|sx| |sx mx ex]; destruct y as [sy|sy| |sy my ey];
    try reflexivity; try assumption;
    try (destruct sx, sy; reflexivity).
  unfold add, SFadd. apply binary_normalize_valid.
Qed.

Lemma add_not_nan (x y : float) :
  ltb Double.zero x = true -> is_finite y = true ->
  Double.is_nan (add x y) = false.
Proof.
  intros Px Fy.
  destruct x as [sx|sx| |sx mx ex]; try discriminate Px;
    destruct sx; try discriminate Px;
    destruct y as [sy|sy| |sy my ey]; try discriminate Fy;
    try reflexivity.
  unfold add, SFadd. apply binary_normalize_valid.
Qed.

(** The two sides of a clamp. *)
Lemma max_min_range (lo hi x : float) :
  Double.is_nan lo = false -> Double.is_nan hi = false ->
  leb lo hi = true ->
  leb lo (Double.max lo (Double.min hi x)) = true
  /\ leb (Double.max lo (Double.min hi x)) hi = true.
Proof.
  intros Nlo Nhi L. unfold Double.max, Double.min.
  destruct (ltb x hi) eqn:A.
  - destruct (ltb lo x) eqn:B.
    + split; apply ltb_leb; assumption.
    + split; [apply leb_refl | ]; assumption.
  - destruct (ltb lo hi) eqn:B.
    + split; [|apply leb_refl]; assumption.
    + split; [apply leb_refl | ]; assumption.
Qed.

Lemma min_max_range (lo hi x : float) :
  Double.is_nan lo = false -> Double.is_nan hi = false ->
  leb lo hi = true ->
  leb lo (Double.min hi (Double.max lo x)) = true
  /\ leb (Double.min hi (Double.max lo x)) hi = true.
Proof.
  intros Nlo Nhi L. unfold Double.max, Double.min.
  destruct (ltb lo x) eqn:A.
  - destruct (ltb x hi) eqn:B.
    + split; apply ltb_leb; assumption.
    + split; [|apply leb_refl]; assumption.
  - destruct (ltb lo hi) eqn:B.
    + split; [apply leb_refl | ]; assumption.
    + split; [|apply leb_refl]; assumption.
Qed.

End DoubleFacts.

(** ** Dimension planner in double precision *)

Section DimensionPlanner64.

Import Float64 DimensionOptimizer64.

Lemma base_padding_cases (fragility : Z) :
  In (base_padding fragility) (map lit [1.5; 2.0; 2.5; 3.0; 3.5]).
Proof.
  unfold base_padding, DimensionOptimizer.padding_multiplier.
  cbn [DimensionOptimizer.get].
  repeat match goal with
         | |- context [if ?b then _ else _] => destruct b
         end; cbn [map In]; tauto.
Qed.

Lemma weight_factor_cases (weight : float) :
  In (weight_factor weight) (map lit [2.0; 1.5; 1.0; 0.5]).
Proof.
  unfold weight_factor.
  repeat match goal with
         | |- context [if ?b then _ else _] => destruct b
         end; cbn [map In]; tauto.
Qed.

(** Every padding the planner can apply is a finite double. *)
Lemma all_paddings_finite :
  forallb (fun b =>
    forallb (fun f => is_finite (add b f) && Double.is_double (add b f))
            (map lit [2.0; 1.5; 1.0; 0.5]))
    (map lit [1.5; 2.0; 2.5; 3.0; 3.5]) = true.
Proof. vm_compute. reflexivity. Qed.

Lemma padding_finite (fragility : Z) (weight : float) :
  is_finite (add (base_padding fragility) (weight_factor weight)) = true
  /\ Double.is_double (add (base_padding fragility) (weight_factor weight))
     = true.
Proof.
  pose proof all_paddings_finite as H.
  rewrite forallb_forall in H.
  specialize (H _ (base_padding_cases fragility)).
  rewrite forallb_forall in H.
  specialize (H _ (weight_factor_cases weight)).
  apply andb_prop in H. exact H.
Qed.

(** One side of the box: at least 5, and at least the sum it is the
    ceiling of. *)
Lemma side_bounds (x p : float) :
  Double.is_double x = true -> ltb Double.zero x = true ->
  Double.is_double p = true -> is_finite p = true ->
  leb (of_Z 5) (Double.max (Double.ceil (add x p)) (lit 5.0)) = true
  /\ leb (add x p) (Double.max (Double.ceil (add x p)) (lit 5.0)) = true.
Proof.
  intros Vx Px Vp Fp.
  pose proof (add_double x p Vx Vp) as Vs.
  pose proof (add_not_nan x p Px Fp) as Ns.
  pose proof (double_ceil_ge (add x p) Vs Ns) as G.
  pose proof (ceil_not_nan (add x p) Ns) as Nc.
  assert (E5 : lit 5.0 = of_Z 5) by (vm_compute; reflexivity).
  rewrite E5. unfold Double.max.
  destruct (ltb (Double.ceil (add x p)) (of_Z 5)) eqn:L.
  - split; [reflexivity|].
    apply ltb_leb. exact (leb_ltb_trans _ _ _ G L).
  - split; [|exact G].
    apply not_ltb_leb; [exact Nc | reflexivity | exact L].
Qed.

(** C5, as stated, fails.  A product 5.000000000000001 cm long with a
    padding of 3.0 cm gets a box 8 cm long: the sum is rounded to 8.0
    before the ceiling is taken, and the box is shorter than the length
    plus the padding. *)
Lemma optimize_rounded_sum_counterexample :
  let b := optimize (lit 5.000000000000001) (of_Z 5) (of_Z 5) (lit 0.5) 3 in
  box_length b = of_Z 8
  /\ padding_length (padding_applied b) = of_Z 3
  /\ exists l side : Q,
      to_Q (lit 5.000000000000001) = Some l
      /\ to_Q (box_length b) = Some side
      /\ (side < l + 3)%Q.
Proof.
  cbv zeta. split; [vm_compute; reflexivity|].
  split; [vm_compute; reflexivity|].
  eexists. eexists. split; [vm_compute; reflexivity|].
  split; [vm_compute; reflexivity|].
  vm_compute. reflexivity.
Qed.

(** C5, amended.  For a valid product (positive length, width, height and
    weight, fragility in 1..5) the reported padding is the table entry for
    the fragility plus the weight factor; each side of the box is at least
    5 and at least the sum of the product's side and that padding as it is
    computed in double precision; and the volume is the product of the
    three sides as it is computed in double precision. *)
Theorem optimize_box_invariants (l w h wt : float) (f : Z) :
  Double.is_double l = true -> Double.is_double w = true ->
  Double.is_double h = true ->
  ltb Double.zero l = true -> ltb Double.zero w = true ->
  ltb Double.zero h = true -> ltb Double.zero wt = true ->
  (1 <= f <= 5)%Z ->
  exists base,
    let b := optimize l w h wt f in
    let p := padding_applied b in
    In (f, base) DimensionOptimizer.padding_multiplier
    /\ padding_length p = add (lit base) (weight_factor wt)
    /\ padding_width p = add (lit base) (weight_factor wt)
    /\ padding_height p = add (lit base) (weight_factor wt)
    /\ leb (of_Z 5) (box_length b) = true
    /\ leb (of_Z 5) (box_width b) = true
    /\ leb (of_Z 5) (box_height b) = true
    /\ leb (add l (padding_length p)) (box_length b) = true
    /\ leb (add w (padding_width p)) (box_width b) = true
    /\ leb (add h (padding_height p)) (box_height b) = true
    /\ volume b = mul (mul (box_length b) (box_width b)) (box_height b).
Proof.
  intros Vl Vw Vh Pl Pw Ph _ Hf.
  exists (DimensionOptimizer.base_padding f). cbv zeta.
  unfold optimize. cbv zeta.
  cbn [padding_applied padding_length padding_width padding_height
       box_length box_width box_height volume].
  destruct (padding_finite f wt) as [Fp Vp].
  destruct (side_bounds l _ Vl Pl Vp Fp) as [L5 Ls].
  destruct (side_bounds w _ Vw Pw Vp Fp) as [W5 Ws].
  destruct (side_bounds h _ Vh Ph Vp Fp) as [H5 Hs].
  split; [apply base_padding_in_table, Hf|].
  repeat split; assumption.
Qed.

Lemma optimize_box_invariants_witness :
  exists base,
    let b := optimize (of_Z 18) (of_Z 14) (of_Z 7) (lit 0.5) 4 in
    let p := padding_applied b in
    In (4%Z, base) DimensionOptimizer.padding_multiplier
    /\ padding_length p = add (lit base) (weight_factor (lit 0.5))
    /\ padding_width p = add (lit base) (weight_factor (lit 0.5))
    /\ padding_height p = add (lit base) (weight_factor (lit 0.5))
    /\ leb (of_Z 5) (box_length b) = true
    /\ leb (of_Z 5) (box_width b) = true
    /\ leb (of_Z 5) (box_height b) = true
    /\ leb (add (of_Z 18) (padding_length p)) (box_length b) = true
    /\ leb (add (of_Z 14) (padding_width p)) (box_width b) = true
    /\ leb (add (of_Z 7) (padding_height p)) (box_height b) = true
    /\ volume b = mul (mul (box_length b) (box_width b)) (box_height b).
Proof.
  apply (optimize_box_invariants (of_Z 18) (of_Z 14) (of_Z 7) (lit 0.5) 4);
    try reflexivity; lia.
Defined.

(** The scenario of the specification: 18 x 14 x 7 cm, 0.5 kg,
    fragility 4 gives a box of 22 x 18 x 11 cm. *)
Example optimize_scenario :
  dims (optimize (of_Z 18) (of_Z 14) (of_Z 7) (lit 0.5) 4) = box 22 18 11.
Proof. vm_compute. reflexivity. Qed.

End DimensionPlanner64.

(** ** Strength evaluator in double precision *)

Section StrengthEvaluator64.

Import Float64 StrengthPredictor64.

Lemma strength_factor_cases64 (v : float) :
  In (strength_factor_of v) strength_factors.
Proof.
  unfold strength_factor_of, strength_factors.
  repeat match goal with
         | |- context [if ?b then _ else _] => destruct b
         end; cbn [map In]; tauto.
Qed.

Lemma geometry_factor_cases64 (a : float) :
  In (geometry_factor_of a) geometry_factors.
Proof.
  unfold geometry_factor_of, geometry_factors.
  repeat match goal with
         | |- context [if ?b then _ else _] => destruct b
         end; cbn [map In]; tauto.
Qed.

(** The lookup with its default, as the formulas word it. *)
Lemma get_properties_formula (material_name : string) :
  StrengthPredictor.get_properties material_name
  = Ok (StrengthFormula.properties material_name)
  /\ In (StrengthFormula.properties material_name)
        (map snd StrengthPredictor.material_properties).
Proof.
  unfold StrengthPredictor.get_properties, StrengthFormula.properties.
  change (MaterialSelector.getitem StrengthPredictor.material_properties
                                   "Recycled Cardboard")
    with (Ok (StrengthPredictor.mkProps 0.75 150 0.70 0.80)).
  cbn [bind].
  destruct (MaterialSelector.lookup StrengthPredictor.material_properties
                                    material_name) as [p|] eqn:E.
  - split; [reflexivity|].
    apply lookup_In in E. apply (in_map snd) in E. exact E.
  - split; [reflexivity|]. cbn. tauto.
Qed.

(** The base strengths of the table are numbers: being below 0.8 and
    being at least 0.8 exclude each other. *)
Lemma base_strength_total :
  forallb (fun p =>
             let b := lit (StrengthPredictor.base_strength p) in
             Bool.eqb (leb (lit 0.8) b) (negb (ltb b (lit 0.8))))
          (map snd StrengthPredictor.material_properties) = true.
Proof. vm_compute. reflexivity. Qed.

Lemma fragility_factor_formula (fragility : Z)
      (p : StrengthPredictor.Properties) :
  In p (map snd StrengthPredictor.material_properties) ->
  StrengthFormula.fragilityFactor
    fragility (lit (StrengthPredictor.base_strength p))
  = StrengthPredictor.fragility_factor_of
      fragility (lit (StrengthPredictor.base_strength p)).
Proof.
  intro Hp. pose proof base_strength_total as T.
  rewrite forallb_forall in T. specialize (T p Hp). cbv zeta in T.
  apply Bool.eqb_prop in T.
  unfold StrengthFormula.fragilityFactor,
    StrengthPredictor.fragility_factor_of.
  rewrite T.
  destruct (4 <=? fragility)%Z;
    destruct (ltb (lit (StrengthPredictor.base_strength p)) (lit 0.8));
    reflexivity.
Qed.

(** [predict] always returns, and its scores are the formulas with the
    percentages truncated. *)
Lemma predict_scores64 (dimensions : Double.Dimensions)
      (material_name : string) (weight : float) (fragility : Z) :
  exists s d c : Z,
    scores_of64 (predict dimensions material_name weight fragility)
    = Ok (StrengthSpec.clamp s 60 98, StrengthSpec.clamp d 60 98,
          StrengthSpec.clamp c 65 98)
    /\ StrengthFormula.scores int dimensions material_name weight fragility
       = Ok (StrengthSpec.clamp s 60 98, StrengthSpec.clamp d 60 98,
             StrengthSpec.clamp c 65 98).
Proof.
  unfold scores_of64, predict, StrengthFormula.scores.
  destruct (get_properties_formula material_name) as [-> Hp].
  cbn [bind]. cbv zeta.
  rewrite (fragility_factor_formula fragility _ Hp).
  change (StrengthFormula.strengthFactor
            (StrengthFormula.volumeWeightRatio dimensions weight))
    with (strength_factor_of
            (StrengthFormula.volumeWeightRatio dimensions weight)).
  change (StrengthFormula.geometryFactor
            (StrengthFormula.aspectRatio dimensions))
    with (geometry_factor_of (StrengthFormula.aspectRatio dimensions)).
  unfold StrengthFormula.volumeWeightRatio, StrengthFormula.aspectRatio.
  cbv zeta.
  set (p := StrengthFormula.properties material_name) in *.
  match goal with
  | |- context [strength_factor_of ?v] => set (vw := v)
  end.
  match goal with
  | |- context [geometry_factor_of ?a] => set (ar := a)
  end.
  pose proof (percentages_finite_in p _ _ _ Hp (strength_factor_cases64 vw)
                (fragility_factor_cases
                   fragility (lit (StrengthPredictor.base_strength p)))
                (geometry_factor_cases64 ar)) as F.
  unfold percentages_finite, percentages in F. cbv zeta in F.
  apply andb_prop in F. destruct F as [F Fc].
  apply andb_prop in F. destruct F as [Fs Fd].
  destruct (int_finite _ Fs) as [s Es].
  destruct (int_finite _ Fd) as [d Ed].
  destruct (int_finite _ Fc) as [c Ec].
  exists s, d, c.
  unfold StrengthPredictor.clamp_score. rewrite Es, Ed, Ec. cbn [bind].
  rewrite !clamp_agrees by lia.
  split; [|reflexivity].
  repeat match goal with
         | |- context [if ?b then _ else _] => destruct b
         end; reflexivity.
Qed.

(** C4, as stated, fails.  A 30 x 20 x 20 box of Recycled Cardboard for a
    30 g product has durability percentage 0.80 * 0.92 * 100 = 73.6 and
    compression percentage 73.5: [predict] reports 73 and 73, rounding to
    the nearest integer gives 74 and 74. *)
Lemma predict_rounding_counterexample :
  let d := box 30 20 20 in
  scores_of64 (predict d "Recycled Cardboard" (lit 0.03) 3)
  = Ok (72, 73, 73)%Z
  /\ StrengthFormula.scores StrengthSpec.round d "Recycled Cardboard"
                            (lit 0.03) 3
     = Ok (72, 74, 74)%Z
  /\ scores_of64 (predict d "Recycled Cardboard" (lit 0.03) 3)
     <> StrengthFormula.scores StrengthSpec.round d "Recycled Cardboard"
                               (lit 0.03) 3.
Proof.
  cbv zeta.
  assert (A : scores_of64 (predict (box 30 20 20) "Recycled Cardboard"
                                   (lit 0.03) 3)
              = Ok (72, 73, 73)%Z) by (vm_compute; reflexivity).
  assert (B : StrengthFormula.scores StrengthSpec.round (box 30 20 20)
                                     "Recycled Cardboard" (lit 0.03) 3
              = Ok (72, 74, 74)%Z) by (vm_compute; reflexivity).
  split; [exact A|]. split; [exact B|].
  rewrite A, B. discriminate.
Qed.

(** C4, amended.  For every input, [predict] returns scores equal to the
    formulas evaluated in double precision with the percentage truncated
    toward zero ([int]) before clamping: strength and durability clamped
    to [60, 98], compression to [65, 98]. *)
Theorem predict_scores_truncate (dimensions : Double.Dimensions)
        (material_name : string) (weight : float) (fragility : Z) :
  exists scores,
    scores_of64 (predict dimensions material_name weight fragility)
    = Ok scores
    /\ StrengthFormula.scores int dimensions material_name weight fragility
       = Ok scores.
Proof.
  destruct (predict_scores64 dimensions material_name weight fragility)
    as (s & d & c & H1 & H2).
  eexists. split; eassumption.
Qed.

(** The quotient that decides the strength factor is the rounded one: for
    a 15 x 15 x 20 box and a weight of 0.009 kg the weight in grams is
    rounded to 9.0 and the ratio to 500.0, which is not above the
    threshold of 500, although the exact quotient is. *)
Example predict_threshold_rounding :
  let weight := lit 0.009 in
  scores_of64 (predict (box 15 15 20) "Recycled Cardboard" weight 3)
  = Ok (72, 73, 73)%Z
  /\ StrengthFormula.volumeWeightRatio (box 15 15 20) weight = of_Z 500
  /\ exists w : Q, to_Q weight = Some w /\ (500 < 4500 / (w * 1000))%Q.
Proof.
  cbv zeta. split; [vm_compute; reflexivity|].
  split; [vm_compute; reflexivity|].
  eexists. split; [vm_compute; reflexivity|]. vm_compute. reflexivity.
Qed.

End StrengthEvaluator64.

(** ** Sustainability analyzer in double precision *)

Section Analyzer64.

Import Float64 SustainabilityAnalyzer64.

(** The report of a call in which none of the three unguarded divisors is
    zero. *)
Lemma analyze_shape64 (original_dims optimized_dims : Double.Dimensions)
      (material : MaterialArg) (product_weight : float) :
  eqb (traditional_volume original_dims) Double.zero = false ->
  eqb (box_volume optimized_dims) Double.zero = false ->
  eqb (traditional_units original_dims) Double.zero = false ->
  exists rep gain score,
    analyze original_dims optimized_dims material product_weight = Ok rep
    /\ let t := traditional_packaging (details rep) in
       let o := optimized_packaging (details rep) in
       volume_cm3 t = traditional_volume original_dims
       /\ volume_cm3 o = box_volume optimized_dims
       /\ volume_reduction rep
          = Double.max Double.zero
              (Double.min (of_Z 95)
                          (reduction_pct64 (volume_cm3 t) (volume_cm3 o)))
       /\ material_reduction_percentage rep
          = (if ltb Double.zero (material_kg t)
             then reduction_pct64 (material_kg t) (material_kg o)
             else Double.zero)
       /\ co2_reduction_percentage rep
          = (if ltb Double.zero (co2_kg t)
             then reduction_pct64 (co2_kg t) (co2_kg o)
             else Double.zero)
       /\ transport_efficiency_gain rep
          = Double.max Double.zero (Double.min (of_Z 100) gain)
       /\ report_sustainability_score rep
          = Double.min (of_Z 100) (Double.max Double.zero score).
Proof.
  intros Ht Ho Hu.
  unfold traditional_units in Hu.
  unfold analyze, _calculate_transport_efficiency, Double.truediv.
  cbv zeta.
  change (mul (mul (mul (Double.length original_dims)
                        (Double.width original_dims))
                   (Double.height original_dims))
              (lit SustainabilityAnalyzer.over_packaging_factor))
    with (traditional_volume original_dims).
  change (mul (mul (Double.length optimized_dims)
                   (Double.width optimized_dims))
              (Double.height optimized_dims))
    with (box_volume optimized_dims).
  rewrite Ht, Ho. cbn [bind]. rewrite Hu. cbn [bind].
  eexists. eexists. eexists. split; [reflexivity|].
  cbn [details traditional_packaging optimized_packaging volume_cm3
       material_kg co2_kg volume_reduction material_reduction_percentage
       co2_reduction_percentage transport_efficiency_gain
       report_sustainability_score].
  unfold _calculate_sustainability_score. cbv zeta.
  repeat split; reflexivity.
Qed.

(** The traditional volume of a product whose sides are doubles is a
    double; when it is finite and not zero, a truck load holds a non-zero
    number of traditional boxes. *)
Lemma traditional_units_nonzero (original_dims : Double.Dimensions) :
  Double.is_double (Double.length original_dims) = true ->
  Double.is_double (Double.width original_dims) = true ->
  Double.is_double (Double.height original_dims) = true ->
  is_finite (traditional_volume original_dims) = true ->
  eqb (traditional_volume original_dims) Double.zero = false ->
  eqb (traditional_units original_dims) Double.zero = false.
Proof.
  intros Vl Vw Vh Ft Ht. unfold traditional_units.
  apply truck_units_nonzero; [|exact Ft | exact Ht].
  unfold traditional_volume, box_volume.
  repeat apply mul_double; try assumption. reflexivity.
Qed.

(** C7, as stated, fails twice.  With a product of zero length the
    traditional volume is zero and [analyze] raises [ZeroDivisionError]
    instead of reporting 0; with an optimized box larger than the
    traditional one the reported volume reduction is 0, not the (negative)
    formula value. *)
Lemma analyze_guard_counterexample :
  analyze (box 0 15 8) (box 22 17 10) test_material64 (lit 0.5)
  = Raise ZeroDivisionError
  /\ ~ guarded_percentages64
       (analyze (box 0 15 8) (box 22 17 10) test_material64 (lit 0.5))
  /\ ~ guarded_percentages64
       (analyze (box 20 15 8) (box 30 30 30) test_material64 (lit 0.5)).
Proof.
  assert (A : analyze (box 0 15 8) (box 22 17 10) test_material64 (lit 0.5)
              = Raise ZeroDivisionError) by (vm_compute; reflexivity).
  split; [exact A|]. split.
  - rewrite A. intros (rep & E & _). discriminate.
  - intros (rep & E & H & _).
    destruct (analyze (box 20 15 8) (box 30 30 30) test_material64
                      (lit 0.5)) as [r|] eqn:R; [|discriminate].
    injection E as <-.
    vm_compute in R. injection R as <-.
    vm_compute in H. discriminate.
Qed.

(** C7, amended.  When the traditional volume, as it is computed in double
    precision, is finite and not zero and the optimized volume is not
    zero, [analyze] returns; the reported volume reduction is
    (traditional - optimized) / traditional * 100 clamped to [0, 95]; the
    material and the CO2 reduction are that formula on their quantities
    when the traditional quantity is positive, and 0 otherwise. *)
Theorem analyze_percentages (original_dims optimized_dims : Double.Dimensions)
        (material : MaterialArg) (product_weight : float) :
  Double.is_double (Double.length original_dims) = true ->
  Double.is_double (Double.width original_dims) = true ->
  Double.is_double (Double.height original_dims) = true ->
  is_finite (traditional_volume original_dims) = true ->
  eqb (traditional_volume original_dims) Double.zero = false ->
  eqb (box_volume optimized_dims) Double.zero = false ->
  exists rep,
    analyze original_dims optimized_dims material product_weight = Ok rep
    /\ let t := traditional_packaging (details rep) in
       let o := optimized_packaging (details rep) in
       volume_cm3 t = traditional_volume original_dims
       /\ volume_cm3 o = box_volume optimized_dims
       /\ volume_reduction rep
          = Double.max Double.zero
              (Double.min (of_Z 95)
                          (reduction_pct64 (volume_cm3 t) (volume_cm3 o)))
       /\ (ltb Double.zero (material_kg t) = true ->
           material_reduction_percentage rep
           = reduction_pct64 (material_kg t) (material_kg o))
       /\ (ltb Double.zero (material_kg t) = false ->
           material_reduction_percentage rep = Double.zero)
       /\ (ltb Double.zero (co2_kg t) = true ->
           co2_reduction_percentage rep
           = reduction_pct64 (co2_kg t) (co2_kg o))
       /\ (ltb Double.zero (co2_kg t) = false ->
           co2_reduction_percentage rep = Double.zero).
Proof.
  intros Vl Vw Vh Ft Ht Ho.
  pose proof (traditional_units_nonzero original_dims Vl Vw Vh Ft Ht) as Hu.
  destruct (analyze_shape64 original_dims optimized_dims material
                            product_weight Ht Ho Hu)
    as (rep & gain & score & R & A).
  cbv zeta in A. destruct A as (Vt & Vo & Vr & Mr & Cr & _).
  exists rep. split; [exact R|]. cbv zeta.
  split; [exact Vt|]. split; [exact Vo|]. split; [exact Vr|].
  rewrite Mr, Cr.
  repeat split; intro E; rewrite E; reflexivity.
Qed.

Lemma analyze_percentages_witness :
  exists rep,
    analyze (box 20 15 8) (box 22 17 10) test_material64 (lit 0.5) = Ok rep
    /\ let t := traditional_packaging (details rep) in
       let o := optimized_packaging (details rep) in
       volume_cm3 t = traditional_volume (box 20 15 8)
       /\ volume_cm3 o = box_volume (box 22 17 10)
       /\ volume_reduction rep
          = Double.max Double.zero
              (Double.min (of_Z 95)
                          (reduction_pct64 (volume_cm3 t) (volume_cm3 o)))
       /\ (ltb Double.zero (material_kg t) = true ->
           material_reduction_percentage rep
           = reduction_pct64 (material_kg t) (material_kg o))
       /\ (ltb Double.zero (material_kg t) = false ->
           material_reduction_percentage rep = Double.zero)
       /\ (ltb Double.zero (co2_kg t) = true ->
           co2_reduction_percentage rep
           = reduction_pct64 (co2_kg t) (co2_kg o))
       /\ (ltb Double.zero (co2_kg t) = false ->
           co2_reduction_percentage rep = Double.zero).
Proof.
  apply (analyze_percentages (box 20 15 8) (box 22 17 10) test_material64
                             (lit 0.5));
    vm_compute; reflexivity.
Defined.

(** An overflowing product volume makes the number of traditional boxes
    per truck load zero, and [analyze] raises although no volume is zero;
    so does a product volume that underflows to zero (sides of 2^-400
    cm). *)
Example analyze_overflow :
  let side := lit 1e103 in
  let tiny := lit (1 # 2 ^ 400) in
  traditional_volume (Double.mkDimensions side side side)
  = S754_infinity false
  /\ analyze (Double.mkDimensions side side side) (box 22 17 10)
             test_material64 (lit 0.5)
     = Raise ZeroDivisionError
  /\ box_volume (Double.mkDimensions tiny tiny tiny) = Double.zero
  /\ analyze (Double.mkDimensions tiny tiny tiny) (box 22 17 10)
             test_material64 (lit 0.5)
     = Raise ZeroDivisionError.
Proof. vm_compute. repeat split; reflexivity. Qed.

(** For a finite, non-zero traditional volume and a non-zero optimized
    volume [analyze] returns a report whose volume reduction is between 0
    and 95 and whose transport efficiency gain and sustainability score
    are between 0 and 100, whatever the intermediate results are. *)
Theorem analyze_bounded (original_dims optimized_dims : Double.Dimensions)
        (material : MaterialArg) (product_weight : float) :
  Double.is_double (Double.length original_dims) = true ->
  Double.is_double (Double.width original_dims) = true ->
  Double.is_double (Double.height original_dims) = true ->
  is_finite (traditional_volume original_dims) = true ->
  eqb (traditional_volume original_dims) Double.zero = false ->
  eqb (box_volume optimized_dims) Double.zero = false ->
  exists rep,
    analyze original_dims optimized_dims material product_weight = Ok rep
    /\ between 0 95 (volume_reduction rep)
    /\ between 0 100 (transport_efficiency_gain rep)
    /\ between 0 100 (report_sustainability_score rep).
Proof.
  intros Vl Vw Vh Ft Ht Ho.
  pose proof (traditional_units_nonzero original_dims Vl Vw Vh Ft Ht) as Hu.
  destruct (analyze_shape64 original_dims optimized_dims material
                            product_weight Ht Ho Hu)
    as (rep & gain & score & R & A).
  cbv zeta in A. destruct A as (_ & _ & Vr & _ & _ & Tr & Sr).
  exists rep. split; [exact R|].
  rewrite Vr, Tr, Sr. unfold between.
  change (of_Z 0) with Double.zero.
  split; [apply max_min_range; reflexivity|].
  split; [apply max_min_range; reflexivity|].
  apply min_max_range; reflexivity.
Qed.

Lemma analyze_bounded_witness :
  exists rep,
    analyze (box 20 15 8) (box 22 17 10) test_material64 (lit 0.5) = Ok rep
    /\ between 0 95 (volume_reduction rep)
    /\ between 0 100 (transport_efficiency_gain rep)
    /\ between 0 100 (report_sustainability_score rep).
Proof.
  apply (analyze_bounded (box 20 15 8) (box 22 17 10) test_material64
                         (lit 0.5));
    vm_compute; reflexivity.
Defined.

(** [analyze] divides by the traditional volume, by the optimized volume
    and by the number of traditional boxes per truck load without a
    guard.  For a product whose sides are doubles it raises
    [ZeroDivisionError] exactly when the traditional volume, as it is
    computed in double precision, is zero or infinite or the optimized
    volume is zero, and returns a report in every other case. *)
Theorem analyze_raises_iff (original_dims optimized_dims : Double.Dimensions)
        (material : MaterialArg) (product_weight : float) :
  Double.is_double (Double.length original_dims) = true ->
  Double.is_double (Double.width original_dims) = true ->
  Double.is_double (Double.height original_dims) = true ->
  let tv := traditional_volume original_dims in
  let ov := box_volume optimized_dims in
  (analyze original_dims optimized_dims material product_weight
   = Raise ZeroDivisionError
   <-> eqb tv Double.zero = true \/ is_infinite tv = true
       \/ eqb ov Double.zero = true)
  /\ (returns (analyze original_dims optimized_dims material product_weight)
      <-> eqb tv Double.zero = false /\ is_infinite tv = false
          /\ eqb ov Double.zero = false).
Proof.
  intros Vl Vw Vh. cbv zeta.
  assert (C : (eqb (traditional_volume original_dims) Double.zero = true
               \/ is_infinite (traditional_volume original_dims) = true
               \/ eqb (box_volume optimized_dims) Double.zero = true)
              /\ analyze original_dims optimized_dims material product_weight
                 = Raise ZeroDivisionError
              \/ (eqb (traditional_volume original_dims) Double.zero = false
                  /\ is_infinite (traditional_volume original_dims) = false
                  /\ eqb (box_volume optimized_dims) Double.zero = false)
                 /\ returns (analyze original_dims optimized_dims material
                                     product_weight)).
  { destruct (eqb (traditional_volume original_dims) Double.zero) eqn:Ht.
    { left. split; [now left|].
      unfold analyze, Double.truediv. cbv zeta.
      change (mul (mul (mul (Double.length original_dims)
                            (Double.width original_dims))
                       (Double.height original_dims))
                  (lit SustainabilityAnalyzer.over_packaging_factor))
        with (traditional_volume original_dims).
      rewrite Ht. reflexivity. }
    destruct (is_infinite (traditional_volume original_dims)) eqn:It.
    { left. split; [right; now left|].
      unfold analyze, _calculate_transport_efficiency, Double.truediv.
      cbv zeta.
      change (mul (mul (mul (Double.length original_dims)
                            (Double.width original_dims))
                       (Double.height original_dims))
                  (lit SustainabilityAnalyzer.over_packaging_factor))
        with (traditional_volume original_dims).
      destruct (traditional_volume original_dims) as [s|s| |s m e];
        try discriminate It.
      change (mul (mul (Double.length optimized_dims)
                       (Double.width optimized_dims))
                  (Double.height optimized_dims))
        with (box_volume optimized_dims).
      destruct s;
        [ change (eqb (S754_infinity true) Double.zero) with false;
          change (div (of_Z 80000000) (S754_infinity true))
            with (S754_zero true)
        | change (eqb (S754_infinity false) Double.zero) with false;
          change (div (of_Z 80000000) (S754_infinity false))
            with (S754_zero false) ];
        cbn [bind];
        destruct (eqb (box_volume optimized_dims) Double.zero);
        reflexivity. }
    destruct (eqb (box_volume optimized_dims) Double.zero) eqn:Ho.
    { left. split; [right; now right|].
      unfold analyze, _calculate_transport_efficiency, Double.truediv.
      cbv zeta.
      change (mul (mul (mul (Double.length original_dims)
                            (Double.width original_dims))
                       (Double.height original_dims))
                  (lit SustainabilityAnalyzer.over_packaging_factor))
        with (traditional_volume original_dims).
      change (mul (mul (Double.length optimized_dims)
                       (Double.width optimized_dims))
                  (Double.height optimized_dims))
        with (box_volume optimized_dims).
      rewrite Ht, Ho. cbn [bind]. reflexivity. }
    right. split; [auto|].
    assert (Hu : eqb (traditional_units original_dims) Double.zero = false).
    { destruct (is_finite (traditional_volume original_dims)) eqn:Ft.
      - now apply traditional_units_nonzero.
      - unfold traditional_units.
        destruct (traditional_volume original_dims) as [s|s| |s m e];
          try discriminate Ft; try discriminate It. reflexivity. }
    destruct (analyze_shape64 original_dims optimized_dims material
                              product_weight Ht Ho Hu)
      as (rep & _ & _ & R & _).
    exists rep. exact R. }
  destruct C as [[Hc R] | [(H1 & H2 & H3) [rep R]]]; rewrite R; split; split.
  - intros _. exact Hc.
  - reflexivity.
  - intros [rep E]. discriminate E.
  - intros (H1 & H2 & H3).
    destruct Hc as [E | [E | E]]; congruence.
  - discriminate.
  - intros [E | [E | E]]; congruence.
  - intros _. auto.
  - intros _. exists rep. reflexivity.
Qed.

Lemma analyze_raises_iff_witness :
  (analyze (box 20 15 8) (box 22 17 10) test_material64 (lit 0.5)
   = Raise ZeroDivisionError
   <-> eqb (traditional_volume (box 20 15 8)) Double.zero = true
       \/ is_infinite (traditional_volume (box 20 15 8)) = true
       \/ eqb (box_volume (box 22 17 10)) Double.zero = true)
  /\ (returns (analyze (box 20 15 8) (box 22 17 10) test_material64
                       (lit 0.5))
      <-> eqb (traditional_volume (box 20 15 8)) Double.zero = false
          /\ is_infinite (traditional_volume (box 20 15 8)) = false
          /\ eqb (box_volume (box 22 17 10)) Double.zero = false).
Proof.
  apply (analyze_raises_iff (box 20 15 8) (box 22 17 10) test_material64
                            (lit 0.5));
    reflexivity.
Defined.

End Analyzer64.
